(** * Suspended-frames registry of pydevd (ptvsd vendored copy)

    A shallow embedding of
    [src/ptvsd/_vendored/pydevd/_pydevd_bundle/pydevd_suspended_frames.py]:
    the variable nodes ([_ObjectVariable], [_FrameVariable]), the per-suspend
    [_FramesTracker] and the top-level [SuspendedFramesManager].

    Python objects that the module shares by reference live in explicit
    heaps: variable nodes and trackers are allocated in lists and named by
    their position, so that object identity ([is]) is equality of
    references.  Dictionaries the module iterates over are insertion-ordered
    association lists; dictionaries it only indexes are [gmap]s.  The line
    map that [track] is handed is kept by value (see [forget_lines]).
    What a resolver lists is read off the live object at every call and
    is a function of the moment of the call.  The [threading.Lock] of a
    tracker is not modelled: every method runs to completion before the
    next one starts. *)

From stdpp Require Import gmap strings list fin_maps.

Set Warnings "-register-all".
Local Open Scope string_scope.
Local Open Scope list_scope.
Local Open Scope stdpp_scope.

(** ** Exceptions and results

    [ReferenceError] is not raised by the source: a method of the model
    answers with it when it is given a reference that is not in the heap,
    which no Python program can do. *)

Inductive exn : Type :=
  | KeyError
  | IndexError
  | AttributeError
  | ValueError
  | NotImplementedError
  | ReferenceError.

Inductive result (A : Type) : Type :=
  | Ok (a : A)
  | Raise (e : exn).
Arguments Ok {A} a.
Arguments Raise {A} e.

Global Instance exn_eq_dec : EqDecision exn.
Proof. solve_decision. Defined.

(** ** Insertion-ordered dictionaries

    [for k in d] visits the keys in insertion order; [d[k] = v] keeps the
    position of a key that is already present and appends a new one. *)

Section odict.
Context {K V : Type} `{EqDecision K}.

Fixpoint od_get (k : K) (d : list (K * V)) : option V :=
  match d with
  | [] => None
  | (k', v) :: d' => if decide (k = k') then Some v else od_get k d'
  end.

Fixpoint od_set (k : K) (v : V) (d : list (K * V)) : list (K * V) :=
  match d with
  | [] => [(k, v)]
  | (k', v') :: d' =>
      if decide (k = k') then (k, v) :: d' else (k', v') :: od_set k v d'
  end.

(** [d.pop(k, None)]: removes the key when present, never fails. *)
Fixpoint od_pop (k : K) (d : list (K * V)) : list (K * V) :=
  match d with
  | [] => []
  | (k', v) :: d' =>
      if decide (k = k') then od_pop k d' else (k', v) :: od_pop k d'
  end.

(** [d.setdefault(k, v)], as far as the dictionary is concerned. *)
Definition od_setdefault (k : K) (v : V) (d : list (K * V)) : list (K * V) :=
  match od_get k d with
  | Some _ => d
  | None => od_set k v d
  end.

(** In-place update of the object stored under [k] (no effect when the
    key is missing). *)
Fixpoint od_alter (f : V → V) (k : K) (d : list (K * V)) : list (K * V) :=
  match d with
  | [] => []
  | (k', v) :: d' =>
      if decide (k = k') then (k', f v) :: d' else (k', v) :: od_alter f k d'
  end.

Definition od_keys (d : list (K * V)) : list K := map fst d.
End odict.

(** ** Python values as the module sees them *)

(** The [fmt] dictionary of the debug adapter protocol
    (keys ['hex'] and ['rawString'], both optional). *)
Record fmt_dict : Type := FmtDict {
  fmt_hex : option bool;
  fmt_rawString : option bool
}.

(** [SafeRepr] instance configured by [get_var_data]. *)
Record SafeRepr : Type := MkSafeRepr {
  convert_to_hex : bool;
  raw_value : bool
}.

(** The third component of a resolver entry: a literal suffix or a function
    of the parent's evaluate name. *)
Inductive evaluate_name_spec : Type :=
  | EvLiteral (s : string)
  | EvCallable (f : string → string).

(** What [get_type(value)] hands back as the resolver of a container: one
    with [get_contents_debug_adapter_protocol], or one that only has
    [get_dictionary].  The resolver reads the live object whenever it is
    called, and the object may have changed since the last call or compute
    an attribute anew: what it lists is a function of the moment of the
    call.  Moments are numbered. *)
Inductive resolver (V : Type) : Type :=
  | DapResolver
      (get_contents_debug_adapter_protocol :
         nat → option fmt_dict → list (string * V * option evaluate_name_spec))
  | DictResolver (get_dictionary : nat → list (string * V)).
Arguments DapResolver {V} _.
Arguments DictResolver {V} _.

(** A Python object: its identity [id(value)], its type name, the resolver
    [get_type] finds for it ([None] for a non-container), which lists the
    contents the object has at the moment it is asked, and, when the
    object is a [dict], its items in iteration order. *)
Inductive value : Type :=
  | PyValue (v_id : Z) (v_type_name : string)
            (v_resolver : option (resolver value))
            (v_items : option (list (string * value))).

Definition v_id (v : value) : Z :=
  match v with PyValue i _ _ _ => i end.
Definition v_type_name (v : value) : string :=
  match v with PyValue _ t _ _ => t end.
Definition v_resolver (v : value) : option (resolver value) :=
  match v with PyValue _ _ r _ => r end.
Definition v_items (v : value) : option (list (string * value)) :=
  match v with PyValue _ _ _ d => d end.

(** A frame object: [id(frame)], [f_code.co_name], [f_locals], [f_back]. *)
Inductive frame : Type :=
  | Frame (f_id : Z) (co_name : string)
          (f_locals : list (string * value)) (f_back : option frame).

Definition f_id (f : frame) : Z :=
  match f with Frame i _ _ _ => i end.
Definition co_name (f : frame) : string :=
  match f with Frame _ n _ _ => n end.
Definition f_locals (f : frame) : list (string * value) :=
  match f with Frame _ _ l _ => l end.
Definition f_back (f : frame) : option frame :=
  match f with Frame _ _ _ b => b end.

(** The frames reached from [f] through [f_back], [f] first. *)
Fixpoint frame_chain (f : frame) : list frame :=
  match f with
  | Frame _ _ _ back =>
      f :: match back with
           | Some g => frame_chain g
           | None => []
           end
  end.

Definition frame_chain_opt (f : option frame) : list frame :=
  match f with
  | Some g => frame_chain g
  | None => []
  end.

(** ** Heap objects *)

(** References into the two heaps. *)
Abbreviation node_ref := nat (only parsing).
Abbreviation tracker_ref := nat (only parsing).

(** A variable node.  [_register_variable] is the bound method of the
    tracker that owns the node, so the node carries that tracker's
    reference. *)
Inductive node : Type :=
  | _ObjectVariable (name : string) (val : value)
                    (_register_variable : tracker_ref)
                    (_is_return_value : bool) (evaluate_name : option string)
  | _FrameVariable (fr : frame) (_register_variable : tracker_ref).

Inductive manager_ref : Type := TheManager.

Record tracker_state : Type := MkTracker {
  _suspended_frames_manager : option manager_ref;
  _frame_id_to_frame : list (Z * frame);
  _frame_id_to_main_thread_id : gmap Z string;
  _thread_id_to_frame_ids : list (string * list Z);
  _frame_id_to_lineno : gmap Z Z;
  _main_thread_id : option string;
  _untracked : bool;
  _variable_reference_to_variable : gmap Z node_ref
}.

Record manager_state : Type := MkManager {
  _thread_id_to_fake_frames : gmap string (gmap Z frame);
  _thread_id_to_tracker : list (string * tracker_ref);
  _variable_reference_to_frames_tracker : gmap Z tracker_ref
}.

(** The state of the process as far as this module is concerned: the two
    heaps, the single manager and what was written to [sys.stderr]. *)
Record world : Type := MkWorld {
  heap_nodes : list node;
  heap_trackers : list tracker_state;
  the_manager : manager_state;
  stderr : list string
}.

(** Functions of other modules and builtins that the source calls. *)
Class Externals : Type := MkExternals {
  (** [pydevd_constants.RETURN_VALUES_DICT] *)
  RETURN_VALUES_DICT : string;
  (** [sorted_attributes_key a < sorted_attributes_key b] *)
  sorted_attributes_key_lt : string → string → bool;
  (** [repr] of a string, as ['%r'] formats it *)
  py_repr : string → string;
  (** [int(s)] for a string [s]; [None] stands for [ValueError] *)
  py_int : string → option Z;
  (** [pydevd_constants.get_frame()] *)
  get_frame : result frame;
  (** the rendered value that [get_variable_details] obtains from the
      [SafeRepr] instance *)
  to_string : SafeRepr → value → string
}.

(** ** State helpers *)

Definition upd_nodes (f : list node → list node) (w : world) : world :=
  MkWorld (f (heap_nodes w)) (heap_trackers w) (the_manager w) (stderr w).

Definition upd_trackers (f : list tracker_state → list tracker_state)
    (w : world) : world :=
  MkWorld (heap_nodes w) (f (heap_trackers w)) (the_manager w) (stderr w).

(** Mutation of the tracker object [r]. *)
Definition upd_tracker (r : tracker_ref) (f : tracker_state → tracker_state)
    (w : world) : world :=
  upd_trackers (alter f r) w.

Definition upd_manager (f : manager_state → manager_state) (w : world) : world :=
  MkWorld (heap_nodes w) (heap_trackers w) (f (the_manager w)) (stderr w).

Definition write_stderr (s : string) (w : world) : world :=
  MkWorld (heap_nodes w) (heap_trackers w) (the_manager w) (stderr w ++ [s]).

Definition with_suspended_frames_manager (x : option manager_ref)
    (t : tracker_state) : tracker_state :=
  MkTracker x (_frame_id_to_frame t) (_frame_id_to_main_thread_id t)
    (_thread_id_to_frame_ids t) (_frame_id_to_lineno t) (_main_thread_id t)
    (_untracked t) (_variable_reference_to_variable t).

Definition with_frame_id_to_frame (f : list (Z * frame) → list (Z * frame))
    (t : tracker_state) : tracker_state :=
  MkTracker (_suspended_frames_manager t) (f (_frame_id_to_frame t))
    (_frame_id_to_main_thread_id t) (_thread_id_to_frame_ids t)
    (_frame_id_to_lineno t) (_main_thread_id t) (_untracked t)
    (_variable_reference_to_variable t).

Definition with_frame_id_to_main_thread_id (f : gmap Z string → gmap Z string)
    (t : tracker_state) : tracker_state :=
  MkTracker (_suspended_frames_manager t) (_frame_id_to_frame t)
    (f (_frame_id_to_main_thread_id t)) (_thread_id_to_frame_ids t)
    (_frame_id_to_lineno t) (_main_thread_id t) (_untracked t)
    (_variable_reference_to_variable t).

Definition with_thread_id_to_frame_ids
    (f : list (string * list Z) → list (string * list Z))
    (t : tracker_state) : tracker_state :=
  MkTracker (_suspended_frames_manager t) (_frame_id_to_frame t)
    (_frame_id_to_main_thread_id t) (f (_thread_id_to_frame_ids t))
    (_frame_id_to_lineno t) (_main_thread_id t) (_untracked t)
    (_variable_reference_to_variable t).

Definition with_frame_id_to_lineno (x : gmap Z Z)
    (t : tracker_state) : tracker_state :=
  MkTracker (_suspended_frames_manager t) (_frame_id_to_frame t)
    (_frame_id_to_main_thread_id t) (_thread_id_to_frame_ids t)
    x (_main_thread_id t) (_untracked t)
    (_variable_reference_to_variable t).

Definition with_main_thread_id (x : option string)
    (t : tracker_state) : tracker_state :=
  MkTracker (_suspended_frames_manager t) (_frame_id_to_frame t)
    (_frame_id_to_main_thread_id t) (_thread_id_to_frame_ids t)
    (_frame_id_to_lineno t) x (_untracked t)
    (_variable_reference_to_variable t).

Definition with_untracked (x : bool) (t : tracker_state) : tracker_state :=
  MkTracker (_suspended_frames_manager t) (_frame_id_to_frame t)
    (_frame_id_to_main_thread_id t) (_thread_id_to_frame_ids t)
    (_frame_id_to_lineno t) (_main_thread_id t) x
    (_variable_reference_to_variable t).

Definition with_variable_reference_to_variable
    (f : gmap Z node_ref → gmap Z node_ref)
    (t : tracker_state) : tracker_state :=
  MkTracker (_suspended_frames_manager t) (_frame_id_to_frame t)
    (_frame_id_to_main_thread_id t) (_thread_id_to_frame_ids t)
    (_frame_id_to_lineno t) (_main_thread_id t) (_untracked t)
    (f (_variable_reference_to_variable t)).

Definition with_thread_id_to_fake_frames
    (f : gmap string (gmap Z frame) → gmap string (gmap Z frame))
    (m : manager_state) : manager_state :=
  MkManager (f (_thread_id_to_fake_frames m)) (_thread_id_to_tracker m)
    (_variable_reference_to_frames_tracker m).

Definition with_thread_id_to_tracker
    (f : list (string * tracker_ref) → list (string * tracker_ref))
    (m : manager_state) : manager_state :=
  MkManager (_thread_id_to_fake_frames m) (f (_thread_id_to_tracker m))
    (_variable_reference_to_frames_tracker m).

Definition with_variable_reference_to_frames_tracker
    (f : gmap Z tracker_ref → gmap Z tracker_ref)
    (m : manager_state) : manager_state :=
  MkManager (_thread_id_to_fake_frames m) (_thread_id_to_tracker m)
    (f (_variable_reference_to_frames_tracker m)).

(** Truth value of an optional string: [None] and [''] are false. *)
Definition truthy (o : option string) : bool :=
  match o with
  | Some s => negb (String.eqb s "")
  | None => false
  end.

(** [a or b] on an optional string [a]. *)
Definition py_or (a : option string) (b : string) : string :=
  match a with
  | Some s => if String.eqb s "" then b else s
  | None => b
  end.

(** [list.sort(key=...)]: a stable sort, given the strict comparison of the
    keys. *)
Fixpoint insert_by {A : Type} (lt : A → A → bool) (x : A) (l : list A)
    : list A :=
  match l with
  | [] => [x]
  | y :: l' => if lt x y then x :: y :: l' else y :: insert_by lt x l'
  end.

Definition sort_by {A : Type} (lt : A → A → bool) (l : list A) : list A :=
  fold_left (λ acc x, insert_by lt x acc) l [].

(** ** Variable nodes: [_AbstractVariable], [_ObjectVariable], [_FrameVariable] *)

Definition get_name (self : node) : string :=
  match self with
  | _ObjectVariable name _ _ _ _ => name
  | _FrameVariable fr _ => co_name fr
  end.

(** [id(self.value)] *)
Definition get_variable_reference (self : node) : Z :=
  match self with
  | _ObjectVariable _ val _ _ _ => v_id val
  | _FrameVariable fr _ => f_id fr
  end.

(** [_FramesTracker._register_variable], the callback every node calls on
    itself when it is built. *)
Definition _register_variable (self : tracker_ref) (variable : node_ref)
    (w : world) : world :=
  match heap_nodes w !! variable with
  | Some nd =>
      let variable_reference := get_variable_reference nd in
      upd_tracker self
        (with_variable_reference_to_variable (<[variable_reference := variable]>))
        w
  | None => w
  end.

(** Allocation of a new node object. *)
Definition new_node (nd : node) (w : world) : node_ref * world :=
  (length (heap_nodes w), upd_nodes (λ ns, ns ++ [nd]) w).

(** [_ObjectVariable.__init__] *)
Definition ObjectVariable_init (name : string) (val : value)
    (register_variable : tracker_ref) (is_return_value : bool)
    (evaluate_name : option string) (w : world) : node_ref * world :=
  let '(self, w) :=
    new_node (_ObjectVariable name val register_variable is_return_value
                evaluate_name) w in
  (self, _register_variable register_variable self w).

(** [_FrameVariable.__init__] *)
Definition FrameVariable_init (fr : frame) (register_variable : tracker_ref)
    (w : world) : node_ref * world :=
  let '(self, w) := new_node (_FrameVariable fr register_variable) w in
  (self, _register_variable register_variable self w).

(** The [var_data] dictionary of [get_var_data]; the optional keys are
    options. *)
Record var_data : Type := MkVarData {
  vd_name : string;
  vd_value : string;
  vd_type : string;
  vd_evaluateName : option string;
  vd_variablesReference : option Z;
  vd_presentationHint : option (list string)
}.

(** One [_ObjectVariable] per entry, in order. *)
Fixpoint make_children (register_variable : tracker_ref)
    (is_return_value : bool) (lst : list (string * value * option string))
    (w : world) : list node_ref * world :=
  match lst with
  | [] => ([], w)
  | (key, val, evaluate_name) :: rest =>
      let '(variable, w) :=
        ObjectVariable_init key val register_variable is_return_value
          evaluate_name w in
      let '(children_variables, w) :=
        make_children register_variable is_return_value rest w in
      (variable :: children_variables, w)
  end.

(** The evaluate name of a child, given a (true) parent evaluate name. *)
Definition child_evaluate_name (parent_evaluate_name : string)
    (evaluate_name : option evaluate_name_spec) : option string :=
  match evaluate_name with
  | None => None
  | Some (EvCallable f) => Some (f parent_evaluate_name)
  | Some (EvLiteral s) => Some (parent_evaluate_name +:+ s)
  end.

Definition name_of (w : world) (n : node_ref) : string :=
  match heap_nodes w !! n with
  | Some nd => get_name nd
  | None => ""
  end.

Section nodes.
Context {E : Externals}.

(** [get_variable_details(self.value, to_string=safe_repr)], of which
    [get_var_data] keeps the type name, the resolver and the rendered
    value. *)
Definition get_variable_details (v : value) (safe_repr : SafeRepr)
    : string * option (resolver value) * string :=
  (v_type_name v, v_resolver v, to_string safe_repr v).

(** [_AbstractVariable.get_var_data].  A [_FrameVariable] never gets an
    [_is_return_value] attribute, so the method raises on it. *)
Definition get_var_data (self : node) (fmt : option fmt_dict)
    : result var_data :=
  let safe_repr :=
    match fmt with
    | Some f => MkSafeRepr (default false (fmt_hex f))
                  (default false (fmt_rawString f))
    | None => MkSafeRepr false false
    end in
  match self with
  | _FrameVariable _ _ => Raise AttributeError
  | _ObjectVariable self_name self_value _ is_return_value evaluate_name =>
      let '(type_name, resolver, value) :=
        get_variable_details self_value safe_repr in
      let is_raw_string :=
        bool_decide (type_name ∈ ["str"; "unicode"; "bytes"; "bytearray"]) in
      let attributes := [] in
      let attributes :=
        if is_raw_string then attributes ++ ["rawString"] else attributes in
      let name := self_name in
      let '(attributes, name) :=
        if is_return_value
        then (attributes ++ ["readOnly"], "(return) " +:+ name)
        else (attributes, name) in
      Ok (MkVarData name value type_name evaluate_name
            (match resolver with
             | Some _ => Some (get_variable_reference self)
             | None => None
             end)
            (if bool_decide (0 < length attributes)
             then Some attributes else None))
  end.

(** [sorted_variables_key a < sorted_variables_key b] for two nodes. *)
Definition sorted_variables_key_lt (w : world) (a b : node_ref) : bool :=
  sorted_attributes_key_lt (name_of w a) (name_of w b).

(** [_ObjectVariable.get_children_variables], on the attributes
    [value], [_register_variable] and [evaluate_name] of [self]. *)
Definition ObjectVariable_get_children_variables (self_value : value)
    (register_variable : tracker_ref) (self_evaluate_name : option string)
    (fmt : option fmt_dict) (now : nat) (w : world)
    : list node_ref * world :=
  match v_resolver self_value with
  | None => ([], w)
  | Some resolver =>
      let lst :=
        match resolver with
        | DapResolver get_contents_debug_adapter_protocol =>
            get_contents_debug_adapter_protocol now fmt
        | DictResolver get_dictionary =>
            let dct := get_dictionary now in
            let lst :=
              sort_by (λ a b, sorted_attributes_key_lt a.1 b.1) dct in
            map (λ kv, (kv.1, kv.2, None)) lst
        end in
      let parent_evaluate_name := self_evaluate_name in
      if truthy parent_evaluate_name
      then
        make_children register_variable false
          (map (λ e, (e.1.1, e.1.2,
                      child_evaluate_name
                        (default "" parent_evaluate_name) e.2)) lst)
          w
      else
        make_children register_variable false
          (map (λ e, (e.1.1, e.1.2, None)) lst) w
  end.

(** The loop of [_FrameVariable.get_children_variables] over the items
    of [f_locals].  Iterating a return-values binding that is not a
    dictionary raises; the nodes built so far stay registered. *)
Fixpoint frame_children (register_variable : tracker_ref)
    (locals : list (string * value)) (w : world)
    : result (list node_ref) * world :=
  match locals with
  | [] => (Ok [], w)
  | (key, val) :: rest =>
      let is_return_value := bool_decide (key = RETURN_VALUES_DICT) in
      if is_return_value
      then
        match v_items val with
        | None => (Raise AttributeError, w)
        | Some items =>
            let '(variables, w) :=
              make_children register_variable is_return_value
                (map (λ kv, (kv.1, kv.2,
                             Some (key +:+ "[" +:+ py_repr kv.1 +:+ "]")))
                   items) w in
            match frame_children register_variable rest w with
            | (Ok more, w) => (Ok (variables ++ more), w)
            | (Raise e, w) => (Raise e, w)
            end
        end
      else
        let '(variable, w) :=
          ObjectVariable_init key val register_variable is_return_value
            (Some key) w in
        match frame_children register_variable rest w with
        | (Ok more, w) => (Ok (variable :: more), w)
        | (Raise e, w) => (Raise e, w)
        end
  end.

(** [_FrameVariable.get_children_variables], on the attributes [frame]
    and [_register_variable] of [self]. *)
Definition FrameVariable_get_children_variables (self_frame : frame)
    (register_variable : tracker_ref) (fmt : option fmt_dict) (w : world)
    : result (list node_ref) * world :=
  match frame_children register_variable (f_locals self_frame) w with
  | (Ok children_variables, w) =>
      (Ok (sort_by (sorted_variables_key_lt w) children_variables), w)
  | (Raise e, w) => (Raise e, w)
  end.

(** Method dispatch on the class of the node; [now] is the moment of the
    call, at which the resolver reads the object. *)
Definition get_children_variables (self : node) (fmt : option fmt_dict)
    (now : nat) (w : world) : result (list node_ref) * world :=
  match self with
  | _ObjectVariable _ self_value register_variable _ self_evaluate_name =>
      let '(children_variables, w) :=
        ObjectVariable_get_children_variables self_value register_variable
          self_evaluate_name fmt now w in
      (Ok children_variables, w)
  | _FrameVariable self_frame register_variable =>
      FrameVariable_get_children_variables self_frame register_variable fmt w
  end.
End nodes.

(** The line that [track] writes to [sys.stderr] when the id already has a
    tracker; it ends with a newline. *)
Definition double_track_warning : string :=
  "pydevd: Something is wrong. Tracker being added twice to the same thread id."
  +:+ String (Ascii.ascii_of_nat 10) "".

(** ** [_FramesTracker]

    [create_thread_suspend_command] hands the topmost frame to
    [py_db.cmd_factory] and is left out, with the [py_db] attribute. *)

Module FramesTracker.

(** [_FramesTracker.__init__]: a new tracker object bound to the manager. *)
Definition init (w : world) : tracker_ref * world :=
  (length (heap_trackers w),
   upd_trackers
     (λ ts, ts ++ [MkTracker (Some TheManager) [] ∅ [] ∅ None false ∅]) w).

Definition obtain_as_variable (self : tracker_ref) (name : string)
    (val : value) (evaluate_name : option string) (w : world)
    : result node_ref * world :=
  match heap_trackers w !! self with
  | None => (Raise ReferenceError, w)
  | Some tr =>
      let evaluate_name :=
        match evaluate_name with
        | None => name
        | Some e => e
        end in
      let variable_reference := v_id val in
      match _variable_reference_to_variable tr !! variable_reference with
      | Some variable => (Ok variable, w)
      | None =>
          let '(variable, w) :=
            ObjectVariable_init name val self false (Some evaluate_name) w in
          (Ok variable, w)
      end
  end.

Definition get_main_thread_id (tr : tracker_state) : option string :=
  _main_thread_id tr.

Definition get_variable (tr : tracker_state) (variable_reference : Z)
    : result node_ref :=
  match _variable_reference_to_variable tr !! variable_reference with
  | Some variable => Ok variable
  | None => Raise KeyError
  end.

(** One turn of the [while frame is not None] loop of [track]. *)
Definition track_frame (self : tracker_ref)
    (coroutine_or_main_thread_id thread_id : string) (fr : frame)
    (w : world) : world :=
  let frame_id := f_id fr in
  let w := upd_tracker self (with_frame_id_to_frame (od_set frame_id fr)) w in
  let '(_, w) := FrameVariable_init fr self w in
  let w :=
    upd_manager
      (with_variable_reference_to_frames_tracker (<[frame_id := self]>)) w in
  let w :=
    upd_tracker self
      (with_thread_id_to_frame_ids
         (od_alter (λ frame_ids_from_thread, frame_ids_from_thread ++ [frame_id])
            coroutine_or_main_thread_id)) w in
  upd_tracker self
    (with_frame_id_to_main_thread_id (<[frame_id := thread_id]>)) w.

(** The loop itself: it follows [f_back] until it finds [None]. *)
Fixpoint track_loop (self : tracker_ref)
    (coroutine_or_main_thread_id thread_id : string) (fr : frame)
    (w : world) : world :=
  match fr with
  | Frame _ _ _ back =>
      let w :=
        track_frame self coroutine_or_main_thread_id thread_id fr w in
      match back with
      | Some g => track_loop self coroutine_or_main_thread_id thread_id g w
      | None => w
      end
  end.

Definition track (self : tracker_ref) (thread_id : string)
    (fr : option frame) (frame_id_to_lineno : gmap Z Z)
    (frame_custom_thread_id : option string) (w : world)
    : result unit * world :=
  match heap_trackers w !! self with
  | None => (Raise ReferenceError, w)
  | Some tr =>
      let coroutine_or_main_thread_id :=
        py_or frame_custom_thread_id thread_id in
      match _suspended_frames_manager tr with
      | None => (Raise AttributeError, w)
      | Some _ =>
          let w :=
            match od_get coroutine_or_main_thread_id
                    (_thread_id_to_tracker (the_manager w)) with
            | Some _ =>
                write_stderr double_track_warning w
            | None => w
            end in
          let w :=
            upd_manager
              (with_thread_id_to_tracker
                 (od_set coroutine_or_main_thread_id self)) w in
          let w := upd_tracker self (with_main_thread_id (Some thread_id)) w in
          let w :=
            upd_tracker self (with_frame_id_to_lineno frame_id_to_lineno) w in
          let w :=
            upd_tracker self
              (with_thread_id_to_frame_ids
                 (od_setdefault coroutine_or_main_thread_id [])) w in
          match fr with
          | Some f =>
              (Ok tt,
               track_loop self coroutine_or_main_thread_id thread_id f w)
          | None => (Ok tt, w)
          end
      end
  end.

(** [for thread_id in ...: manager._thread_id_to_tracker.pop(thread_id, None)] *)
Definition pop_thread_ids (thread_ids : list string)
    (d : list (string * tracker_ref)) : list (string * tracker_ref) :=
  fold_left (λ d thread_id, od_pop thread_id d) thread_ids d.

(** [for frame_id in ...: del manager._variable_reference_to_frames_tracker[frame_id]];
    [del] raises [KeyError] on a missing key and the loop stops there. *)
Fixpoint del_frame_ids (frame_ids : list Z) (d : gmap Z tracker_ref)
    : result unit * gmap Z tracker_ref :=
  match frame_ids with
  | [] => (Ok tt, d)
  | frame_id :: rest =>
      match d !! frame_id with
      | Some _ => del_frame_ids rest (delete frame_id d)
      | None => (Raise KeyError, d)
      end
  end.

Definition untrack_all (self : tracker_ref) (w : world)
    : result unit * world :=
  match heap_trackers w !! self with
  | None => (Raise ReferenceError, w)
  | Some tr =>
      if _untracked tr
      then (Ok tt, w)
      else
        let w := upd_tracker self (with_untracked true) w in
        let w :=
          upd_manager
            (with_thread_id_to_tracker
               (pop_thread_ids (od_keys (_thread_id_to_frame_ids tr)))) w in
        let '(deleted, index) :=
          del_frame_ids (od_keys (_frame_id_to_frame tr))
            (_variable_reference_to_frames_tracker (the_manager w)) in
        let w :=
          upd_manager
            (with_variable_reference_to_frames_tracker (λ _, index)) w in
        match deleted with
        | Raise e => (Raise e, w)
        | Ok _ =>
            let w := upd_tracker self (with_frame_id_to_frame (λ _, [])) w in
            let w :=
              upd_tracker self (with_frame_id_to_main_thread_id (λ _, ∅)) w in
            let w :=
              upd_tracker self (with_thread_id_to_frame_ids (λ _, [])) w in
            let w := upd_tracker self (with_frame_id_to_lineno ∅) w in
            let w := upd_tracker self (with_main_thread_id None) w in
            let w :=
              upd_tracker self (with_suspended_frames_manager None) w in
            let w :=
              upd_tracker self
                (with_variable_reference_to_variable (λ _, ∅)) w in
            (Ok tt, w)
        end
  end.

Definition get_topmost_frame_and_frame_id_to_line (tr : tracker_state)
    (thread_id : string) : result (option (frame * gmap Z Z)) :=
  match od_get thread_id (_thread_id_to_frame_ids tr) with
  | Some frame_ids =>
      match frame_ids with
      | [] => Raise IndexError
      | frame_id :: _ =>
          match od_get frame_id (_frame_id_to_frame tr) with
          | Some fr => Ok (Some (fr, _frame_id_to_lineno tr))
          | None => Raise KeyError
          end
      end
  | None => Ok None
  end.

Definition find_frame (tr : tracker_state) (thread_id : string)
    (frame_id : Z) : option frame :=
  od_get frame_id (_frame_id_to_frame tr).

End FramesTracker.

(** ** [SuspendedFramesManager] *)

(** A [frame_id] argument as the protocol layer passes it: a string or an
    integer. *)
Inductive frame_id_arg : Type :=
  | FidStr (s : string)
  | FidInt (z : Z).

Global Instance frame_id_arg_eq_dec : EqDecision frame_id_arg.
Proof. solve_decision. Defined.

Module SuspendedFramesManager.

(** [SuspendedFramesManager.__init__] *)
Definition init : manager_state := MkManager ∅ [] ∅.

(** The fallback loop of [_get_tracker_for_variable_reference]: the first
    tracker of [_thread_id_to_tracker] whose [get_variable] does not
    raise [KeyError]. *)
Fixpoint scan_trackers (trackers : list tracker_state)
    (items : list (string * tracker_ref)) (variable_reference : Z)
    : option tracker_ref :=
  match items with
  | [] => None
  | (_thread_id, tracker) :: rest =>
      match trackers !! tracker with
      | Some tr =>
          match FramesTracker.get_variable tr variable_reference with
          | Ok _ => Some tracker
          | Raise _ => scan_trackers trackers rest variable_reference
          end
      | None => scan_trackers trackers rest variable_reference
      end
  end.

Definition _get_tracker_for_variable_reference (w : world)
    (variable_reference : Z) : option tracker_ref :=
  match _variable_reference_to_frames_tracker (the_manager w)
          !! variable_reference with
  | Some tracker => Some tracker
  | None =>
      scan_trackers (heap_trackers w)
        (_thread_id_to_tracker (the_manager w)) variable_reference
  end.

Definition get_thread_id_for_variable_reference (w : world)
    (variable_reference : Z) : option string :=
  match _get_tracker_for_variable_reference w variable_reference with
  | Some frames_tracker =>
      match heap_trackers w !! frames_tracker with
      | Some tr => FramesTracker.get_main_thread_id tr
      | None => None
      end
  | None => None
  end.

Definition get_frame_tracker (w : world) (thread_id : string)
    : option tracker_ref :=
  od_get thread_id (_thread_id_to_tracker (the_manager w)).

Definition get_variable (w : world) (variable_reference : Z)
    : result node_ref :=
  match _get_tracker_for_variable_reference w variable_reference with
  | None => Raise KeyError
  | Some frames_tracker =>
      match heap_trackers w !! frames_tracker with
      | Some tr => FramesTracker.get_variable tr variable_reference
      | None => Raise ReferenceError
      end
  end.

Definition get_topmost_frame_and_frame_id_to_line (w : world)
    (thread_id : string) : result (option (frame * gmap Z Z)) :=
  match od_get thread_id (_thread_id_to_tracker (the_manager w)) with
  | None => Ok None
  | Some tracker =>
      match heap_trackers w !! tracker with
      | Some tr =>
          FramesTracker.get_topmost_frame_and_frame_id_to_line tr thread_id
      | None => Raise ReferenceError
      end
  end.

(** The context manager [track_frames]: [body] is the [with] block; the
    [finally] clause runs [untrack_all] on every exit and an exception
    of the clause replaces the outcome of the block. *)
Definition track_frames {A : Type}
    (body : tracker_ref → world → result A * world) (w : world)
    : result A * world :=
  let '(tracker, w) := FramesTracker.init w in
  let '(outcome, w) := body tracker w in
  match FramesTracker.untrack_all tracker w with
  | (Ok _, w) => (outcome, w)
  | (Raise e, w) => (Raise e, w)
  end.

Section frames.
Context {E : Externals}.

(** [int(frame_id)] *)
Definition int_of_frame_id (frame_id : frame_id_arg) : result Z :=
  match frame_id with
  | FidInt z => Ok z
  | FidStr s =>
      match py_int s with
      | Some z => Ok z
      | None => Raise ValueError
      end
  end.

(** [add_fake_frame]: the target [setdefault(thread_id, {})] is
    evaluated before the subscript [int(frame_id)]. *)
Definition add_fake_frame (thread_id : string) (frame_id : frame_id_arg)
    (fr : frame) (w : world) : result unit * world :=
  let w :=
    upd_manager
      (with_thread_id_to_fake_frames
         (λ d, match d !! thread_id with
               | Some _ => d
               | None => <[thread_id := ∅]> d
               end)) w in
  match int_of_frame_id frame_id with
  | Raise e => (Raise e, w)
  | Ok n =>
      (Ok tt,
       upd_manager
         (with_thread_id_to_fake_frames
            (alter (λ fake_frames, <[n := fr]> fake_frames) thread_id)) w)
  end.

(** The [try] block of [find_frame]. *)
Definition find_frame_try (w : world) (thread_id : string)
    (frame_id : frame_id_arg) : result (option frame) :=
  if bool_decide (frame_id = FidStr "*")
  then
    match get_frame with
    | Ok fr => Ok (Some fr)
    | Raise e => Raise e
    end
  else
    match int_of_frame_id frame_id with
    | Raise e => Raise e
    | Ok frame_id =>
        let fake_frames :=
          _thread_id_to_fake_frames (the_manager w) !! thread_id in
        match
          match fake_frames with
          | Some fake_frames => fake_frames !! frame_id
          | None => None
          end
        with
        | Some fr => Ok (Some fr)
        | None =>
            let frames_tracker :=
              od_get thread_id (_thread_id_to_tracker (the_manager w)) in
            match frames_tracker with
            | Some frames_tracker =>
                match heap_trackers w !! frames_tracker with
                | Some tr =>
                    Ok (FramesTracker.find_frame tr thread_id frame_id)
                | None => Raise ReferenceError
                end
            | None => Ok None
            end
        end
    end.

(** [find_frame]: the bare [except] prints the traceback and
    returns [None]. *)
Definition find_frame (thread_id : string) (frame_id : frame_id_arg)
    (w : world) : option frame * world :=
  match find_frame_try w thread_id frame_id with
  | Ok fr => (fr, w)
  | Raise _ => (None, write_stderr "Traceback (most recent call last):" w)
  end.
End frames.

End SuspendedFramesManager.

(** The state in which the manager has just been created. *)
Definition initial_world : world :=
  MkWorld [] [] SuspendedFramesManager.init [].

(** ** Histories of the registry

    What the tracing engine and the protocol layer can do to the registry,
    one call at a time. *)

Inductive action : Type :=
  | Act_new_tracker
  | Act_track (self : tracker_ref) (thread_id : string) (fr : option frame)
              (frame_id_to_lineno : gmap Z Z)
              (frame_custom_thread_id : option string)
  | Act_untrack_all (self : tracker_ref)
  | Act_obtain_as_variable (self : tracker_ref) (name : string) (val : value)
                           (evaluate_name : option string)
  | Act_get_children_variables (variable : node_ref) (fmt : option fmt_dict)
                               (now : nat)
  | Act_add_fake_frame (thread_id : string) (frame_id : frame_id_arg)
                       (fr : frame).

Section histories.
Context {E : Externals}.

(** The state after a call; a call that raises leaves the state it had
    reached. *)
Definition step (a : action) (w : world) : world :=
  match a with
  | Act_new_tracker => (FramesTracker.init w).2
  | Act_track self thread_id fr frame_id_to_lineno frame_custom_thread_id =>
      (FramesTracker.track self thread_id fr frame_id_to_lineno
         frame_custom_thread_id w).2
  | Act_untrack_all self => (FramesTracker.untrack_all self w).2
  | Act_obtain_as_variable self name val evaluate_name =>
      (FramesTracker.obtain_as_variable self name val evaluate_name w).2
  | Act_get_children_variables variable fmt now =>
      match heap_nodes w !! variable with
      | Some nd => (get_children_variables nd fmt now w).2
      | None => w
      end
  | Act_add_fake_frame thread_id frame_id fr =>
      (SuspendedFramesManager.add_fake_frame thread_id frame_id fr w).2
  end.

Definition run (acts : list action) (w : world) : world :=
  fold_left (λ w a, step a w) acts w.

(** A [track] call is exclusive when none of the frames it walks is
    held in the manager's index by another tracker. *)
Definition exclusive (a : action) (w : world) : Prop :=
  match a with
  | Act_track self _ fr _ _ =>
      ∀ f r, f ∈ frame_chain_opt fr →
        _variable_reference_to_frames_tracker (the_manager w) !! f_id f
          = Some r →
        r = self
  | _ => True
  end.

Inductive reachable : world → Prop :=
  | reachable_init : reachable initial_world
  | reachable_step w a : reachable w → reachable (step a w).

(** States reached when every [track] call was exclusive. *)
Inductive reachable_exclusive : world → Prop :=
  | reachable_exclusive_init : reachable_exclusive initial_world
  | reachable_exclusive_step w a :
      reachable_exclusive w → exclusive a w →
      reachable_exclusive (step a w).

(** An expansion only builds variable nodes. *)
Definition expansion (a : action) : Prop :=
  match a with
  | Act_obtain_as_variable _ _ _ _ | Act_get_children_variables _ _ _ => True
  | _ => False
  end.
End histories.

(** The tracker [r] holds the handle [h] in its
    [_variable_reference_to_variable] table. *)
Definition owns (w : world) (r : tracker_ref) (h : Z) : Prop :=
  ∃ tr, heap_trackers w !! r = Some tr
        ∧ is_Some (_variable_reference_to_variable tr !! h).

(** The handle of a node object of the heap. *)
Definition handle_of (w : world) (n : node_ref) : option Z :=
  get_variable_reference <$> heap_nodes w !! n.

(** The frame ids that are keys of the [_frame_id_to_frame] table of a
    tracker, and those that the manager's index maps to the tracker. *)
Definition frame_keys (tr : tracker_state) : gset Z :=
  list_to_set (od_keys (_frame_id_to_frame tr)).

Definition indexed_to (w : world) (r : tracker_ref) : gset Z :=
  dom (filter (λ kv, kv.2 = r)
         (_variable_reference_to_frames_tracker (the_manager w))).

(** Consistency of the tables, kept by every call. *)
Record wf (w : world) : Prop := MkWf {
  wf_index :
    ∀ h r, _variable_reference_to_frames_tracker (the_manager w) !! h = Some r →
      ∃ tr, heap_trackers w !! r = Some tr
            ∧ is_Some (od_get h (_frame_id_to_frame tr))
            ∧ is_Some (_variable_reference_to_variable tr !! h);
  wf_threads :
    ∀ tid r, (tid, r) ∈ _thread_id_to_tracker (the_manager w) →
      ∃ tr, heap_trackers w !! r = Some tr
            ∧ is_Some (od_get tid (_thread_id_to_frame_ids tr));
  wf_keys :
    ∀ r tr, heap_trackers w !! r = Some tr →
      NoDup (od_keys (_frame_id_to_frame tr));
  wf_nodes :
    ∀ r tr h n, heap_trackers w !! r = Some tr →
      _variable_reference_to_variable tr !! h = Some n →
      ∃ nd, heap_nodes w !! n = Some nd ∧ get_variable_reference nd = h;
  wf_closed :
    ∀ r tr, heap_trackers w !! r = Some tr →
      _suspended_frames_manager tr = None →
      (∀ h, _variable_reference_to_frames_tracker (the_manager w) !! h
            ≠ Some r)
      ∧ (∀ tid, (tid, r) ∉ _thread_id_to_tracker (the_manager w))
}.

(** With exclusive [track] calls the index and the frame tables agree. *)
Definition index_agrees (w : world) : Prop :=
  ∀ r tr h, heap_trackers w !! r = Some tr →
    (is_Some (od_get h (_frame_id_to_frame tr))
     ↔ _variable_reference_to_frames_tracker (the_manager w) !! h = Some r).

(** A tracker with its handle table left out: what building variable
    nodes never changes. *)
Definition forget_variables (tr : tracker_state) : tracker_state :=
  with_variable_reference_to_variable (λ _, ∅) tr.

(** [w'] comes from [w] by building and registering variable nodes only. *)
Record grows (w w' : world) : Prop := MkGrows {
  grows_manager : the_manager w' = the_manager w;
  grows_stderr : stderr w' = stderr w;
  grows_nodes : ∃ extra, heap_nodes w' = heap_nodes w ++ extra;
  grows_length : length (heap_trackers w') = length (heap_trackers w);
  grows_trackers :
    ∀ r tr, heap_trackers w !! r = Some tr →
      ∃ tr', heap_trackers w' !! r = Some tr'
        ∧ forget_variables tr' = forget_variables tr
        ∧ (∀ h, is_Some (_variable_reference_to_variable tr !! h) →
                is_Some (_variable_reference_to_variable tr' !! h))
        ∧ (∀ h n, _variable_reference_to_variable tr' !! h = Some n →
                  _variable_reference_to_variable tr !! h = Some n
                  ∨ ∃ nd, heap_nodes w' !! n = Some nd
                          ∧ get_variable_reference nd = h)
}.

(** The world after [__init__] of a node [nd] owned by the tracker [r]. *)
Definition with_node (nd : node) (r : tracker_ref) (w : world) : world :=
  MkWorld (heap_nodes w ++ [nd])
    (alter
       (with_variable_reference_to_variable
          (<[get_variable_reference nd := length (heap_nodes w)]>))
       r (heap_trackers w))
    (the_manager w) (stderr w).

(** The node that [make_children] builds for an entry. *)
Definition child_node (r : tracker_ref) (b : bool)
    (e : string * value * option string) : node :=
  _ObjectVariable e.1.1 e.1.2 r b e.2.

(** The entries that [_ObjectVariable.get_children_variables] turns into
    nodes in a call at the moment [now]: the resolver's listing with the
    evaluate names of the children worked out. *)
Definition object_entries {E : Externals} (self_value : value)
    (self_evaluate_name : option string) (fmt : option fmt_dict) (now : nat)
    : list (string * value * option string) :=
  match v_resolver self_value with
  | None => []
  | Some resolver =>
      let lst :=
        match resolver with
        | DapResolver get_contents_debug_adapter_protocol =>
            get_contents_debug_adapter_protocol now fmt
        | DictResolver get_dictionary =>
            map (λ kv, (kv.1, kv.2, None))
              (sort_by (λ a b, sorted_attributes_key_lt a.1 b.1)
                 (get_dictionary now))
        end in
      if truthy self_evaluate_name
      then map (λ e, (e.1.1, e.1.2,
                      child_evaluate_name (default "" self_evaluate_name) e.2))
             lst
      else map (λ e, (e.1.1, e.1.2, None)) lst
  end.

(** The nodes that the loop of [_FrameVariable.get_children_variables]
    builds, in the order in which it builds them; [None] when a
    return-values binding is not a dictionary. *)
Fixpoint frame_child_nodes {E : Externals} (r : tracker_ref)
    (locals : list (string * value)) : option (list node) :=
  match locals with
  | [] => Some []
  | (key, val) :: rest =>
      if bool_decide (key = RETURN_VALUES_DICT)
      then
        match v_items val with
        | None => None
        | Some items =>
            (λ more,
               map (λ kv, child_node r true
                            (kv.1, kv.2,
                             Some (key +:+ "[" +:+ py_repr kv.1 +:+ "]")))
                 items ++ more) <$> frame_child_nodes r rest
        end
      else
        (λ more, child_node r false (key, val, Some key) :: more)
          <$> frame_child_nodes r rest
  end.

(** What one turn of the loop of [track] does to the tracker itself; [n]
    is the reference of the [_FrameVariable] node the turn builds. *)
Definition track_frame_local (eid thread_id : string) (fr : frame) (n : node_ref)
    (t : tracker_state) : tracker_state :=
  with_frame_id_to_main_thread_id (<[f_id fr := thread_id]>)
    (with_thread_id_to_frame_ids (od_alter (λ ids, ids ++ [f_id fr]) eid)
       (with_variable_reference_to_variable (<[f_id fr := n]>)
          (with_frame_id_to_frame (od_set (f_id fr) fr) t))).

(** The same for the whole walk over the frames [chain]. *)
Fixpoint track_local (eid thread_id : string) (chain : list frame)
    (n : node_ref) (t : tracker_state) : tracker_state :=
  match chain with
  | [] => t
  | fr :: chain =>
      track_local eid thread_id chain (S n)
        (track_frame_local eid thread_id fr n t)
  end.

(** What [track] does to the tracker before it enters the loop. *)
Definition track_pre_local (eid thread_id : string) (lines : gmap Z Z)
    (t : tracker_state) : tracker_state :=
  with_thread_id_to_frame_ids (od_setdefault eid [])
    (with_frame_id_to_lineno lines
       (with_main_thread_id (Some thread_id) t)).

(** The manager's index after the walk of tracker [self] over [chain]. *)
Definition index_after_track (self : tracker_ref) (chain : list frame)
    (index : gmap Z tracker_ref) : gmap Z tracker_ref :=
  fold_left (λ index fr, <[f_id fr := self]> index) chain index.

(** A tracker after a completed [untrack_all]. *)
Definition cleared_tracker : tracker_state :=
  MkTracker None [] ∅ [] ∅ None true ∅.

(** Whether a node was built for a captured return value. *)
Definition node_is_return_value (nd : node) : bool :=
  match nd with
  | _ObjectVariable _ _ _ b _ => b
  | _FrameVariable _ _ => false
  end.

(** ** Sample data

    An instance of the external functions and a few objects, used to run
    the model on concrete inputs. *)

(** The key of [pydevd_resolver.sorted_attributes_key]: plain names first,
    then [_x], [__x] and [__x__] names. *)
Definition sample_attributes_group (s : string) : nat :=
  if String.prefix "__" s
  then (if String.prefix "__" (String.rev s) then 3 else 2)
  else if String.prefix "_" s then 1 else 0.

Definition sample_attributes_key_lt (a b : string) : bool :=
  let ga := sample_attributes_group a in
  let gb := sample_attributes_group b in
  (ga <? gb)%nat || ((ga =? gb)%nat && String.ltb a b).

Definition sample_frame_F1 : frame := Frame 101 "caller" [] None.
Definition sample_frame_F2 : frame :=
  Frame 102 "callee" [] (Some sample_frame_F1).

Definition sample_externals : Externals :=
  MkExternals "__pydevd_ret_val_dict" sample_attributes_key_lt
    (λ s, "'" +:+ s +:+ "'")
    (λ s, if String.eqb s "101" then Some 101%Z
          else if String.eqb s "102" then Some 102%Z else None)
    (Ok sample_frame_F2)
    (λ _ v, "<" +:+ v_type_name v +:+ ">").

Definition sample_int_42 : value := PyValue 42 "int" None None.
Definition sample_int_1 : value := PyValue 1 "int" None None.
Definition sample_int_2 : value := PyValue 2 "int" None None.

(** The list [[1, 2]], listed with the suffixes ['[0]'] and ['[1]']. *)
Definition sample_list : value :=
  PyValue 500 "list"
    (Some (DapResolver (λ _ _,
       [("0", sample_int_1, Some (EvLiteral "[0]"));
        ("1", sample_int_2, Some (EvLiteral "[1]"))])))
    None.

(** A world with one tracker that tracks nothing yet. *)
Definition sample_world_1 : world := (FramesTracker.init initial_world).2.

(** A world with two trackers. *)
Definition sample_world_2 : world := (FramesTracker.init sample_world_1).2.

(** The name of the [i]-th node of a list. *)
Definition name_at (nds : list node) (i : nat) : string :=
  match nds !! i with
  | Some nd => get_name nd
  | None => ""
  end.

(** The positions of [nds] in the order in which
    [sort(key=sorted_variables_key)] leaves the nodes. *)
Definition sorted_positions {E : Externals} (nds : list node) : list nat :=
  sort_by (λ i j, sorted_attributes_key_lt (name_at nds i) (name_at nds j))
    (seq 0 (length nds)).

(** The children that [get_children_variables] builds for a node, in the
    order in which it builds them ([None]: the call raises), and the
    positions of these in the order in which it returns them. *)
Definition children_nodes {E : Externals} (self : node)
    (fmt : option fmt_dict) (now : nat) : option (list node) :=
  match self with
  | _ObjectVariable _ v r _ e =>
      Some (map (child_node r false) (object_entries v e fmt now))
  | _FrameVariable fr r => frame_child_nodes r (f_locals fr)
  end.

Definition children_order {E : Externals} (self : node) (nds : list node)
    : list nat :=
  match self with
  | _ObjectVariable _ _ _ _ _ => seq 0 (length nds)
  | _FrameVariable _ _ => sorted_positions nds
  end.

(** The first tracker after [obtain_as_variable('x', 42)]. *)
Definition sample_world_x : world :=
  (FramesTracker.obtain_as_variable 0 "x" sample_int_42 None sample_world_1).2.

(** A node for the list [[1, 2]] bound to [k], owned by the first tracker. *)
Definition sample_node_k : node :=
  _ObjectVariable "k" sample_list 0 false (Some "k").

(** The node objects behind a list of references. *)
Definition nodes_of (w : world) (kids : list node_ref) : list node :=
  omap (λ k, heap_nodes w !! k) kids.

(** The evaluate name that [_FrameVariable.get_children_variables] gives to
    the node of the captured return [return_key]: ['%s[%r]'] applied to the
    return-values key and [return_key]. *)
Definition return_evaluate_name {E : Externals} (return_key : string) : string :=
  RETURN_VALUES_DICT +:+ "[" +:+ py_repr return_key +:+ "]".

(** The return-values dictionary [{'foo': 42}] and a frame that has it
    among its locals. *)
Definition sample_return_dict : value :=
  PyValue 600 "dict" None (Some [("foo", sample_int_42)]).

Definition sample_frame_ret : frame :=
  Frame 103 "g"
    [("b", sample_int_2); ("__pydevd_ret_val_dict", sample_return_dict);
     ("a", sample_int_1)]
    None.

(** The fabricated frame registered for a thread under an id, if any. *)
Definition fake_frame (w : world) (thread_id : string) (n : Z)
    : option frame :=
  match _thread_id_to_fake_frames (the_manager w) !! thread_id with
  | Some fake_frames => fake_frames !! n
  | None => None
  end.

(** A suspended thread ["T"] with the frames [F2] (top) and [F1], and a
    fabricated frame registered for ["T"] under the id of [F1]. *)
Definition sample_fake_frame : frame := Frame 101 "fabricated" [] None.

Definition sample_world_T : world :=
  (FramesTracker.track 0 "T" (Some sample_frame_F2) ∅ None sample_world_1).2.

Definition sample_world_fake : world :=
  (SuspendedFramesManager.add_fake_frame (E := sample_externals) "T"
     (FidStr "101") sample_fake_frame sample_world_T).2.



(** Two threads suspended at the same time, each with its own tracker;
    both sessions have registered the same object (identity 42). *)
Definition sample_frame_F3 : frame := Frame 301 "other" [] None.


(** A thread ["A"] suspended twice without a resume in between: two
    trackers track its frame [F1] (the second [track] writes the warning
    and overwrites the registrations of the first). *)
Definition sample_world_double : world :=
  run (E := sample_externals)
    [Act_new_tracker; Act_new_tracker;
     Act_track 0 "A" (Some sample_frame_F1) ∅ None;
     Act_track 1 "A" (Some sample_frame_F1) ∅ None]
    initial_world.

(** ** Further operations and invariants *)

(** [_AbstractVariable.get_value]: the wrapped object, a value or a frame. *)
Definition get_value (self : node) : value + frame :=
  match self with
  | _ObjectVariable _ val _ _ _ => inl val
  | _FrameVariable fr _ => inr fr
  end.

Section suspend_command.
Context {Cmd StopReason Message SuspendType : Type}.

(** [py_db.cmd_factory.make_thread_suspend_message], which builds the
    command out of the thread id, the topmost frame, the three arguments
    it is handed through and the line map. *)
Variable make_thread_suspend_message :
  string → frame → StopReason → Message → SuspendType → gmap Z Z → Cmd.

(** [_FramesTracker.create_thread_suspend_command]: unlike
    [get_topmost_frame_and_frame_id_to_line] it subscripts
    [_thread_id_to_frame_ids]. *)
Definition create_thread_suspend_command (tr : tracker_state)
    (thread_id : string) (stop_reason : StopReason) (message : Message)
    (suspend_type : SuspendType) : result Cmd :=
  match od_get thread_id (_thread_id_to_frame_ids tr) with
  | None => Raise KeyError
  | Some frame_ids =>
      match frame_ids with
      | [] => Raise IndexError
      | frame_id :: _ =>
          match od_get frame_id (_frame_id_to_frame tr) with
          | None => Raise KeyError
          | Some fr =>
              Ok (make_thread_suspend_message thread_id fr stop_reason message
                    suspend_type (_frame_id_to_lineno tr))
          end
      end
  end.
End suspend_command.

(** The manager has the tracker [r] in its index or in its thread map. *)
Definition registered (w : world) (r : tracker_ref) : Prop :=
  (∃ h, _variable_reference_to_frames_tracker (the_manager w) !! h = Some r)
  ∨ (∃ tid, (tid, r) ∈ _thread_id_to_tracker (the_manager w)).

(** Two more facts that every call keeps: a registered tracker knows its
    main thread, and the frame ids in the lists of a tracker are keys of
    its frame table. *)
Record wf_lists (w : world) : Prop := MkWfLists {
  wf_main :
    ∀ r tr, heap_trackers w !! r = Some tr → registered w r →
      is_Some (_main_thread_id tr);
  wf_listed :
    ∀ r tr tid ids h, heap_trackers w !! r = Some tr →
      od_get tid (_thread_id_to_frame_ids tr) = Some ids → h ∈ ids →
      is_Some (od_get h (_frame_id_to_frame tr))
}.

(** A list is in the order of a strict comparison [lt]: no element is
    smaller than one that comes before it. *)
Definition ordered {A : Type} (lt : A → A → bool) (l : list A) : Prop :=
  ∀ i j x y, i < j → l !! i = Some x → l !! j = Some y → lt y x = false.

(** The fabricated frames are those of [w] and more. *)
Definition fake_frames_kept (w w' : world) : Prop :=
  ∀ thread_id n,
    is_Some (fake_frame w thread_id n) → is_Some (fake_frame w' thread_id n).

(** The tracker whose [_register_variable] a node carries. *)
Definition node_tracker (self : node) : tracker_ref :=
  match self with
  | _ObjectVariable _ _ r _ _ => r
  | _FrameVariable _ r => r
  end.

(** The sample thread ["T"] with a local [k] bound to the list [[1, 2]]
    obtained as a variable of its session. *)
Definition sample_world_k : world :=
  (FramesTracker.obtain_as_variable 0 "k" sample_list None sample_world_T).2.

(** An object whose resolver only has [get_dictionary], with the
    attributes [b], [_x] and [a], and a frame whose return-values binding
    is not a dictionary. *)
Definition sample_instance : value :=
  PyValue 700 "Point"
    (Some (DictResolver
             (λ _, [("b", sample_int_2); ("_x", sample_int_42);
                    ("a", sample_int_1)])))
    None.

Definition sample_frame_bad : frame :=
  Frame 104 "h"
    [("b", sample_int_2); ("__pydevd_ret_val_dict", sample_int_42);
     ("a", sample_int_1)]
    None.

(** Whether a call registers a fabricated frame. *)
Definition fabricates (a : action) : bool :=
  match a with
  | Act_add_fake_frame _ _ _ => true
  | _ => false
  end.

(** Every frame of a frame table is stored under its own identity. *)
Definition frames_keyed (w : world) : Prop :=
  ∀ r tr h fr, heap_trackers w !! r = Some tr →
    od_get h (_frame_id_to_frame tr) = Some fr → f_id fr = h.

(** Where a frame that [find_frame] returns for the integer id [n] comes
    from: it is the fabricated frame of the thread under [n], or there is
    none and it is the frame with identity [n] in the frame table of the
    tracker of the thread. *)
Definition frame_found (w : world) (thread_id : string) (n : Z) (fr : frame)
    : Prop :=
  fake_frame w thread_id n = Some fr
  ∨ (fake_frame w thread_id n = None
     ∧ f_id fr = n
     ∧ ∃ r tr,
         SuspendedFramesManager.get_frame_tracker w thread_id = Some r
         ∧ heap_trackers w !! r = Some tr
         ∧ od_get n (_frame_id_to_frame tr) = Some fr).

(** The two outcomes of [find_frame]: an answer and an untouched state,
    or a contained failure of [get_frame] or of the conversion of the id,
    with the traceback printed and [None] returned. *)
Definition find_frame_outcome {E : Externals} (w : world)
    (thread_id : string) (frame_id : frame_id_arg) (res : option frame)
    (w' : world) : Prop :=
  (w' = w
   ∧ ∀ fr, res = Some fr →
       (frame_id = FidStr "*" ∧ get_frame = Ok fr)
       ∨ (frame_id ≠ FidStr "*"
          ∧ ∃ n, SuspendedFramesManager.int_of_frame_id frame_id = Ok n
                 ∧ frame_found w thread_id n fr))
  ∨ (w' = write_stderr "Traceback (most recent call last):" w
     ∧ res = None
     ∧ ((frame_id = FidStr "*" ∧ ∃ e, get_frame = Raise e)
        ∨ (frame_id ≠ FidStr "*"
           ∧ SuspendedFramesManager.int_of_frame_id frame_id
             = Raise ValueError))).

(** A tracker that was asked to track a thread with no frame. *)
Definition sample_world_empty : world :=
  (FramesTracker.track 0 "E" None ∅ None sample_world_1).2.

(** The [with] block of a suspension: the frames of the thread are
    tracked, then the requests [acts] of the client are served. *)
Definition suspension {E : Externals} (thread_id : string)
    (fr : option frame) (frame_id_to_lineno : gmap Z Z)
    (frame_custom_thread_id : option string) (acts : list action)
    (tracker : tracker_ref) (w : world) : result unit * world :=
  let '(res, w) :=
    FramesTracker.track tracker thread_id fr frame_id_to_lineno
      frame_custom_thread_id w in
  (res, run acts w).

(** The type names whose values [get_var_data] marks as raw strings, and
    the presentation attributes of a node. *)
Definition raw_string_types : list string :=
  ["str"; "unicode"; "bytes"; "bytearray"].

Definition presentation_attributes (type_name : string)
    (is_return_value : bool) : list string :=
  (if bool_decide (type_name ∈ raw_string_types) then ["rawString"] else [])
  ++ (if is_return_value then ["readOnly"] else []).

(** A variable-data record with another rendered value. *)
Definition with_value (s : string) (vd : var_data) : var_data :=
  MkVarData (vd_name vd) s (vd_type vd) (vd_evaluateName vd)
    (vd_variablesReference vd) (vd_presentationHint vd).


(** The handle table of a tracker after the nodes of the entries [lst]
    have been built, the first one at the reference [n], and registered one
    after the other: a later entry with the identity of an earlier one
    takes its place. *)
Fixpoint register_all (n : node_ref)
    (lst : list (string * value * option string)) (m : gmap Z node_ref)
    : gmap Z node_ref :=
  match lst with
  | [] => m
  | en :: rest => register_all (S n) rest (<[v_id en.1.2 := n]> m)
  end.

(** An object that computes one of its attributes anew whenever it is
    read: [area] is a new object at every moment, [name] is always the
    same one. *)
Definition sample_name : value := PyValue 801 "str" None None.

Definition sample_shape : value :=
  PyValue 900 "Shape"
    (Some (DapResolver (λ now _,
       [("area", PyValue (1000 + Z.of_nat now) "float" None None,
         Some (EvLiteral ".area"));
        ("name", sample_name, Some (EvLiteral ".name"))])))
    None.

Definition sample_node_s : node :=
  _ObjectVariable "s" sample_shape 0 false (Some "s").

(** A tracker with its line map left out.  The model keeps the line map
    of a tracker by value, as the contents of the dictionary that [track]
    was handed; the code keeps the dictionary itself and [untrack_all]
    empties it in place, which a tracker or caller that holds the same
    dictionary sees.  Statements about the trackers that a call does not
    address therefore leave their line maps out. *)
Definition forget_lines (tr : tracker_state) : tracker_state :=
  with_frame_id_to_lineno ∅ tr.


(** * Properties *)

(** ** Insertion-ordered dictionaries *)

Section odict_facts.
Context {K V : Type} `{EqDecision K}.
Implicit Types (d : list (K * V)) (k : K) (v : V).

Lemma od_get_set_eq d k v : od_get k (od_set k v d) = Some v.
Proof.
  induction d as [|[k' v'] d IH]; simpl.
  - by rewrite decide_True.
  - destruct (decide (k = k')); simpl.
    + by rewrite decide_True.
    + by rewrite decide_False.
Qed.

Lemma od_get_set_ne d k k' v :
  k ≠ k' → od_get k' (od_set k v d) = od_get k' d.
Proof.
  intros Hne. induction d as [|[k0 v0] d IH]; simpl.
  - by rewrite decide_False.
  - destruct (decide (k = k0)) as [->|]; simpl.
    + by rewrite !decide_False.
    + destruct (decide (k' = k0)); done.
Qed.

Lemma od_get_set d k k' v :
  od_get k' (od_set k v d) = if decide (k = k') then Some v else od_get k' d.
Proof.
  destruct (decide (k = k')) as [->|].
  - apply od_get_set_eq.
  - by apply od_get_set_ne.
Qed.

Lemma od_get_pop_eq d k : od_get k (od_pop k d) = None.
Proof.
  induction d as [|[k' v'] d IH]; simpl; [done|].
  destruct (decide (k = k')); simpl; [done|].
  by rewrite decide_False.
Qed.

Lemma od_get_pop_ne d k k' :
  k ≠ k' → od_get k' (od_pop k d) = od_get k' d.
Proof.
  intros Hne. induction d as [|[k0 v0] d IH]; simpl; [done|].
  destruct (decide (k = k0)) as [->|]; simpl.
  - by rewrite decide_False.
  - destruct (decide (k' = k0)); done.
Qed.

Lemma od_get_pop_Some d k k' v :
  od_get k' (od_pop k d) = Some v → k ≠ k' ∧ od_get k' d = Some v.
Proof.
  destruct (decide (k = k')) as [->|Hne].
  - by rewrite od_get_pop_eq.
  - by rewrite od_get_pop_ne.
Qed.

Lemma od_get_alter d (f : V → V) k k' :
  od_get k' (od_alter f k d)
  = if decide (k = k') then f <$> od_get k' d else od_get k' d.
Proof.
  induction d as [|[k0 v0] d IH]; simpl.
  - by destruct (decide (k = k')).
  - destruct (decide (k = k0)) as [->|Hk]; simpl.
    + destruct (decide (k' = k0)) as [->|Hk'].
      * by rewrite decide_True.
      * by rewrite decide_False.
    + destruct (decide (k' = k0)) as [->|Hk'].
      * by rewrite decide_False.
      * apply IH.
Qed.

Lemma od_get_setdefault d k k' v :
  od_get k' (od_setdefault k v d)
  = if decide (k = k')
    then Some (default v (od_get k d)) else od_get k' d.
Proof.
  unfold od_setdefault. destruct (od_get k d) as [v0|] eqn:Hk; simpl.
  - destruct (decide (k = k')) as [<-|]; done.
  - apply od_get_set.
Qed.

Lemma od_get_is_Some d k : is_Some (od_get k d) ↔ k ∈ od_keys d.
Proof.
  unfold od_keys. induction d as [|[k' v'] d IH]; simpl.
  - split; [by intros [? ?]|by intros ?%elem_of_nil].
  - rewrite elem_of_cons. destruct (decide (k = k')) as [->|Hne].
    + split; eauto.
    + rewrite IH. split; [by right|]. by intros [?|?].
Qed.

Lemma od_get_None d k : od_get k d = None ↔ k ∉ od_keys d.
Proof. rewrite <-od_get_is_Some, eq_None_not_Some. done. Qed.

Lemma od_keys_set d k v :
  od_keys (od_set k v d)
  = if decide (k ∈ od_keys d) then od_keys d else od_keys d ++ [k].
Proof.
  unfold od_keys. induction d as [|[k' v'] d IH].
  - destruct (decide (k ∈ map fst [])) as [Hin|Hin];
      [by apply elem_of_nil in Hin|done].
  - cbn [od_set map fst]. destruct (decide (k = k')) as [->|Hne].
    + destruct (decide (k' ∈ k' :: map fst d)) as [Hin|Hin]; [done|].
      exfalso. apply Hin, elem_of_cons; by left.
    + cbn [map fst]. rewrite IH.
      destruct (decide (k ∈ map fst d)) as [Hin|Hin];
        destruct (decide (k ∈ k' :: map fst d)) as [Hin'|Hin']; try done.
      * exfalso. apply Hin', elem_of_cons; by right.
      * apply elem_of_cons in Hin' as [?|?]; done.
Qed.

Lemma od_keys_set_NoDup d k v :
  NoDup (od_keys d) → NoDup (od_keys (od_set k v d)).
Proof.
  intros Hd. rewrite od_keys_set. case_decide; [done|].
  apply NoDup_app. split_and!; [done| |apply NoDup_singleton].
  intros x Hx ->%list_elem_of_singleton. done.
Qed.
Lemma elem_of_od_get d k v : od_get k d = Some v → (k, v) ∈ d.
Proof.
  induction d as [|[k' v'] d IH]; [done|]. simpl.
  destruct (decide (k = k')) as [->|Hne].
  - intros [= ->]. by left.
  - intros ?%IH. by right.
Qed.

Lemma elem_of_od_set d k v k' v' :
  (k', v') ∈ od_set k v d → (k', v') = (k, v) ∨ (k', v') ∈ d.
Proof.
  induction d as [|[k0 v0] d IH]; simpl.
  - intros ?%list_elem_of_singleton. by left.
  - destruct (decide (k = k0)) as [->|Hne].
    + intros [?|?]%elem_of_cons; [by left|]. right. by right.
    + intros [->|[?|?]%IH]%elem_of_cons.
      * right. by left.
      * by left.
      * right. by right.
Qed.

Lemma elem_of_od_pop d k k' v' :
  (k', v') ∈ od_pop k d → k' ≠ k ∧ (k', v') ∈ d.
Proof.
  induction d as [|[k0 v0] d IH]; simpl; [by intros ?%elem_of_nil|].
  destruct (decide (k = k0)) as [->|Hne].
  - intros [? ?]%IH. split; [done|]. by right.
  - intros [[= -> ->]|[? ?]%IH]%elem_of_cons.
    + split; [done|]. by left.
    + split; [done|]. by right.
Qed.
End odict_facts.

(** ** The stable sort *)

Section sort_facts.
Context {A : Type}.
Implicit Types (lt : A → A → bool) (l : list A).

Lemma insert_by_Permutation lt x l : insert_by lt x l ≡ₚ x :: l.
Proof.
  induction l as [|y l IH]; simpl; [done|].
  destruct (lt x y); [done|]. rewrite IH. apply Permutation_swap.
Qed.

Lemma sort_by_fold_Permutation lt l acc :
  fold_left (λ acc x, insert_by lt x acc) l acc ≡ₚ acc ++ l.
Proof.
  revert acc. induction l as [|x l IH]; intros acc; simpl.
  - by rewrite app_nil_r.
  - rewrite IH, insert_by_Permutation.
    by rewrite (Permutation_middle acc l x).
Qed.

Lemma sort_by_Permutation lt l : sort_by lt l ≡ₚ l.
Proof. unfold sort_by. by rewrite sort_by_fold_Permutation. Qed.

Lemma sort_by_length lt l : length (sort_by lt l) = length l.
Proof. by rewrite sort_by_Permutation. Qed.

Lemma sort_by_nil lt : sort_by lt [] = [].
Proof. done. Qed.
End sort_facts.

Section sort_map.
Context {A B : Type} (g : A → B) (lt : A → A → bool) (lt' : B → B → bool).

Lemma insert_by_map x l :
  (∀ y, y ∈ l → lt' (g x) (g y) = lt x y) →
  insert_by lt' (g x) (map g l) = map g (insert_by lt x l).
Proof.
  induction l as [|y l IH]; intros Hlt; simpl; [done|].
  rewrite Hlt by (by left). destruct (lt x y); simpl; [done|].
  rewrite IH; [done|]. intros z Hz. apply Hlt. by right.
Qed.

Lemma sort_by_fold_map l acc :
  (∀ x y, x ∈ l → y ∈ acc ++ l → lt' (g x) (g y) = lt x y) →
  fold_left (λ acc x, insert_by lt' x acc) (map g l) (map g acc)
  = map g (fold_left (λ acc x, insert_by lt x acc) l acc).
Proof.
  revert acc. induction l as [|x l IH]; intros acc Hlt; simpl; [done|].
  rewrite insert_by_map.
  - apply IH. intros x' y Hx' Hy. apply Hlt; [by right|].
    rewrite elem_of_app, insert_by_Permutation, elem_of_cons in Hy.
    rewrite elem_of_app, elem_of_cons. tauto.
  - intros y Hy. apply Hlt; [by left|]. apply elem_of_app. by left.
Qed.

Lemma sort_by_map l :
  (∀ x y, x ∈ l → y ∈ l → lt' (g x) (g y) = lt x y) →
  sort_by lt' (map g l) = map g (sort_by lt l).
Proof. intros Hlt. unfold sort_by. by apply (sort_by_fold_map l []). Qed.
End sort_map.

(** ** Building variable nodes *)

Lemma forget_variables_fields tr tr' :
  forget_variables tr' = forget_variables tr →
  _suspended_frames_manager tr' = _suspended_frames_manager tr
  ∧ _frame_id_to_frame tr' = _frame_id_to_frame tr
  ∧ _frame_id_to_main_thread_id tr' = _frame_id_to_main_thread_id tr
  ∧ _thread_id_to_frame_ids tr' = _thread_id_to_frame_ids tr
  ∧ _frame_id_to_lineno tr' = _frame_id_to_lineno tr
  ∧ _main_thread_id tr' = _main_thread_id tr
  ∧ _untracked tr' = _untracked tr.
Proof.
  destruct tr, tr'. unfold forget_variables; simpl. intros [=]. by subst.
Qed.

Lemma grows_refl w : grows w w.
Proof.
  split; try done.
  - exists []. by rewrite app_nil_r.
  - intros r tr Hr. exists tr. split_and!; auto.
Qed.

Lemma grows_trans w1 w2 w3 : grows w1 w2 → grows w2 w3 → grows w1 w3.
Proof.
  intros [Hm1 He1 [x1 Hn1] Hl1 Ht1] [Hm2 He2 [x2 Hn2] Hl2 Ht2]. split.
  - congruence.
  - congruence.
  - exists (x1 ++ x2). by rewrite Hn2, Hn1, app_assoc.
  - congruence.
  - intros r tr Hr.
    destruct (Ht1 r tr Hr) as (tr2 & Hr2 & Hf2 & Hin2 & Hnew2).
    destruct (Ht2 r tr2 Hr2) as (tr3 & Hr3 & Hf3 & Hin3 & Hnew3).
    exists tr3. split_and!; [done|congruence|auto|].
    intros h n Hn. destruct (Hnew3 h n Hn) as [Hold|Hnd]; [|by right].
    destruct (Hnew2 h n Hold) as [?|(nd & Hnd & Hh)]; [by left|right].
    exists nd. split; [|done]. rewrite Hn2. by apply lookup_app_l_Some.
Qed.

Lemma init_node_eq nd r w :
  (let '(self, w1) := new_node nd w in (self, _register_variable r self w1))
  = (length (heap_nodes w), with_node nd r w).
Proof.
  unfold new_node, _register_variable. cbn [upd_nodes heap_nodes].
  by rewrite list_lookup_middle.
Qed.

Lemma ObjectVariable_init_eq name val r b e w :
  ObjectVariable_init name val r b e w
  = (length (heap_nodes w), with_node (_ObjectVariable name val r b e) r w).
Proof. apply init_node_eq. Qed.

Lemma FrameVariable_init_eq fr r w :
  FrameVariable_init fr r w
  = (length (heap_nodes w), with_node (_FrameVariable fr r) r w).
Proof. apply init_node_eq. Qed.

Lemma with_node_grows nd r w : grows w (with_node nd r w).
Proof.
  split; try done.
  - by exists [nd].
  - simpl. apply length_alter.
  - intros r' tr Hr'. simpl. destruct (decide (r = r')) as [->|Hne].
    + eexists. rewrite list_lookup_alter_eq, Hr'. split_and!; [done|done| |].
      * intros h Hh. simpl.
        destruct (decide (get_variable_reference nd = h)) as [<-|?].
        -- rewrite lookup_insert_eq. eauto.
        -- by rewrite lookup_insert_ne.
      * intros h n. simpl.
        destruct (decide (get_variable_reference nd = h)) as [<-|?].
        -- rewrite lookup_insert_eq. intros [= <-]. right. exists nd.
           split; [|done]. by apply list_lookup_middle.
        -- rewrite lookup_insert_ne by done. by left.
    + exists tr. rewrite list_lookup_alter_ne by done. split_and!; auto.
Qed.

Lemma with_node_lookup nd r w tr :
  heap_trackers w !! r = Some tr →
  ∃ tr', heap_trackers (with_node nd r w) !! r = Some tr'
    ∧ _variable_reference_to_variable tr' !! get_variable_reference nd
      = Some (length (heap_nodes w)).
Proof.
  intros Hr. unfold with_node. cbn [heap_trackers].
  rewrite list_lookup_alter_eq, Hr. eexists. split; [done|].
  simpl. by rewrite lookup_insert_eq.
Qed.

Lemma with_node_owns nd r w tr :
  heap_trackers w !! r = Some tr →
  owns (with_node nd r w) r (get_variable_reference nd).
Proof.
  intros Hr. destruct (with_node_lookup nd r w tr Hr) as (tr' & Hr' & Hv).
  exists tr'. split; [done|]. rewrite Hv. eauto.
Qed.

Lemma grows_owns w w' r h : grows w w' → owns w r h → owns w' r h.
Proof.
  intros Hg (tr & Hr & Hh).
  destruct (grows_trackers _ _ Hg r tr Hr) as (tr' & Hr' & _ & Hin & _).
  exists tr'. auto.
Qed.

Lemma grows_lookup_node w w' n nd :
  grows w w' → heap_nodes w !! n = Some nd → heap_nodes w' !! n = Some nd.
Proof.
  intros [_ _ [extra ->] _ _] Hn. by apply lookup_app_l_Some.
Qed.

Lemma grows_tracker_None w w' r :
  grows w w' → heap_trackers w !! r = None → heap_trackers w' !! r = None.
Proof.
  intros Hg. rewrite !lookup_ge_None, (grows_length _ _ Hg). done.
Qed.

Lemma make_children_fst r b lst w :
  (make_children r b lst w).1 = seq (length (heap_nodes w)) (length lst).
Proof.
  revert w. induction lst as [|[[k v] e] lst IH]; intros w; [done|].
  cbn [make_children]. rewrite ObjectVariable_init_eq.
  specialize (IH (with_node (_ObjectVariable k v r b e) r w)).
  destruct (make_children r b lst _) as [kids w']. simpl in *.
  rewrite IH, length_app. simpl. f_equal. f_equal. lia.
Qed.

Lemma make_children_nodes r b lst w :
  heap_nodes (make_children r b lst w).2
  = heap_nodes w ++ map (child_node r b) lst.
Proof.
  revert w. induction lst as [|[[k v] e] lst IH]; intros w.
  - simpl. by rewrite app_nil_r.
  - cbn [make_children]. rewrite ObjectVariable_init_eq.
    specialize (IH (with_node (_ObjectVariable k v r b e) r w)).
    destruct (make_children r b lst _) as [kids w']. simpl in *.
    by rewrite IH, <-app_assoc.
Qed.

Lemma make_children_grows r b lst w : grows w (make_children r b lst w).2.
Proof.
  revert w. induction lst as [|[[k v] e] lst IH]; intros w.
  - apply grows_refl.
  - cbn [make_children]. rewrite ObjectVariable_init_eq.
    specialize (IH (with_node (_ObjectVariable k v r b e) r w)).
    destruct (make_children r b lst _) as [kids w']. simpl in *.
    eapply grows_trans; [apply with_node_grows|done].
Qed.

Lemma make_children_owns r b lst w tr e :
  heap_trackers w !! r = Some tr → e ∈ lst →
  owns (make_children r b lst w).2 r (v_id e.1.2).
Proof.
  revert w tr. induction lst as [|[[k v] e'] lst IH]; intros w tr Hr Hin.
  - by apply elem_of_nil in Hin.
  - cbn [make_children]. rewrite ObjectVariable_init_eq.
    pose proof (with_node_owns (_ObjectVariable k v r b e') r w tr Hr) as Ho.
    pose proof (make_children_grows r b lst
                  (with_node (_ObjectVariable k v r b e') r w)) as Hg.
    destruct (with_node_lookup (_ObjectVariable k v r b e') r w tr Hr)
      as (tr1 & Hr1 & _).
    specialize (IH (with_node (_ObjectVariable k v r b e') r w) tr1 Hr1).
    destruct (make_children r b lst _) as [kids w']. simpl in *.
    apply elem_of_cons in Hin as [->|Hin]; [|by apply IH].
    by eapply grows_owns.
Qed.

Section node_facts.
Context {E : Externals}.

Lemma ObjectVariable_get_children_variables_eq v r e fmt now w :
  ObjectVariable_get_children_variables v r e fmt now w
  = make_children r false (object_entries v e fmt now) w.
Proof.
  unfold ObjectVariable_get_children_variables, object_entries.
  destruct (v_resolver v) as [res|]; [|done].
  by destruct (truthy e).
Qed.

Lemma frame_children_grows r locals w :
  grows w (frame_children r locals w).2.
Proof.
  revert w. induction locals as [|[key val] rest IH]; intros w.
  - apply grows_refl.
  - cbn [frame_children]. case_bool_decide as Hkey.
    + destruct (v_items val) as [items|]; [|apply grows_refl].
      pose proof (make_children_grows r true
        (map (λ kv, (kv.1, kv.2,
                     Some (key +:+ "[" +:+ py_repr kv.1 +:+ "]"))) items) w)
        as Hg.
      destruct (make_children r true _ w) as [kids w1].
      specialize (IH w1).
      destruct (frame_children r rest w1) as [[more|e] w2];
        simpl in *; by eapply grows_trans.
    + rewrite ObjectVariable_init_eq.
      pose proof (with_node_grows
        (_ObjectVariable key val r false (Some key)) r w) as Hg.
      specialize (IH (with_node
        (_ObjectVariable key val r false (Some key)) r w)).
      destruct (frame_children r rest _) as [[more|e] w2];
        simpl in *; by eapply grows_trans.
Qed.

Lemma frame_children_spec r locals w :
  match frame_child_nodes r locals with
  | Some nds =>
      (frame_children r locals w).1
      = Ok (seq (length (heap_nodes w)) (length nds))
      ∧ heap_nodes (frame_children r locals w).2 = heap_nodes w ++ nds
  | None => (frame_children r locals w).1 = Raise AttributeError
  end.
Proof.
  revert w. induction locals as [|[key val] rest IH]; intros w.
  - simpl. by rewrite app_nil_r.
  - cbn [frame_children frame_child_nodes]. case_bool_decide as Hkey.
    + destruct (v_items val) as [items|]; [|done].
      set (lst := map (λ kv, (kv.1, kv.2,
                     Some (key +:+ "[" +:+ py_repr kv.1 +:+ "]"))) items).
      pose proof (make_children_fst r true lst w) as Hfst.
      pose proof (make_children_nodes r true lst w) as Hnodes.
      destruct (make_children r true lst w) as [kids w1].
      specialize (IH w1). simpl in Hfst, Hnodes.
      destruct (frame_child_nodes r rest) as [nds|]; simpl.
      * destruct IH as [IH1 IH2].
        destruct (frame_children r rest w1) as [[more|e] w2];
          simpl in *; [|done]. injection IH1 as ->.
        rewrite IH2, Hnodes, Hfst. unfold lst.
        rewrite !length_app, !length_map, map_map, <-app_assoc.
        split; [|done]. by rewrite seq_app.
      * destruct (frame_children r rest w1) as [[more|e] w2];
          simpl in *; congruence.
    + rewrite ObjectVariable_init_eq.
      specialize (IH (with_node
        (_ObjectVariable key val r false (Some key)) r w)).
      destruct (frame_child_nodes r rest) as [nds|]; simpl.
      * destruct IH as [IH1 IH2].
        destruct (frame_children r rest _) as [[more|e] w2];
          simpl in *; [|done]. injection IH1 as ->.
        rewrite IH2, length_app, <-app_assoc. simpl.
        split; [|done]. do 3 f_equal. lia.
      * destruct (frame_children r rest _) as [[more|e] w2];
          simpl in *; congruence.
Qed.

Lemma get_children_variables_grows nd fmt now w :
  grows w (get_children_variables nd fmt now w).2.
Proof.
  destruct nd as [name v r b e|fr r]; simpl.
  - rewrite ObjectVariable_get_children_variables_eq.
    pose proof (make_children_grows r false (object_entries v e fmt now) w).
    by destruct (make_children r false _ w).
  - unfold FrameVariable_get_children_variables.
    pose proof (frame_children_grows r (f_locals fr) w).
    by destruct (frame_children r (f_locals fr) w) as [[?|?] ?].
Qed.
End node_facts.

(** ** [obtain_as_variable] *)

Lemma obtain_as_variable_cached self name val ev w tr n :
  heap_trackers w !! self = Some tr →
  _variable_reference_to_variable tr !! v_id val = Some n →
  FramesTracker.obtain_as_variable self name val ev w = (Ok n, w).
Proof.
  intros Hr Hn. unfold FramesTracker.obtain_as_variable. by rewrite Hr, Hn.
Qed.

Lemma obtain_as_variable_fresh self name val ev w tr :
  heap_trackers w !! self = Some tr →
  _variable_reference_to_variable tr !! v_id val = None →
  FramesTracker.obtain_as_variable self name val ev w
  = (Ok (length (heap_nodes w)),
     with_node (_ObjectVariable name val self false (Some (default name ev)))
       self w).
Proof.
  intros Hr Hn. unfold FramesTracker.obtain_as_variable.
  rewrite Hr, Hn, ObjectVariable_init_eq. by destruct ev.
Qed.

Lemma obtain_as_variable_grows self name val ev w :
  grows w (FramesTracker.obtain_as_variable self name val ev w).2.
Proof.
  destruct (heap_trackers w !! self) as [tr|] eqn:Hr.
  - destruct (_variable_reference_to_variable tr !! v_id val) as [n|] eqn:Hn.
    + erewrite obtain_as_variable_cached by done. apply grows_refl.
    + erewrite obtain_as_variable_fresh by done. apply with_node_grows.
  - unfold FramesTracker.obtain_as_variable. rewrite Hr. apply grows_refl.
Qed.

(** ** [track] *)

(** Induction on a frame along its [f_back] link. *)
Lemma frame_back_ind (P : frame → Prop) :
  (∀ i n l, P (Frame i n l None)) →
  (∀ i n l g, P g → P (Frame i n l (Some g))) →
  ∀ f, P f.
Proof.
  intros Hnone Hsome. fix IH 1. intros [i n l [g|]].
  - apply Hsome, IH.
  - apply Hnone.
Qed.

Lemma track_frame_eq self eid tid fr w :
  FramesTracker.track_frame self eid tid fr w
  = MkWorld (heap_nodes w ++ [_FrameVariable fr self])
      (alter (track_frame_local eid tid fr (length (heap_nodes w))) self
         (heap_trackers w))
      (with_variable_reference_to_frames_tracker (<[f_id fr := self]>)
         (the_manager w))
      (stderr w).
Proof.
  unfold FramesTracker.track_frame. rewrite FrameVariable_init_eq.
  unfold upd_tracker, upd_trackers, upd_manager, with_node. simpl.
  by rewrite !list_alter_alter_eq.
Qed.

Lemma track_loop_fold self eid tid fr w :
  FramesTracker.track_loop self eid tid fr w
  = fold_left (λ w f, FramesTracker.track_frame self eid tid f w)
      (frame_chain fr) w.
Proof.
  revert w. induction fr as [i n l|i n l g IH] using frame_back_ind;
    intros w; [done|].
  cbn [FramesTracker.track_loop frame_chain fold_left]. apply IH.
Qed.

Lemma track_frames_fold self eid tid chain w :
  fold_left (λ w f, FramesTracker.track_frame self eid tid f w) chain w
  = MkWorld (heap_nodes w ++ map (λ f, _FrameVariable f self) chain)
      (alter (track_local eid tid chain (length (heap_nodes w))) self
         (heap_trackers w))
      (with_variable_reference_to_frames_tracker
         (index_after_track self chain) (the_manager w))
      (stderr w).
Proof.
  revert w. induction chain as [|fr chain IH]; intros w.
  - simpl. rewrite app_nil_r, list_alter_id by done. by destruct w as [? ? [] ?].
  - cbn [fold_left]. rewrite IH, track_frame_eq. simpl.
    rewrite list_alter_alter_eq, length_app, <-app_assoc. simpl.
    by rewrite Nat.add_1_r.
Qed.

(** The state in which [track] leaves the world. *)
Lemma track_eq self tid fr lines custom w tr m :
  heap_trackers w !! self = Some tr →
  _suspended_frames_manager tr = Some m →
  let eid := py_or custom tid in
  let chain := frame_chain_opt fr in
  FramesTracker.track self tid fr lines custom w
  = (Ok tt,
     MkWorld (heap_nodes w ++ map (λ f, _FrameVariable f self) chain)
       (alter (λ t, track_local eid tid chain (length (heap_nodes w))
                      (track_pre_local eid tid lines t)) self
          (heap_trackers w))
       (with_variable_reference_to_frames_tracker
          (index_after_track self chain)
          (with_thread_id_to_tracker (od_set eid self) (the_manager w)))
       (match od_get eid (_thread_id_to_tracker (the_manager w)) with
        | Some _ =>
            stderr w ++ [double_track_warning]
        | None => stderr w
        end)).
Proof.
  intros Hr Hm eid chain. unfold FramesTracker.track. rewrite Hr, Hm.
  fold eid.
  assert (∀ w0, (match fr with
                 | Some f => (Ok tt, FramesTracker.track_loop self eid tid f w0)
                 | None => (Ok tt, w0)
                 end)
                = (Ok tt, fold_left
                     (λ w f, FramesTracker.track_frame self eid tid f w)
                     chain w0)) as ->.
  { intros w0. unfold chain. destruct fr as [f|]; [|done].
    by rewrite track_loop_fold. }
  rewrite track_frames_fold. f_equal.
  destruct (od_get eid (_thread_id_to_tracker (the_manager w)));
    unfold upd_tracker, upd_trackers, upd_manager, write_stderr; simpl;
    by rewrite !list_alter_alter_eq.
Qed.

Lemma track_untracked self tid fr lines custom w tr :
  heap_trackers w !! self = Some tr →
  _suspended_frames_manager tr = None →
  FramesTracker.track self tid fr lines custom w = (Raise AttributeError, w).
Proof. intros Hr Hm. unfold FramesTracker.track. by rewrite Hr, Hm. Qed.

Lemma track_dangling self tid fr lines custom w :
  heap_trackers w !! self = None →
  FramesTracker.track self tid fr lines custom w = (Raise ReferenceError, w).
Proof. intros Hr. unfold FramesTracker.track. by rewrite Hr. Qed.

Section track_local_facts.
Variables (eid tid : string).
Implicit Types (chain : list frame) (n : nat) (t : tracker_state) (h : Z).

Lemma track_local_fields chain n t :
  _suspended_frames_manager (track_local eid tid chain n t)
    = _suspended_frames_manager t
  ∧ _frame_id_to_lineno (track_local eid tid chain n t)
    = _frame_id_to_lineno t
  ∧ _main_thread_id (track_local eid tid chain n t) = _main_thread_id t
  ∧ _untracked (track_local eid tid chain n t) = _untracked t.
Proof.
  revert n t. induction chain as [|fr chain IH]; intros n t; [done|].
  cbn [track_local]. by destruct (IH (S n)
    (track_frame_local eid tid fr n t)) as (-> & -> & -> & ->).
Qed.

Lemma track_local_frame_ids chain n t eid' :
  od_get eid' (_thread_id_to_frame_ids (track_local eid tid chain n t))
  = if decide (eid = eid')
    then (λ ids, ids ++ map f_id chain)
           <$> od_get eid' (_thread_id_to_frame_ids t)
    else od_get eid' (_thread_id_to_frame_ids t).
Proof.
  revert n t. induction chain as [|fr chain IH]; intros n t.
  - simpl. case_decide; [|done].
    destruct (od_get eid' _); simpl; [|done]. by rewrite app_nil_r.
  - cbn [track_local]. rewrite IH. simpl. rewrite od_get_alter.
    case_decide; [|done].
    destruct (od_get eid' _); simpl; [|done]. by rewrite <-app_assoc.
Qed.

Lemma track_local_frame_notin chain n t h :
  h ∉ map f_id chain →
  od_get h (_frame_id_to_frame (track_local eid tid chain n t))
  = od_get h (_frame_id_to_frame t).
Proof.
  revert n t. induction chain as [|fr chain IH]; intros n t Hh; [done|].
  cbn [track_local]. cbn [map] in Hh. rewrite not_elem_of_cons in Hh. destruct Hh as [Hne Hh].
  rewrite IH by done. simpl. by apply od_get_set_ne.
Qed.

Lemma track_local_frame_in chain n t h :
  h ∈ map f_id chain →
  ∃ fr, fr ∈ chain ∧ f_id fr = h
    ∧ od_get h (_frame_id_to_frame (track_local eid tid chain n t))
      = Some fr.
Proof.
  revert n t. induction chain as [|fr chain IH]; intros n t Hh.
  - by apply elem_of_nil in Hh.
  - cbn [track_local]. destruct (decide (h ∈ map f_id chain)) as [Hin|Hin].
    + destruct (IH (S n) (track_frame_local eid tid fr n t) Hin)
        as (g & Hg & Hid & Hget).
      exists g. split_and!; [by right|done|done].
    + cbn [map] in Hh. apply elem_of_cons in Hh as [->|?]; [|done].
      exists fr. split_and!; [by left|done|].
      rewrite track_local_frame_notin by done. simpl. apply od_get_set_eq.
Qed.

Lemma track_local_frame_NoDup_ids chain n t fr :
  NoDup (map f_id chain) → fr ∈ chain →
  od_get (f_id fr) (_frame_id_to_frame (track_local eid tid chain n t))
  = Some fr.
Proof.
  revert n t. induction chain as [|f0 chain IH]; intros n t Hnd Hin.
  - by apply elem_of_nil in Hin.
  - cbn [track_local]. cbn [map] in Hnd. apply NoDup_cons in Hnd as [Hf0 Hnd].
    apply elem_of_cons in Hin as [->|Hin]; [|by apply IH].
    rewrite track_local_frame_notin by done. simpl. apply od_get_set_eq.
Qed.

Lemma track_local_keys_NoDup chain n t :
  NoDup (od_keys (_frame_id_to_frame t)) →
  NoDup (od_keys (_frame_id_to_frame (track_local eid tid chain n t))).
Proof.
  revert n t. induction chain as [|fr chain IH]; intros n t Hnd; [done|].
  cbn [track_local]. apply IH. simpl. by apply od_keys_set_NoDup.
Qed.

Lemma track_local_variable_notin chain n t h :
  h ∉ map f_id chain →
  _variable_reference_to_variable (track_local eid tid chain n t) !! h
  = _variable_reference_to_variable t !! h.
Proof.
  revert n t. induction chain as [|fr chain IH]; intros n t Hh; [done|].
  cbn [track_local]. cbn [map] in Hh. rewrite not_elem_of_cons in Hh. destruct Hh as [Hne Hh].
  rewrite IH by done. simpl. by rewrite lookup_insert_ne.
Qed.

Lemma track_local_variable_in chain n t h :
  h ∈ map f_id chain →
  ∃ i fr, chain !! i = Some fr ∧ f_id fr = h
    ∧ _variable_reference_to_variable (track_local eid tid chain n t) !! h
      = Some (n + i).
Proof.
  revert n t. induction chain as [|fr chain IH]; intros n t Hh.
  - by apply elem_of_nil in Hh.
  - cbn [track_local]. destruct (decide (h ∈ map f_id chain)) as [Hin|Hin].
    + destruct (IH (S n) (track_frame_local eid tid fr n t) Hin)
        as (i & g & Hg & Hid & Hget).
      exists (S i), g. split_and!; [done|done|].
      rewrite Hget. f_equal. lia.
    + cbn [map] in Hh. apply elem_of_cons in Hh as [->|?]; [|done].
      exists 0, fr. split_and!; [done|done|].
      rewrite track_local_variable_notin by done. simpl.
      rewrite lookup_insert_eq. f_equal. lia.
Qed.

Lemma track_local_variable_mono chain n t h :
  is_Some (_variable_reference_to_variable t !! h) →
  is_Some (_variable_reference_to_variable (track_local eid tid chain n t) !! h).
Proof.
  intros Hh. destruct (decide (h ∈ map f_id chain)) as [Hin|Hin].
  - destruct (track_local_variable_in chain n t h Hin) as (i & fr & _ & _ & ->).
    eauto.
  - by rewrite track_local_variable_notin.
Qed.
End track_local_facts.

Lemma index_after_track_notin self chain index h :
  h ∉ map f_id chain → index_after_track self chain index !! h = index !! h.
Proof.
  revert index. induction chain as [|fr chain IH]; intros index Hh; [done|].
  cbn [map] in Hh. rewrite not_elem_of_cons in Hh. destruct Hh as [Hne Hh].
  unfold index_after_track in *. cbn [fold_left]. rewrite IH by done.
  by rewrite lookup_insert_ne.
Qed.

Lemma index_after_track_in self chain index h :
  h ∈ map f_id chain → index_after_track self chain index !! h = Some self.
Proof.
  revert index. induction chain as [|fr chain IH]; intros index Hh.
  - by apply elem_of_nil in Hh.
  - destruct (decide (h ∈ map f_id chain)) as [Hin|Hin].
    + unfold index_after_track in *. cbn [fold_left]. by apply IH.
    + cbn [map] in Hh. apply elem_of_cons in Hh as [->|?]; [|done].
      change (index_after_track self (fr :: chain) index)
        with (index_after_track self chain (<[f_id fr := self]> index)).
      rewrite index_after_track_notin by done. apply lookup_insert_eq.
Qed.

Lemma index_after_track_lookup self chain index h :
  index_after_track self chain index !! h
  = if decide (h ∈ map f_id chain) then Some self else index !! h.
Proof.
  case_decide.
  - by apply index_after_track_in.
  - by apply index_after_track_notin.
Qed.

(** ** [untrack_all] *)

Lemma pop_thread_ids_get ks (d : list (string * nat)) tid :
  od_get tid (FramesTracker.pop_thread_ids ks d)
  = if decide (tid ∈ ks) then None else od_get tid d.
Proof.
  unfold FramesTracker.pop_thread_ids. revert d.
  induction ks as [|k ks IH]; intros d.
  - cbn [fold_left]. destruct (decide (tid ∈ [])) as [Hin|Hin];
      [by apply elem_of_nil in Hin|done].
  - cbn [fold_left]. rewrite IH.
    destruct (decide (tid ∈ ks)) as [Hin|Hin].
    + rewrite decide_True; [done|by right].
    + destruct (decide (k = tid)) as [->|Hne].
      * rewrite decide_True by (by left). apply od_get_pop_eq.
      * rewrite decide_False; [by apply od_get_pop_ne|].
        intros [?|?]%elem_of_cons; congruence.
Qed.

Lemma elem_of_pop_thread_ids ks (d : list (string * nat)) tid r :
  (tid, r) ∈ FramesTracker.pop_thread_ids ks d → (tid ∉ ks) ∧ (tid, r) ∈ d.
Proof.
  unfold FramesTracker.pop_thread_ids. revert d.
  induction ks as [|k ks IH]; intros d; cbn [fold_left].
  - intros Hin. split; [|done]. by intros ?%elem_of_nil.
  - intros [Hnin [Hne Hin]%elem_of_od_pop]%IH. split; [|done].
    by intros [?|?]%elem_of_cons.
Qed.

Lemma del_frame_ids_notin ks (d : gmap Z nat) h :
  h ∉ ks → (FramesTracker.del_frame_ids ks d).2 !! h = d !! h.
Proof.
  revert d. induction ks as [|k ks IH]; intros d Hh; [done|].
  rewrite not_elem_of_cons in Hh. destruct Hh as [Hne Hh].
  cbn [FramesTracker.del_frame_ids]. destruct (d !! k); [|done].
  rewrite IH by done. by apply lookup_delete_ne.
Qed.

Lemma del_frame_ids_Some ks (d : gmap Z nat) h r :
  (FramesTracker.del_frame_ids ks d).2 !! h = Some r → d !! h = Some r.
Proof.
  revert d. induction ks as [|k ks IH]; intros d; [done|].
  cbn [FramesTracker.del_frame_ids]. destruct (d !! k) eqn:Hk; [|done].
  intros Hh%IH. by apply lookup_delete_Some in Hh as [_ ?].
Qed.

Lemma del_frame_ids_Ok ks (d : gmap Z nat) h :
  (FramesTracker.del_frame_ids ks d).1 = Ok tt → h ∈ ks →
  (FramesTracker.del_frame_ids ks d).2 !! h = None.
Proof.
  revert d. induction ks as [|k ks IH]; intros d Hok Hh.
  - by apply elem_of_nil in Hh.
  - cbn [FramesTracker.del_frame_ids] in *. destruct (d !! k) eqn:Hk; [|done].
    destruct (decide (h ∈ ks)) as [Hin|Hin]; [by apply IH|].
    apply elem_of_cons in Hh as [->|?]; [|done].
    rewrite del_frame_ids_notin by done. apply lookup_delete_eq.
Qed.

Lemma del_frame_ids_succeeds ks (d : gmap Z nat) :
  NoDup ks → (∀ k, k ∈ ks → is_Some (d !! k)) →
  (FramesTracker.del_frame_ids ks d).1 = Ok tt.
Proof.
  revert d. induction ks as [|k ks IH]; intros d Hnd Hks; [done|].
  apply NoDup_cons in Hnd as [Hk Hnd].
  cbn [FramesTracker.del_frame_ids].
  destruct (Hks k) as [r ->]; [by left|].
  apply IH; [done|]. intros k' Hk'.
  rewrite lookup_delete_ne by (intros ->; done). apply Hks. by right.
Qed.

Lemma del_frame_ids_Raise ks (d : gmap Z nat) e :
  (FramesTracker.del_frame_ids ks d).1 = Raise e →
  e = KeyError ∧ ∃ k, k ∈ ks ∧ (FramesTracker.del_frame_ids ks d).2 !! k = None.
Proof.
  revert d. induction ks as [|k ks IH]; intros d; [done|].
  cbn [FramesTracker.del_frame_ids]. destruct (d !! k) eqn:Hk.
  - intros (-> & k' & Hk' & Hget)%IH. split; [done|].
    exists k'. split; [by right|done].
  - intros [= <-]. split; [done|]. exists k. split; [by left|done].
Qed.

Lemma untrack_all_untracked self w tr :
  heap_trackers w !! self = Some tr → _untracked tr = true →
  FramesTracker.untrack_all self w = (Ok tt, w).
Proof. intros Hr Hu. unfold FramesTracker.untrack_all. by rewrite Hr, Hu. Qed.

(** The state in which a first [untrack_all] leaves the world. *)
Lemma untrack_all_eq self w tr :
  heap_trackers w !! self = Some tr → _untracked tr = false →
  let thread_ids := od_keys (_thread_id_to_frame_ids tr) in
  let deleted :=
    FramesTracker.del_frame_ids (od_keys (_frame_id_to_frame tr))
      (_variable_reference_to_frames_tracker (the_manager w)) in
  let m :=
    MkManager (_thread_id_to_fake_frames (the_manager w))
      (FramesTracker.pop_thread_ids thread_ids
         (_thread_id_to_tracker (the_manager w)))
      deleted.2 in
  FramesTracker.untrack_all self w
  = match deleted.1 with
    | Ok _ =>
        (Ok tt,
         MkWorld (heap_nodes w)
           (alter (λ _, cleared_tracker) self (heap_trackers w)) m (stderr w))
    | Raise e =>
        (Raise e,
         MkWorld (heap_nodes w)
           (alter (with_untracked true) self (heap_trackers w)) m (stderr w))
    end.
Proof.
  intros Hr Hu. cbv zeta. unfold FramesTracker.untrack_all. rewrite Hr, Hu.
  unfold upd_tracker, upd_trackers, upd_manager. simpl.
  destruct (FramesTracker.del_frame_ids _ _) as [[[]|e] index]; simpl; [|done].
  rewrite !list_alter_alter_eq. f_equal.
Qed.

Lemma untrack_all_dangling self w :
  heap_trackers w !! self = None →
  FramesTracker.untrack_all self w = (Raise ReferenceError, w).
Proof. intros Hr. unfold FramesTracker.untrack_all. by rewrite Hr. Qed.

(** ** Consistency of the tables *)

Lemma wf_initial : wf initial_world.
Proof.
  split; simpl.
  - intros h r. by rewrite lookup_empty.
  - by intros tid r ?%elem_of_nil.
  - intros r tr. by rewrite lookup_nil.
  - intros r tr h n. by rewrite lookup_nil.
  - intros r tr. by rewrite lookup_nil.
Qed.

Lemma wf_grows w w' : wf w → grows w w' → wf w'.
Proof.
  intros [Hi Ht Hk Hn Hc] Hg. pose proof Hg as [Hm _ [extra Hx] Hl Htr].
  assert (∀ r tr', heap_trackers w' !! r = Some tr' →
            ∃ tr, heap_trackers w !! r = Some tr
                  ∧ forget_variables tr' = forget_variables tr
                  ∧ (∀ h n, _variable_reference_to_variable tr' !! h = Some n →
                       _variable_reference_to_variable tr !! h = Some n
                       ∨ ∃ nd, heap_nodes w' !! n = Some nd
                               ∧ get_variable_reference nd = h)) as Hback.
  { intros r tr' Hr'. destruct (heap_trackers w !! r) as [tr|] eqn:Hr.
    - destruct (Htr r tr Hr) as (tr2 & Hr2 & Hf & _ & Hnew).
      rewrite Hr2 in Hr'. injection Hr' as <-. exists tr. auto.
    - by rewrite (grows_tracker_None _ _ _ Hg Hr) in Hr'. }
  split.
  - intros h r. rewrite Hm. intros (tr & Hr & Hf & Hv)%Hi.
    destruct (Htr r tr Hr) as (tr' & Hr' & Hfg & Hin & _).
    exists tr'. destruct (forget_variables_fields _ _ Hfg) as (_ & -> & _).
    auto.
  - intros tid r. rewrite Hm. intros (tr & Hr & Hf)%Ht.
    destruct (Htr r tr Hr) as (tr' & Hr' & Hfg & _).
    exists tr'. destruct (forget_variables_fields _ _ Hfg) as (_ & _ & _ & -> & _).
    auto.
  - intros r tr' (tr & Hr & Hfg & _)%Hback.
    destruct (forget_variables_fields _ _ Hfg) as (_ & -> & _). eauto.
  - intros r tr' h n (tr & Hr & _ & Hnew)%Hback Hh.
    destruct (Hnew h n Hh) as [Hold|?]; [|done].
    destruct (Hn r tr h n Hr Hold) as (nd & Hnd & Href).
    exists nd. split; [|done]. by eapply grows_lookup_node.
  - intros r tr' (tr & Hr & Hfg & _)%Hback.
    destruct (forget_variables_fields _ _ Hfg) as (-> & _).
    rewrite Hm. eauto.
Qed.

Lemma init_lookup w r tr :
  heap_trackers (FramesTracker.init w).2 !! r = Some tr →
  heap_trackers w !! r = Some tr
  ∨ (r = length (heap_trackers w)
     ∧ tr = MkTracker (Some TheManager) [] ∅ [] ∅ None false ∅).
Proof.
  simpl. intros [?|[Hlen Hr]]%lookup_app_Some; [by left|right].
  apply list_lookup_singleton_Some in Hr as [Hz <-]. split; [lia|done].
Qed.

Lemma wf_init_tracker w : wf w → wf (FramesTracker.init w).2.
Proof.
  intros [Hi Ht Hk Hn Hc]. split.
  - intros h r (tr & Hr & ?)%Hi. exists tr. split; [|done].
    simpl. by apply lookup_app_l_Some.
  - intros tid r (tr & Hr & ?)%Ht. exists tr. split; [|done].
    simpl. by apply lookup_app_l_Some.
  - intros r tr [?|[_ ->]]%init_lookup; [eauto|]. simpl. constructor.
  - intros r tr h n [?|[_ ->]]%init_lookup; [eauto|]. simpl.
    by rewrite lookup_empty.
  - intros r tr [?|[_ ->]]%init_lookup; [eauto|]. done.
Qed.

Lemma wf_track self tid fr lines custom w :
  wf w → wf (FramesTracker.track self tid fr lines custom w).2.
Proof.
  intros Hwf. destruct (heap_trackers w !! self) as [tr|] eqn:Hr;
    [|by rewrite track_dangling].
  destruct (_suspended_frames_manager tr) as [m|] eqn:Hm;
    [|by erewrite track_untracked].
  erewrite track_eq by done. cbn [snd].
  set (eid := py_or custom tid). set (chain := frame_chain_opt fr).
  set (tr' := track_local eid tid chain (length (heap_nodes w))
                (track_pre_local eid tid lines tr)).
  destruct Hwf as [Hi Ht Hk Hn Hc].
  assert (alter (λ t, track_local eid tid chain (length (heap_nodes w))
                        (track_pre_local eid tid lines t)) self
            (heap_trackers w) !! self = Some tr') as Hself.
  { by rewrite list_lookup_alter_eq, Hr. }
  split; cbn [heap_nodes heap_trackers the_manager
              _variable_reference_to_frames_tracker _thread_id_to_tracker
              with_variable_reference_to_frames_tracker
              with_thread_id_to_tracker].
  - intros h r. rewrite index_after_track_lookup. case_decide as Hin.
    + intros [= <-]. exists tr'. split; [done|]. unfold tr'. split.
      * destruct (track_local_frame_in eid tid chain (length (heap_nodes w))
                    (track_pre_local eid tid lines tr) h Hin)
          as (g & _ & _ & ->). eauto.
      * destruct (track_local_variable_in eid tid chain (length (heap_nodes w))
                    (track_pre_local eid tid lines tr) h Hin)
          as (i & g & _ & _ & ->). eauto.
    + intros (t & Hr' & Hf & Hv)%Hi. destruct (decide (r = self)) as [->|Hne].
      * exists tr'. split; [done|]. simplify_eq. unfold tr'.
        rewrite track_local_frame_notin, track_local_variable_notin by done.
        done.
      * exists t. by rewrite list_lookup_alter_ne.
  - intros tid' r [[= -> ->]|Hin]%elem_of_od_set.
    + exists tr'. split; [done|]. unfold tr'.
      rewrite track_local_frame_ids, decide_True by done. simpl.
      rewrite od_get_setdefault, decide_True by done. simpl. eauto.
    + destruct (Ht tid' r Hin) as (t & Hr' & Hf).
      destruct (decide (r = self)) as [->|Hne].
      * exists tr'. split; [done|]. simplify_eq. unfold tr'.
        rewrite track_local_frame_ids. case_decide as Heid.
        -- simpl. rewrite od_get_setdefault, decide_True by done.
           simpl. eauto.
        -- simpl. by rewrite od_get_setdefault, decide_False.
      * exists t. by rewrite list_lookup_alter_ne.
  - intros r t Hr'. destruct (decide (r = self)) as [->|Hne].
    + rewrite Hself in Hr'. injection Hr' as <-. unfold tr'.
      apply track_local_keys_NoDup. simpl. eauto.
    + rewrite list_lookup_alter_ne in Hr' by done. eauto.
  - intros r t h n Hr' Hh. destruct (decide (r = self)) as [->|Hne].
    + rewrite Hself in Hr'. injection Hr' as <-. unfold tr' in Hh.
      destruct (decide (h ∈ map f_id chain)) as [Hin|Hin].
      * destruct (track_local_variable_in eid tid chain (length (heap_nodes w))
                    (track_pre_local eid tid lines tr) h Hin)
          as (i & g & Hg & Hid & Hget).
        rewrite Hget in Hh. injection Hh as <-.
        exists (_FrameVariable g self). split; [|done].
        rewrite lookup_app_r by lia.
        replace (length (heap_nodes w) + i - length (heap_nodes w)) with i
          by lia.
        by rewrite list_lookup_fmap, Hg.
      * rewrite track_local_variable_notin in Hh by done. simpl in Hh.
        destruct (Hn self tr h n Hr Hh) as (nd & Hnd & Href).
        exists nd. split; [|done]. by apply lookup_app_l_Some.
    + rewrite list_lookup_alter_ne in Hr' by done.
      destruct (Hn r t h n Hr' Hh) as (nd & Hnd & Href).
      exists nd. split; [|done]. by apply lookup_app_l_Some.
  - intros r t Hr' Hnone. destruct (decide (r = self)) as [->|Hne].
    + rewrite Hself in Hr'. injection Hr' as <-. unfold tr' in Hnone.
      destruct (track_local_fields eid tid chain (length (heap_nodes w))
                  (track_pre_local eid tid lines tr)) as (Hmgr & _).
      rewrite Hmgr in Hnone. simpl in Hnone. congruence.
    + rewrite list_lookup_alter_ne in Hr' by done.
      destruct (Hc r t Hr' Hnone) as [Hci Hct]. split.
      * intros h. rewrite index_after_track_lookup. case_decide; [|done].
        by intros [= ->].
      * intros tid' [[= _ ->]|Hin]%elem_of_od_set; [done|].
        by apply (Hct tid').
Qed.

Lemma wf_untrack_all self w : wf w → wf (FramesTracker.untrack_all self w).2.
Proof.
  intros Hwf. destruct (heap_trackers w !! self) as [tr|] eqn:Hr;
    [|by rewrite untrack_all_dangling].
  destruct (_untracked tr) eqn:Hu; [by erewrite untrack_all_untracked|].
  erewrite untrack_all_eq by done.
  destruct Hwf as [Hi Ht Hk Hn Hc].
  set (deleted := FramesTracker.del_frame_ids _ _).
  assert (∀ h r, deleted.2 !! h = Some r →
            _variable_reference_to_frames_tracker (the_manager w) !! h = Some r
            ∧ ∃ t, heap_trackers w !! r = Some t
                 ∧ is_Some (od_get h (_frame_id_to_frame t))
                 ∧ is_Some (_variable_reference_to_variable t !! h)) as Hi'.
  { intros h r Hh%del_frame_ids_Some. eauto. }
  assert (∀ tid r,
            (tid, r) ∈ FramesTracker.pop_thread_ids
                         (od_keys (_thread_id_to_frame_ids tr))
                         (_thread_id_to_tracker (the_manager w)) →
            (tid ∉ od_keys (_thread_id_to_frame_ids tr))
            ∧ (tid, r) ∈ _thread_id_to_tracker (the_manager w)
            ∧ ∃ t, heap_trackers w !! r = Some t
                   ∧ is_Some (od_get tid (_thread_id_to_frame_ids t))) as Ht'.
  { intros tid r [Hnin Hin]%elem_of_pop_thread_ids. eauto. }
  destruct (deleted.1) as [[]|e] eqn:Hdel; cbn [snd]; split;
    cbn [heap_nodes heap_trackers the_manager
         _variable_reference_to_frames_tracker _thread_id_to_tracker].
  - intros h r Hh. destruct (Hi' h r Hh) as (_ & t & Hr' & Hf & Hv).
    exists t. split; [|done]. rewrite list_lookup_alter_ne; [done|].
    intros <-. simplify_eq. apply od_get_is_Some in Hf.
    unfold deleted in *. by rewrite (del_frame_ids_Ok _ _ h Hdel Hf) in Hh.
  - intros tid r Hh. destruct (Ht' tid r Hh) as (Hnin & _ & t & Hr' & Hf).
    exists t. split; [|done]. rewrite list_lookup_alter_ne; [done|].
    intros <-. simplify_eq. by apply od_get_is_Some in Hf.
  - intros r t. destruct (decide (self = r)) as [<-|Hne].
    + rewrite list_lookup_alter_eq, Hr. intros [= <-]. constructor.
    + rewrite list_lookup_alter_ne by done. eauto.
  - intros r t h n. destruct (decide (self = r)) as [<-|Hne].
    + rewrite list_lookup_alter_eq, Hr. intros [= <-]. simpl.
      by rewrite lookup_empty.
    + rewrite list_lookup_alter_ne by done. eauto.
  - intros r t. destruct (decide (self = r)) as [<-|Hne].
    + rewrite list_lookup_alter_eq, Hr. intros _ _. split.
      * intros h Hh. destruct (Hi' h self Hh) as (_ & t' & Hr' & Hf & _).
        simplify_eq. apply od_get_is_Some in Hf.
        unfold deleted in *. by rewrite (del_frame_ids_Ok _ _ h Hdel Hf) in Hh.
      * intros tid Hin. destruct (Ht' tid self Hin) as (Hnin & _ & t' & Hr' & Hf).
        simplify_eq. by apply od_get_is_Some in Hf.
    + rewrite list_lookup_alter_ne by done. intros Hr' Hnone.
      destruct (Hc r t Hr' Hnone) as [Hci Hct]. split.
      * intros h Hh. destruct (Hi' h r Hh) as (Hold & _). by apply (Hci h).
      * intros tid Hin. destruct (Ht' tid r Hin) as (_ & Hold & _).
        by apply (Hct tid).
  - intros h r Hh. destruct (Hi' h r Hh) as (_ & t & Hr' & Hf & Hv).
    destruct (decide (self = r)) as [<-|Hne].
    + rewrite list_lookup_alter_eq, Hr. simplify_eq. eauto.
    + rewrite list_lookup_alter_ne by done. eauto.
  - intros tid r Hh. destruct (Ht' tid r Hh) as (Hnin & _ & t & Hr' & Hf).
    destruct (decide (self = r)) as [<-|Hne].
    + rewrite list_lookup_alter_eq, Hr. simplify_eq. eauto.
    + rewrite list_lookup_alter_ne by done. eauto.
  - intros r t. destruct (decide (self = r)) as [<-|Hne].
    + rewrite list_lookup_alter_eq, Hr. intros [= <-]. simpl. eauto.
    + rewrite list_lookup_alter_ne by done. eauto.
  - intros r t h n. destruct (decide (self = r)) as [<-|Hne].
    + rewrite list_lookup_alter_eq, Hr. intros [= <-]. simpl. eauto.
    + rewrite list_lookup_alter_ne by done. eauto.
  - intros r t Hr' Hnone.
    assert (∃ t0, heap_trackers w !! r = Some t0
                  ∧ _suspended_frames_manager t0 = None) as (t0 & Hr0 & Hn0).
    { destruct (decide (self = r)) as [<-|Hne].
      - rewrite list_lookup_alter_eq, Hr in Hr'. injection Hr' as <-.
        by exists tr.
      - rewrite list_lookup_alter_ne in Hr' by done. by exists t. }
    destruct (Hc r t0 Hr0 Hn0) as [Hci Hct]. split.
    + intros h Hh. destruct (Hi' h r Hh) as (Hold & _). by apply (Hci h).
    + intros tid Hin. destruct (Ht' tid r Hin) as (_ & Hold & _).
      by apply (Hct tid).
Qed.

Section history_facts.
Context {E : Externals}.

Lemma add_fake_frame_same thread_id frame_id fr w :
  let w' :=
    (SuspendedFramesManager.add_fake_frame thread_id frame_id fr w).2 in
  heap_nodes w' = heap_nodes w
  ∧ heap_trackers w' = heap_trackers w
  ∧ _thread_id_to_tracker (the_manager w')
    = _thread_id_to_tracker (the_manager w)
  ∧ _variable_reference_to_frames_tracker (the_manager w')
    = _variable_reference_to_frames_tracker (the_manager w).
Proof.
  unfold SuspendedFramesManager.add_fake_frame.
  by destruct (SuspendedFramesManager.int_of_frame_id frame_id).
Qed.

Lemma wf_add_fake_frame thread_id frame_id fr w :
  wf w →
  wf (SuspendedFramesManager.add_fake_frame thread_id frame_id fr w).2.
Proof.
  destruct (add_fake_frame_same thread_id frame_id fr w)
    as (Hn & Ht & Hm & Hi).
  intros [? ? ? ?]. split; rewrite ?Hn, ?Ht, ?Hm, ?Hi; done.
Qed.

Lemma step_grows a w : expansion a → grows w (step a w).
Proof.
  destruct a; try done; intros _; simpl.
  - apply obtain_as_variable_grows.
  - destruct (heap_nodes w !! variable); [|apply grows_refl].
    apply get_children_variables_grows.
Qed.

Lemma run_grows acts w : Forall expansion acts → grows w (run acts w).
Proof.
  intros Hacts. revert w. induction Hacts as [|a acts Ha _ IH]; intros w.
  - apply grows_refl.
  - eapply grows_trans; [by apply step_grows|apply IH].
Qed.

Lemma wf_step a w : wf w → wf (step a w).
Proof.
  intros Hwf. destruct a; simpl.
  - by apply wf_init_tracker.
  - by apply wf_track.
  - by apply wf_untrack_all.
  - eapply wf_grows; [done|apply obtain_as_variable_grows].
  - destruct (heap_nodes w !! variable); [|done].
    eapply wf_grows; [done|apply get_children_variables_grows].
  - by apply wf_add_fake_frame.
Qed.

Lemma reachable_wf w : reachable w → wf w.
Proof.
  induction 1 as [|w a _ IH]; [apply wf_initial|by apply wf_step].
Qed.


Lemma reachable_exclusive_reachable w : reachable_exclusive w → reachable w.
Proof. induction 1; by constructor. Qed.
End history_facts.

(** ** Agreement of the index with the frame tables *)

Lemma elem_of_frame_keys tr h :
  h ∈ frame_keys tr ↔ is_Some (od_get h (_frame_id_to_frame tr)).
Proof. unfold frame_keys. by rewrite elem_of_list_to_set, od_get_is_Some. Qed.

Lemma elem_of_indexed_to w r h :
  h ∈ indexed_to w r
  ↔ _variable_reference_to_frames_tracker (the_manager w) !! h = Some r.
Proof.
  unfold indexed_to. rewrite elem_of_dom. split.
  - intros [r' [Hh Hr]%map_lookup_filter_Some]. simpl in Hr. by subst.
  - intros Hh. exists r. by apply map_lookup_filter_Some.
Qed.

Lemma index_agrees_initial : index_agrees initial_world.
Proof. intros r tr h Hr. simpl in Hr. by rewrite lookup_nil in Hr. Qed.

Lemma index_agrees_grows w w' : grows w w' → index_agrees w → index_agrees w'.
Proof.
  intros Hg Ha r tr' h Hr'.
  destruct (heap_trackers w !! r) as [tr|] eqn:Hr;
    [|by rewrite (grows_tracker_None _ _ _ Hg Hr) in Hr'].
  destruct (grows_trackers _ _ Hg r tr Hr) as (tr2 & Hr2 & Hfg & _).
  rewrite Hr2 in Hr'. injection Hr' as <-.
  destruct (forget_variables_fields _ _ Hfg) as (_ & -> & _).
  rewrite (grows_manager _ _ Hg). by apply Ha.
Qed.

Lemma index_agrees_init_tracker w :
  wf w → index_agrees w → index_agrees (FramesTracker.init w).2.
Proof.
  intros Hwf Ha r tr h [Hr|[-> ->]]%init_lookup; [by apply Ha|].
  simpl. split; [by intros [? ?]|].
  intros (tr & Hr & _)%(wf_index _ Hwf).
  apply lookup_lt_Some in Hr. lia.
Qed.

Lemma index_agrees_track self tid fr lines custom w :
  (∀ f r, f ∈ frame_chain_opt fr →
     _variable_reference_to_frames_tracker (the_manager w) !! f_id f = Some r →
     r = self) →
  index_agrees w →
  index_agrees (FramesTracker.track self tid fr lines custom w).2.
Proof.
  intros Hex Ha. destruct (heap_trackers w !! self) as [tr|] eqn:Hr;
    [|by rewrite track_dangling].
  destruct (_suspended_frames_manager tr) as [m|] eqn:Hm;
    [|by erewrite track_untracked].
  erewrite track_eq by done. cbn [snd].
  set (eid := py_or custom tid). set (chain := frame_chain_opt fr).
  intros r t h.
  cbn [heap_trackers the_manager _variable_reference_to_frames_tracker
       with_variable_reference_to_frames_tracker].
  rewrite index_after_track_lookup.
  destruct (decide (self = r)) as [<-|Hne].
  - rewrite list_lookup_alter_eq, Hr. intros [= <-]. case_decide as Hin.
    + destruct (track_local_frame_in eid tid chain (length (heap_nodes w))
                  (track_pre_local eid tid lines tr) h Hin)
        as (g & _ & _ & ->). split; eauto.
    + rewrite track_local_frame_notin by done. simpl. by apply Ha.
  - rewrite list_lookup_alter_ne by done. intros Hr'. case_decide as Hin.
    + split; [|by intros [= ->]]. intros Hf%(Ha r t h Hr').
      apply list_elem_of_fmap in Hin as (f & -> & Hf').
      by destruct Hne; symmetry; eapply Hex.
    + by apply Ha.
Qed.

Lemma untrack_all_succeeds self w tr :
  wf w → index_agrees w → heap_trackers w !! self = Some tr →
  (FramesTracker.untrack_all self w).1 = Ok tt.
Proof.
  intros Hwf Ha Hr. destruct (_untracked tr) eqn:Hu;
    [by erewrite untrack_all_untracked|].
  erewrite untrack_all_eq by done.
  rewrite del_frame_ids_succeeds; [done|by eapply wf_keys|].
  intros k Hk%od_get_is_Some. apply (Ha self tr k Hr) in Hk. by rewrite Hk.
Qed.

Lemma index_agrees_untrack_all self w :
  wf w → index_agrees w → index_agrees (FramesTracker.untrack_all self w).2.
Proof.
  intros Hwf Ha. destruct (heap_trackers w !! self) as [tr|] eqn:Hr;
    [|by rewrite untrack_all_dangling].
  pose proof (untrack_all_succeeds self w tr Hwf Ha Hr) as Hok.
  destruct (_untracked tr) eqn:Hu; [by erewrite untrack_all_untracked|].
  erewrite untrack_all_eq in Hok |- * by done.
  destruct (FramesTracker.del_frame_ids _ _).1 as [[]|e] eqn:Hdel; [|done].
  cbn [snd]. intros r t h.
  cbn [heap_trackers the_manager _variable_reference_to_frames_tracker].
  destruct (decide (self = r)) as [<-|Hne].
  - rewrite list_lookup_alter_eq, Hr. intros [= <-]. simpl.
    split; [by intros [? ?]|]. intros Hh. exfalso.
    pose proof (del_frame_ids_Some _ _ _ _ Hh) as Hold.
    apply (Ha self tr h Hr), od_get_is_Some in Hold.
    by rewrite (del_frame_ids_Ok _ _ h Hdel Hold) in Hh.
  - rewrite list_lookup_alter_ne by done. intros Hr'.
    rewrite (Ha r t h Hr'). split.
    + intros Hh. rewrite del_frame_ids_notin; [done|].
      intros Hk%od_get_is_Some. apply (Ha self tr h Hr) in Hk. congruence.
    + apply del_frame_ids_Some.
Qed.

Section exclusive_facts.
Context {E : Externals}.

Lemma index_agrees_step a w :
  wf w → exclusive a w → index_agrees w → index_agrees (step a w).
Proof.
  intros Hwf Hex Ha. destruct a; simpl.
  - by apply index_agrees_init_tracker.
  - by apply index_agrees_track.
  - by apply index_agrees_untrack_all.
  - eapply index_agrees_grows; [apply obtain_as_variable_grows|done].
  - destruct (heap_nodes w !! variable); [|done].
    eapply index_agrees_grows; [apply get_children_variables_grows|done].
  - destruct (add_fake_frame_same thread_id frame_id fr w)
      as (_ & Ht & _ & Hi).
    intros r t h. rewrite Ht, Hi. apply Ha.
Qed.

Lemma reachable_exclusive_agrees w : reachable_exclusive w → index_agrees w.
Proof.
  induction 1 as [|w a Hw IH Hex]; [apply index_agrees_initial|].
  apply index_agrees_step; [|done..].
  by apply reachable_wf, reachable_exclusive_reachable.
Qed.
End exclusive_facts.

(** ** Routing of handles *)

Lemma tracker_get_variable_Ok tr h :
  is_Some (_variable_reference_to_variable tr !! h)
  ↔ ∃ n, FramesTracker.get_variable tr h = Ok n.
Proof.
  unfold FramesTracker.get_variable.
  destruct (_variable_reference_to_variable tr !! h) as [n|]; split.
  - eauto.
  - eauto.
  - by intros [? ?].
  - by intros [? ?].
Qed.

Lemma scan_trackers_Some trackers items h r :
  SuspendedFramesManager.scan_trackers trackers items h = Some r →
  ∃ tid tr, (tid, r) ∈ items ∧ trackers !! r = Some tr
    ∧ is_Some (_variable_reference_to_variable tr !! h).
Proof.
  induction items as [|[tid r'] items IH]; [done|].
  cbn [SuspendedFramesManager.scan_trackers].
  destruct (trackers !! r') as [tr|] eqn:Hr'.
  - unfold FramesTracker.get_variable.
    destruct (_variable_reference_to_variable tr !! h) as [n|] eqn:Hn.
    + intros [= <-]. exists tid, tr. split_and!; [by left|done|].
      rewrite Hn. eauto.
    + intros (tid' & tr' & Hin & ?)%IH. exists tid', tr'.
      split; [by right|done].
  - intros (tid' & tr' & Hin & ?)%IH. exists tid', tr'.
    split; [by right|done].
Qed.

Lemma scan_trackers_None trackers items h :
  SuspendedFramesManager.scan_trackers trackers items h = None ↔
  ∀ tid r tr, (tid, r) ∈ items → trackers !! r = Some tr →
    _variable_reference_to_variable tr !! h = None.
Proof.
  induction items as [|[tid r'] items IH].
  - split; [|done]. by intros _ tid r tr ?%elem_of_nil.
  - cbn [SuspendedFramesManager.scan_trackers]. split.
    + intros Hscan tid' r tr [[= -> ->]|Hin]%elem_of_cons Hr.
      * rewrite Hr in Hscan. unfold FramesTracker.get_variable in Hscan.
        by destruct (_variable_reference_to_variable tr !! h).
      * destruct (trackers !! r') as [tr'|] eqn:Hr'.
        -- unfold FramesTracker.get_variable in Hscan.
           destruct (_variable_reference_to_variable tr' !! h); [done|].
           by eapply IH.
        -- by eapply IH.
    + intros Hall. destruct (trackers !! r') as [tr'|] eqn:Hr'.
      * unfold FramesTracker.get_variable.
        rewrite (Hall tid r' tr') by (by left || done).
        apply IH. intros tid' r tr Hin. apply (Hall tid'). by right.
      * apply IH. intros tid' r tr Hin. apply (Hall tid'). by right.
Qed.

(** The manager finds no tracker for a handle exactly when the handle is
    not in the index and no tracker of the thread map holds it. *)
Lemma get_tracker_None w h :
  SuspendedFramesManager._get_tracker_for_variable_reference w h = None ↔
  _variable_reference_to_frames_tracker (the_manager w) !! h = None
  ∧ ∀ tid r, (tid, r) ∈ _thread_id_to_tracker (the_manager w) → ¬ owns w r h.
Proof.
  unfold SuspendedFramesManager._get_tracker_for_variable_reference.
  destruct (_variable_reference_to_frames_tracker (the_manager w) !! h)
    as [r|] eqn:Hi.
  - split; [done|]. by intros [? _].
  - rewrite scan_trackers_None. split.
    + intros Hall. split; [done|]. intros tid r Hin (tr & Hr & Hv).
      rewrite (Hall tid r tr Hin Hr) in Hv. by destruct Hv.
    + intros [_ Hall] tid r tr Hin Hr. apply eq_None_not_Some.
      intros Hv. apply (Hall tid r Hin). by exists tr.
Qed.

Lemma get_tracker_Some w h r :
  SuspendedFramesManager._get_tracker_for_variable_reference w h = Some r →
  _variable_reference_to_frames_tracker (the_manager w) !! h = Some r
  ∨ (_variable_reference_to_frames_tracker (the_manager w) !! h = None
     ∧ (∃ tid, (tid, r) ∈ _thread_id_to_tracker (the_manager w))
     ∧ owns w r h).
Proof.
  unfold SuspendedFramesManager._get_tracker_for_variable_reference.
  destruct (_variable_reference_to_frames_tracker (the_manager w) !! h)
    as [r'|] eqn:Hi.
  - intros [= <-]. by left.
  - intros (tid & tr & Hin & Hr & Hv)%scan_trackers_Some. right.
    split_and!; [done|by exists tid|by exists tr].
Qed.

Lemma get_tracker_owns w h r :
  wf w →
  SuspendedFramesManager._get_tracker_for_variable_reference w h = Some r →
  owns w r h.
Proof.
  intros Hwf [Hi|(_ & _ & Ho)]%get_tracker_Some; [|done].
  destruct (wf_index _ Hwf h r Hi) as (tr & Hr & _ & Hv). by exists tr.
Qed.

Lemma get_variable_KeyError w h :
  wf w →
  SuspendedFramesManager.get_variable w h = Raise KeyError
  ↔ SuspendedFramesManager._get_tracker_for_variable_reference w h = None.
Proof.
  intros Hwf. unfold SuspendedFramesManager.get_variable.
  destruct (SuspendedFramesManager._get_tracker_for_variable_reference w h)
    as [r|] eqn:Hget; [|done].
  destruct (get_tracker_owns w h r Hwf Hget) as (tr & Hr & [n Hn]).
  rewrite Hr. unfold FramesTracker.get_variable. by rewrite Hn.
Qed.

Lemma get_thread_id_None w h :
  SuspendedFramesManager._get_tracker_for_variable_reference w h = None →
  SuspendedFramesManager.get_thread_id_for_variable_reference w h = None.
Proof.
  intros Hget.
  unfold SuspendedFramesManager.get_thread_id_for_variable_reference.
  by rewrite Hget.
Qed.


(** ** What [get_children_variables] returns *)

Section children_facts.
Context {E : Externals}.

Lemma sorted_positions_Permutation nds :
  sorted_positions nds ≡ₚ seq 0 (length nds).
Proof. apply sort_by_Permutation. Qed.

Lemma sorted_variables_positions w nodes nds :
  heap_nodes w = nodes ++ nds →
  sort_by (sorted_variables_key_lt w) (seq (length nodes) (length nds))
  = map (Nat.add (length nodes)) (sorted_positions nds).
Proof.
  intros Hw. unfold sorted_positions.
  rewrite <-(sort_by_map (Nat.add (length nodes)) _
               (sorted_variables_key_lt w)).
  - f_equal. symmetry. etrans; [apply (fmap_add_seq (length nodes) 0)|].
    by rewrite Nat.add_0_r.
  - intros x y _ _. unfold sorted_variables_key_lt, name_of, name_at.
    rewrite Hw, !lookup_app_r by lia.
    by replace (length nodes + x - length nodes) with x by lia;
       replace (length nodes + y - length nodes) with y by lia.
Qed.

(** Every call builds the children anew, at the end of the heap. *)
Lemma get_children_variables_spec self fmt now w :
  match children_nodes self fmt now with
  | Some nds =>
      (get_children_variables self fmt now w).1
      = Ok (map (Nat.add (length (heap_nodes w))) (children_order self nds))
      ∧ heap_nodes (get_children_variables self fmt now w).2
        = heap_nodes w ++ nds
  | None => (get_children_variables self fmt now w).1 = Raise AttributeError
  end.
Proof.
  destruct self as [name v r b e|fr r]; simpl.
  - rewrite ObjectVariable_get_children_variables_eq.
    pose proof (make_children_fst r false (object_entries v e fmt now) w) as Hf.
    pose proof (make_children_nodes r false (object_entries v e fmt now) w) as Hn.
    destruct (make_children r false _ w) as [kids w1]. simpl in *.
    split; [|done]. rewrite Hf, length_map. f_equal. symmetry.
    etrans; [apply (fmap_add_seq (length (heap_nodes w)) 0)|].
    by rewrite Nat.add_0_r.
  - unfold FrameVariable_get_children_variables.
    pose proof (frame_children_spec r (f_locals fr) w) as Hspec.
    destruct (frame_child_nodes r (f_locals fr)) as [nds|].
    + destruct Hspec as [Hf Hn].
      destruct (frame_children r (f_locals fr) w) as [[kids|e] w1];
        simpl in *; [|done].
      injection Hf as ->. split; [|done]. f_equal.
      by apply sorted_variables_positions.
    + by destruct (frame_children r (f_locals fr) w) as [[kids|e] w1];
        simpl in *.
Qed.

Lemma children_order_lt self nds i :
  i ∈ children_order self nds → i < length nds.
Proof.
  destruct self; simpl.
  - by intros [_ ?]%elem_of_seq.
  - rewrite sorted_positions_Permutation. by intros [_ ?]%elem_of_seq.
Qed.
End children_facts.

(** ** What one expansion of an object node builds and registers *)

Lemma register_all_notin n lst (m : gmap Z nat) h :
  h ∉ map (λ en : string * value * option string, v_id en.1.2) lst →
  register_all n lst m !! h = m !! h.
Proof.
  revert n m. induction lst as [|en lst IH]; intros n m Hh; [done|].
  cbn [map] in Hh. rewrite not_elem_of_cons in Hh. destruct Hh as [Hne Hh].
  cbn [register_all]. rewrite IH by done. by apply lookup_insert_ne.
Qed.

Lemma register_all_in n lst (m : gmap Z nat) h :
  h ∈ map (λ en : string * value * option string, v_id en.1.2) lst →
  ∃ j en, lst !! j = Some en ∧ v_id en.1.2 = h
    ∧ register_all n lst m !! h = Some (n + j).
Proof.
  revert n m. induction lst as [|en lst IH]; intros n m Hh.
  - by apply elem_of_nil in Hh.
  - cbn [register_all].
    destruct (decide (h ∈ map (λ en : string * value * option string,
                                 v_id en.1.2) lst)) as [Hin|Hin].
    + destruct (IH (S n) (<[v_id en.1.2 := n]> m) Hin)
        as (j & en' & Hj & Hid & Hget).
      exists (S j), en'. split_and!; [done|done|].
      rewrite Hget. f_equal. lia.
    + cbn [map] in Hh. apply elem_of_cons in Hh as [->|?]; [|done].
      exists 0, en. split_and!; [done|done|].
      rewrite register_all_notin by done. rewrite lookup_insert_eq.
      f_equal. lia.
Qed.

(** The tracker of the nodes after [make_children]. *)
Lemma make_children_registered r b lst w tr :
  heap_trackers w !! r = Some tr →
  ∃ tr1,
    heap_trackers (make_children r b lst w).2 !! r = Some tr1
    ∧ _variable_reference_to_variable tr1
      = register_all (length (heap_nodes w)) lst
          (_variable_reference_to_variable tr)
    ∧ forget_variables tr1 = forget_variables tr.
Proof.
  revert w tr. induction lst as [|[[k v] e] lst IH]; intros w tr Hr.
  - exists tr. by split_and!.
  - cbn [make_children]. rewrite ObjectVariable_init_eq.
    set (nd := _ObjectVariable k v r b e).
    assert (heap_trackers (with_node nd r w) !! r
            = Some (with_variable_reference_to_variable
                      (<[v_id v := length (heap_nodes w)]>) tr)) as Hr1.
    { unfold with_node. cbn [heap_trackers].
      by rewrite list_lookup_alter_eq, Hr. }
    destruct (IH (with_node nd r w) _ Hr1) as (tr1 & Hr' & Htable & Hfg).
    destruct (make_children r b lst _) as [kids w']. simpl in *.
    exists tr1. split_and!; [done| |].
    + rewrite Htable, length_app. simpl.
      by replace (length (heap_nodes w) + 1) with (S (length (heap_nodes w)))
        by lia.
    + rewrite Hfg. by destruct tr.
Qed.

Section expansion_facts.
Context {E : Externals}.

(** One call on an object node: a new node per entry, at the end of the
    heap, in the order of the entries. *)
Lemma object_children_call name val r b e fmt now w :
  let entries := object_entries val e fmt now in
  ∃ w1,
    get_children_variables (_ObjectVariable name val r b e) fmt now w
    = (Ok (seq (length (heap_nodes w)) (length entries)), w1)
    ∧ heap_nodes w1 = heap_nodes w ++ map (child_node r false) entries
    ∧ w1 = (make_children r false entries w).2.
Proof.
  intros entries. cbn [get_children_variables].
  rewrite ObjectVariable_get_children_variables_eq. fold entries.
  pose proof (make_children_fst r false entries w) as Hf.
  pose proof (make_children_nodes r false entries w) as Hn.
  destruct (make_children r false entries w) as [kids w1]. simpl in *.
  exists w1. by rewrite Hf.
Qed.

(** The entries carry the names and the values of the listing. *)
Lemma object_entries_listing val e fmt now :
  map fst (object_entries val e fmt now)
  = match v_resolver val with
    | None => []
    | Some (DapResolver f) => map fst (f now fmt)
    | Some (DictResolver g) =>
        sort_by (λ a b, sorted_attributes_key_lt a.1 b.1) (g now)
    end.
Proof.
  unfold object_entries. destruct (v_resolver val) as [[f|g]|]; [| |done].
  - destruct (truthy e); rewrite map_map; apply map_ext;
      by intros [[k v] s].
  - destruct (truthy e); rewrite !map_map;
      (etrans; [|apply map_id]); apply map_ext; by intros [k v].
Qed.


End expansion_facts.

(** * The claims *)



(** An attribute that the object computes anew at every read is another
    live value at every expansion: the two expansions of the sample shape
    give [area] the handles 1000 and 1007, and [name] the handle 801 both
    times. *)
Example sample_recomputed_attribute :
  let '(_, w1) :=
    get_children_variables (E := sample_externals) sample_node_s None 0
      sample_world_1 in
  let '(_, w2) :=
    get_children_variables (E := sample_externals) sample_node_s None 7 w1 in
  map (handle_of w2) [0; 1; 2; 3]
  = [Some 1000%Z; Some 801%Z; Some 1007%Z; Some 801%Z].
Proof. by vm_compute. Qed.

(** C9. [obtain_as_variable] ignores the [name] and [evaluate_name] it is
    given whenever a node is already registered under the identity of the
    value: it returns that node and changes nothing, so the node keeps the
    name and evaluate name it was built with; there are calls whose result
    carries a name other than the one passed in. *)
Theorem C9_obtain_as_variable_keeps_registered_node :
  (∀ w self tr name val ev n,
     heap_trackers w !! self = Some tr →
     _variable_reference_to_variable tr !! v_id val = Some n →
     FramesTracker.obtain_as_variable self name val ev w = (Ok n, w))
  ∧ (∃ w self name val ev n nd,
       FramesTracker.obtain_as_variable self name val ev w = (Ok n, w)
       ∧ heap_nodes w !! n = Some nd
       ∧ get_name nd ≠ name).
Proof.
  split.
  - intros w self tr name val ev n. apply obtain_as_variable_cached.
  - exists sample_world_x, 0, "y", sample_int_42, (Some "y"), 0,
      (_ObjectVariable "x" sample_int_42 0 false (Some "x")).
    split_and!; [by vm_compute|by vm_compute|done].
Qed.

Lemma C9_obtain_as_variable_keeps_registered_node_witness :
  heap_trackers sample_world_x !! 0
  = Some (MkTracker (Some TheManager) [] ∅ [] ∅ None false {[ 42%Z := 0 ]})
  ∧ ({[ 42%Z := 0 ]} : gmap Z nat) !! v_id sample_int_42 = Some 0
  ∧ FramesTracker.obtain_as_variable 0 "y" sample_int_42 (Some "y")
      sample_world_x
    = (Ok 0, sample_world_x).
Proof.
  assert (heap_trackers sample_world_x !! 0
          = Some (MkTracker (Some TheManager) [] ∅ [] ∅ None false
                    {[ 42%Z := 0 ]})) as Hr.
  { by vm_compute. }
  assert (({[ 42%Z := 0 ]} : gmap Z nat) !! v_id sample_int_42 = Some 0)
    as Hn.
  { by vm_compute. }
  split_and!; [exact Hr|exact Hn|].
  exact (proj1 C9_obtain_as_variable_keeps_registered_node
           sample_world_x 0 _ "y" sample_int_42 (Some "y") 0 Hr Hn).
Defined.

(** C4 (amended). [get_children_variables] computes the children anew at
    every call; nothing is cached.  On an object node of a container it
    asks the resolver and builds one new node per entry of the listing it
    gets in this call, with the names and values of the listing and in its
    order, registers each new node under the identity of its value (in
    place of a node registered under that identity before) and returns
    these new nodes.  Any later call does the same with the listing of its
    own moment, so it returns none of the nodes of the earlier call.  On
    an object node of a value that is not a container it returns the empty
    sequence and builds nothing.  On a frame node (whose return-values
    binding, if any, is a dictionary) a call likewise builds one new node
    per local and returns these, and what a later call returns are again
    nodes it has built itself, none of the earlier ones. *)
Theorem C4_children_computed_at_every_call {E : Externals} (w : world) :
  (∀ name val r b e fmt now,
     let self := _ObjectVariable name val r b e in
     let entries := object_entries val e fmt now in
     (v_resolver val = None →
      get_children_variables self fmt now w = (Ok [], w))
     ∧ (∀ f, v_resolver val = Some (DapResolver f) →
          map fst entries = map fst (f now fmt))
     ∧ (∀ g, v_resolver val = Some (DictResolver g) →
          map fst entries
          = sort_by (λ a b, sorted_attributes_key_lt a.1 b.1) (g now))
     ∧ ∃ w1,
         get_children_variables self fmt now w
         = (Ok (seq (length (heap_nodes w)) (length entries)), w1)
         ∧ heap_nodes w1 = heap_nodes w ++ map (child_node r false) entries
         ∧ (∀ tr, heap_trackers w !! r = Some tr →
              ∃ tr1,
                heap_trackers w1 !! r = Some tr1
                ∧ _variable_reference_to_variable tr1
                  = register_all (length (heap_nodes w)) entries
                      (_variable_reference_to_variable tr)
                ∧ ∀ en, en ∈ entries →
                    ∃ j en',
                      entries !! j = Some en'
                      ∧ v_id en'.1.2 = v_id en.1.2
                      ∧ _variable_reference_to_variable tr1 !! v_id en.1.2
                        = Some (length (heap_nodes w) + j))
         ∧ ∀ fmt' now', ∃ w2,
             get_children_variables self fmt' now' w1
             = (Ok (seq (length (heap_nodes w1))
                      (length (object_entries val e fmt' now'))), w2)
             ∧ ∀ k, k ∈ seq (length (heap_nodes w1))
                          (length (object_entries val e fmt' now')) →
                    k ∉ seq (length (heap_nodes w)) (length entries))
  ∧ (∀ fr r fmt now nds,
       frame_child_nodes r (f_locals fr) = Some nds →
       ∃ kids1 w1,
         get_children_variables (_FrameVariable fr r) fmt now w
         = (Ok kids1, w1)
         ∧ kids1 ≡ₚ seq (length (heap_nodes w)) (length nds)
         ∧ heap_nodes w1 = heap_nodes w ++ nds
         ∧ ∀ fmt' now' kids2 w2,
             get_children_variables (_FrameVariable fr r) fmt' now' w1
             = (Ok kids2, w2) →
             length (heap_nodes w1) + length kids2 = length (heap_nodes w2)
             ∧ ∀ k, k ∈ kids2 →
                 (k ∉ kids1)
                 ∧ length (heap_nodes w1) ≤ k < length (heap_nodes w2)).
Proof.
  split.
  - intros name val r b e fmt now self entries.
    pose proof (object_entries_listing val e fmt now) as Hlisting.
    fold entries in Hlisting. split_and!.
    + intros Hres. simpl. unfold ObjectVariable_get_children_variables.
      by rewrite Hres.
    + intros f Hres. by rewrite Hlisting, Hres.
    + intros g Hres. by rewrite Hlisting, Hres.
    + destruct (object_children_call name val r b e fmt now w)
        as (w1 & Hcall & Hnodes & Hw1).
      fold self entries in Hcall, Hnodes, Hw1.
      exists w1. split_and!; [done|done| |].
      * intros tr Hr.
        destruct (make_children_registered r false entries w tr Hr)
          as (tr1 & Hr1 & Htable & _).
        rewrite <-Hw1 in Hr1. exists tr1. split_and!; [done|done|].
        intros en Hen. rewrite Htable.
        destruct (register_all_in (length (heap_nodes w)) entries
                    (_variable_reference_to_variable tr) (v_id en.1.2))
          as (j & en' & Hj & Hid & Hget).
        { apply list_elem_of_fmap. by exists en. }
        by exists j, en'.
      * intros fmt' now'.
        destruct (object_children_call name val r b e fmt' now' w1)
          as (w2 & Hcall2 & _).
        exists w2. split; [done|].
        intros k [Hk _]%elem_of_seq [_ Hk']%elem_of_seq.
        rewrite Hnodes, length_app, length_map in Hk. lia.
  - intros fr r fmt now nds Hnds.
    assert (∀ fmt0 now0 w0, ∃ kids w1,
              get_children_variables (_FrameVariable fr r) fmt0 now0 w0
              = (Ok kids, w1)
              ∧ kids ≡ₚ seq (length (heap_nodes w0)) (length nds)
              ∧ heap_nodes w1 = heap_nodes w0 ++ nds) as Hcall.
    { intros fmt0 now0 w0.
      pose proof (get_children_variables_spec (_FrameVariable fr r) fmt0 now0
                    w0) as Hspec.
      cbn [children_nodes children_order] in Hspec. rewrite Hnds in Hspec.
      destruct (get_children_variables (_FrameVariable fr r) fmt0 now0 w0)
        as [res w1]. simpl in Hspec. destruct Hspec as [-> Hn].
      eexists _, w1. split_and!; [done| |done].
      rewrite sorted_positions_Permutation.
      apply (reflexive_eq (R := (≡ₚ))).
      etrans; [apply (fmap_add_seq (length (heap_nodes w0)) 0)|].
      by rewrite Nat.add_0_r. }
    destruct (Hcall fmt now w) as (kids1 & w1 & Hc1 & Hp1 & Hn1).
    exists kids1, w1. split_and!; [done|done|done|].
    intros fmt' now' kids2 w2 Hc2'.
    destruct (Hcall fmt' now' w1) as (kids2' & w2' & Hc2 & Hp2 & Hn2).
    rewrite Hc2' in Hc2. injection Hc2 as <- <-. split.
    + rewrite Hn2, length_app, Hp2, length_seq. done.
    + intros k Hk. rewrite Hp2 in Hk. apply elem_of_seq in Hk as [Hk Hk'].
      split_and!; [|done|].
      * rewrite Hp1. intros [_ Hlt]%elem_of_seq.
        rewrite Hn1, length_app in Hk. lia.
      * rewrite Hn2, length_app. lia.
Qed.

Lemma C4_children_computed_at_every_call_witness :
  v_resolver sample_int_42 = None
  ∧ get_children_variables (E := sample_externals)
      (_ObjectVariable "x" sample_int_42 0 false (Some "x")) None 0
      sample_world_x
    = (Ok [], sample_world_x)
  ∧ heap_trackers sample_world_1 !! 0
    = Some (MkTracker (Some TheManager) [] ∅ [] ∅ None false ∅)
  ∧ ∃ w1 tr1 w2,
      get_children_variables (E := sample_externals) sample_node_k None 0
        sample_world_1 = (Ok [0; 1], w1)
      ∧ heap_nodes w1
        = [_ObjectVariable "0" sample_int_1 0 false (Some "k[0]");
           _ObjectVariable "1" sample_int_2 0 false (Some "k[1]")]
      ∧ heap_trackers w1 !! 0 = Some tr1
      ∧ _variable_reference_to_variable tr1 = {[ 1%Z := 0; 2%Z := 1 ]}
      ∧ get_children_variables (E := sample_externals) sample_node_k None 1
          w1 = (Ok [2; 3], w2).
Proof.
  assert (v_resolver sample_int_42 = None) as Hres by reflexivity.
  assert (heap_trackers sample_world_1 !! 0
          = Some (MkTracker (Some TheManager) [] ∅ [] ∅ None false ∅)) as Hr
    by reflexivity.
  split_and!; [exact Hres| |exact Hr|].
  - exact (proj1 (proj1 (C4_children_computed_at_every_call
                           (E := sample_externals) sample_world_x)
                    "x" sample_int_42 0 false (Some "x") None 0)
             Hres).
  - destruct (proj1 (C4_children_computed_at_every_call
                       (E := sample_externals) sample_world_1)
                "k" sample_list 0 false (Some "k") None 0)
      as (_ & _ & _ & w1 & Hcall & Hnodes & Hreg & Hagain).
    destruct (Hreg _ Hr) as (tr1 & Hr1 & Htable & _).
    destruct (Hagain None 1) as (w2 & Hcall2 & _).
    exists w1, tr1, w2.
    split_and!; [exact Hcall|exact Hnodes|exact Hr1| |].
    + rewrite Htable. apply map_eq. intros h. by vm_compute.
    + unfold sample_node_k. rewrite Hcall2, Hnodes. reflexivity.
Defined.

(** C4, as stated, fails: the second call on the node for the list
    [[1, 2]] does not return the nodes of the first call but two nodes
    built anew. *)
Lemma C4_counterexample :
  (get_children_variables (E := sample_externals) sample_node_k None 0
     sample_world_1).1 = Ok [0; 1]
  ∧ (get_children_variables (E := sample_externals) sample_node_k None 1
       (get_children_variables (E := sample_externals) sample_node_k None 0
          sample_world_1).2).1 = Ok [2; 3].
Proof. split; by vm_compute. Qed.

(** ** Captured return values *)

Lemma omap_lookup_seq {A : Type} (l0 l : list A) :
  omap (λ i, (l0 ++ l) !! i) (seq (length l0) (length l)) = l.
Proof.
  revert l0. induction l as [|x l IH]; intros l0; [done|].
  cbn [length seq]. change (omap ?f (?a :: ?k))
    with (match f a with Some y => y :: omap f k | None => omap f k end).
  cbv beta. rewrite list_lookup_middle by done.
  f_equal. specialize (IH (l0 ++ [x])).
  rewrite length_app, <-app_assoc in IH. simpl in IH.
  by rewrite Nat.add_1_r in IH.
Qed.

Lemma nodes_of_shift w nodes nds p :
  heap_nodes w = nodes ++ nds →
  nodes_of w (map (Nat.add (length nodes)) p) = omap (λ i, nds !! i) p.
Proof.
  intros Hw. unfold nodes_of. induction p as [|i p IH]; [done|].
  cbn [map]. change (omap ?f (?a :: ?k))
    with (match f a with Some y => y :: omap f k | None => omap f k end).
  cbv beta. rewrite IH, Hw, lookup_app_r by lia.
  by replace (length nodes + i - length nodes) with i by lia.
Qed.

Section return_values.
Context {E : Externals}.

Lemma nodes_of_children self fmt now w nds :
  children_nodes self fmt now = Some nds →
  ∃ kids w',
    get_children_variables self fmt now w = (Ok kids, w')
    ∧ length kids = length nds
    ∧ nodes_of w' kids ≡ₚ nds.
Proof.
  intros Hnds. pose proof (get_children_variables_spec self fmt now w) as Hspec.
  rewrite Hnds in Hspec.
  destruct (get_children_variables self fmt now w) as [res w']. simpl in Hspec.
  destruct Hspec as [-> Hw']. eexists _, w'. split; [done|].
  assert (children_order self nds ≡ₚ seq 0 (length nds)) as Hperm.
  { destruct self; [done|apply sorted_positions_Permutation]. }
  split.
  - by rewrite length_map, Hperm, length_seq.
  - rewrite (nodes_of_shift w' _ nds) by done. rewrite Hperm.
    apply (reflexive_eq (R := (≡ₚ))), (omap_lookup_seq [] nds).
Qed.

Lemma filter_return_nodes r items :
  filter (λ nd, node_is_return_value nd = true)
    (map (λ kv, child_node r true
                  (kv.1, kv.2,
                   Some (RETURN_VALUES_DICT +:+ "[" +:+ py_repr kv.1 +:+ "]")))
       items)
  = map (λ kv, _ObjectVariable kv.1 kv.2 r true
                 (Some (return_evaluate_name kv.1))) items.
Proof.
  induction items as [|kv items IH]; [done|].
  cbn [map]. rewrite filter_cons_True by done. by rewrite IH.
Qed.

Lemma frame_child_nodes_plain r locals :
  RETURN_VALUES_DICT ∉ map fst locals →
  ∃ nds, frame_child_nodes r locals = Some nds
    ∧ filter (λ nd, node_is_return_value nd = true) nds = [].
Proof.
  induction locals as [|[key val] rest IH]; intros Hnin.
  - by exists [].
  - cbn [map fst] in Hnin. rewrite not_elem_of_cons in Hnin.
    destruct Hnin as [Hne Hnin]. destruct (IH Hnin) as (nds & Hnds & Hf).
    cbn [frame_child_nodes]. rewrite bool_decide_eq_false_2 by done.
    rewrite Hnds. eexists. split; [done|].
    rewrite filter_cons_False by done. done.
Qed.

Lemma frame_child_nodes_return r locals ret items :
  NoDup (map fst locals) →
  (RETURN_VALUES_DICT, ret) ∈ locals →
  v_items ret = Some items →
  ∃ nds, frame_child_nodes r locals = Some nds
    ∧ filter (λ nd, node_is_return_value nd = true) nds
      = map (λ kv, _ObjectVariable kv.1 kv.2 r true
                     (Some (return_evaluate_name kv.1))) items.
Proof.
  intros Hnd Hin Hitems. induction locals as [|[key val] rest IH].
  - by apply elem_of_nil in Hin.
  - cbn [map fst] in Hnd. apply NoDup_cons in Hnd as [Hkey Hnd].
    cbn [frame_child_nodes]. case_bool_decide as Hret.
    + subst key. apply elem_of_cons in Hin as [[= <-]|Hin].
      * rewrite Hitems.
        destruct (frame_child_nodes_plain r rest Hkey) as (nds & -> & Hf).
        eexists. split; [done|].
        by rewrite filter_app, Hf, app_nil_r, filter_return_nodes.
      * destruct Hkey. apply list_elem_of_fmap. by exists (RETURN_VALUES_DICT, ret).
    + apply elem_of_cons in Hin as [[= ? ?]|Hin]; [congruence|].
      destruct (IH Hnd Hin) as (nds & -> & Hf).
      eexists. split; [done|]. by rewrite filter_cons_False.
Qed.

Lemma get_var_data_return name val r e fmt :
  ∃ vd attributes,
    get_var_data (_ObjectVariable name val r true e) fmt = Ok vd
    ∧ vd_name vd = "(return) " +:+ name
    ∧ vd_evaluateName vd = e
    ∧ vd_presentationHint vd = Some attributes
    ∧ "readOnly" ∈ attributes.
Proof.
  unfold get_var_data, get_variable_details.
  destruct (bool_decide (v_type_name val
                         ∈ ["str"; "unicode"; "bytes"; "bytearray"])).
  - eexists _, ["rawString"; "readOnly"]. split_and!; try done.
    apply elem_of_cons; right. by left.
  - eexists _, ["readOnly"]. split_and!; try done. by left.
Qed.
End return_values.

(** C7. Return-value unpacking: when the locals of a frame contain the
    return-values binding, and that binding is a dictionary, the children
    of the frame node include exactly one node per captured return, flagged
    as a return value and with the evaluate name
    [<return-values key>[<repr of the name>]]; the data rendered for such a
    node carries the name ['(return) <name>'], that evaluate name and the
    ['readOnly'] presentation attribute. *)
Theorem C7_return_values_unpacked {E : Externals} (fr : frame)
    (r : tracker_ref) (fmt : option fmt_dict) (now : nat) (w : world) (ret : value)
    (items : list (string * value)) :
  NoDup (map fst (f_locals fr)) →
  (RETURN_VALUES_DICT, ret) ∈ f_locals fr →
  v_items ret = Some items →
  ∃ kids w',
    get_children_variables (_FrameVariable fr r) fmt now w = (Ok kids, w')
    ∧ length (nodes_of w' kids) = length kids
    ∧ filter (λ nd, node_is_return_value nd = true) (nodes_of w' kids)
      ≡ₚ map (λ kv, _ObjectVariable kv.1 kv.2 r true
                      (Some (return_evaluate_name kv.1))) items
    ∧ ∀ return_key return_value fmt',
        (return_key, return_value) ∈ items →
        ∃ vd attributes,
          get_var_data
            (_ObjectVariable return_key return_value r true
               (Some (return_evaluate_name return_key))) fmt' = Ok vd
          ∧ vd_name vd = "(return) " +:+ return_key
          ∧ vd_evaluateName vd = Some (return_evaluate_name return_key)
          ∧ vd_presentationHint vd = Some attributes
          ∧ "readOnly" ∈ attributes.
Proof.
  intros Hnd Hin Hitems.
  destruct (frame_child_nodes_return r (f_locals fr) ret items Hnd Hin Hitems)
    as (nds & Hnds & Hfilter).
  destruct (nodes_of_children (_FrameVariable fr r) fmt now w nds Hnds)
    as (kids & w' & Hcall & Hlen & Hperm).
  exists kids, w'. split_and!; [done| | |].
  - by rewrite Hperm.
  - by rewrite Hperm, Hfilter.
  - intros return_key return_value fmt' _. apply get_var_data_return.
Qed.

Lemma C7_return_values_unpacked_witness :
  NoDup (map fst (f_locals sample_frame_ret))
  ∧ (RETURN_VALUES_DICT (Externals := sample_externals), sample_return_dict)
    ∈ f_locals sample_frame_ret
  ∧ v_items sample_return_dict = Some [("foo", sample_int_42)]
  ∧ ∃ kids w',
      get_children_variables (E := sample_externals)
        (_FrameVariable sample_frame_ret 0) None 0 sample_world_1
      = (Ok kids, w')
      ∧ length (nodes_of w' kids) = length kids
      ∧ filter (λ nd, node_is_return_value nd = true) (nodes_of w' kids)
        ≡ₚ map (λ kv, _ObjectVariable kv.1 kv.2 0 true
                        (Some (return_evaluate_name (E := sample_externals)
                                 kv.1)))
             [("foo", sample_int_42)]
      ∧ ∀ return_key return_value fmt',
          (return_key, return_value) ∈ [("foo", sample_int_42)] →
          ∃ vd attributes,
            get_var_data (E := sample_externals)
              (_ObjectVariable return_key return_value 0 true
                 (Some (return_evaluate_name (E := sample_externals)
                          return_key))) fmt' = Ok vd
            ∧ vd_name vd = "(return) " +:+ return_key
            ∧ vd_evaluateName vd
              = Some (return_evaluate_name (E := sample_externals) return_key)
            ∧ vd_presentationHint vd = Some attributes
            ∧ "readOnly" ∈ attributes.
Proof.
  assert (NoDup (map fst (f_locals sample_frame_ret))) as Hnd.
  { apply (bool_decide_unpack _). by vm_compute. }
  assert ((RETURN_VALUES_DICT (Externals := sample_externals),
           sample_return_dict) ∈ f_locals sample_frame_ret) as Hin.
  { right. left. }
  assert (v_items sample_return_dict = Some [("foo", sample_int_42)])
    as Hitems by reflexivity.
  split_and!; [exact Hnd|exact Hin|exact Hitems|].
  exact (C7_return_values_unpacked (E := sample_externals) sample_frame_ret 0
           None 0 sample_world_1 sample_return_dict [("foo", sample_int_42)]
           Hnd Hin Hitems).
Defined.

(** The captured return [foo] of the sample frame is rendered as
    ['(return) foo'], read-only, with the evaluate name
    [__pydevd_ret_val_dict['foo']]; the children come out in the order
    [a, b, foo] of their names. *)
Example sample_return_value_rendered :
  let '(res, w') :=
    get_children_variables (E := sample_externals)
      (_FrameVariable sample_frame_ret 0) None 0 sample_world_1 in
  res = Ok [2; 0; 1]
  ∧ (λ nd, get_var_data (E := sample_externals) nd None)
      <$> heap_nodes w' !! 1
    = Some (Ok (MkVarData "(return) foo" "<int>" "int"
                  (Some "__pydevd_ret_val_dict['foo']") None
                  (Some ["readOnly"]))).
Proof. by vm_compute. Qed.

(** C8. Lookup order and error containment of
    [SuspendedFramesManager.find_frame]: the wildcard id ["*"] yields the
    current frame; otherwise, with the id converted to an integer, a
    fabricated frame of the thread comes first, then the frame that the
    tracker of the thread has under the id, and [None] when neither
    applies.  An exception raised on the way (by [get_frame] or by the
    conversion of the id) does not propagate: the traceback is printed and
    the call returns [None]. *)
Theorem C8_find_frame_order_and_containment {E : Externals} (w : world)
    (thread_id : string) (frame_id : frame_id_arg) :
  (frame_id = FidStr "*" → ∀ fr, get_frame = Ok fr →
     SuspendedFramesManager.find_frame thread_id frame_id w = (Some fr, w))
  ∧ (frame_id ≠ FidStr "*" → ∀ n,
       SuspendedFramesManager.int_of_frame_id frame_id = Ok n →
       (∀ fr, fake_frame w thread_id n = Some fr →
          SuspendedFramesManager.find_frame thread_id frame_id w
          = (Some fr, w))
       ∧ (fake_frame w thread_id n = None →
          (∀ r tr,
             od_get thread_id (_thread_id_to_tracker (the_manager w)) = Some r →
             heap_trackers w !! r = Some tr →
             SuspendedFramesManager.find_frame thread_id frame_id w
             = (od_get n (_frame_id_to_frame tr), w))
          ∧ (od_get thread_id (_thread_id_to_tracker (the_manager w)) = None →
             SuspendedFramesManager.find_frame thread_id frame_id w
             = (None, w))))
  ∧ (∀ e,
       (frame_id = FidStr "*" ∧ get_frame = Raise e)
       ∨ (frame_id ≠ FidStr "*"
          ∧ SuspendedFramesManager.int_of_frame_id frame_id = Raise e) →
       SuspendedFramesManager.find_frame_try w thread_id frame_id = Raise e)
  ∧ (∀ e,
       SuspendedFramesManager.find_frame_try w thread_id frame_id = Raise e →
       SuspendedFramesManager.find_frame thread_id frame_id w
       = (None, write_stderr "Traceback (most recent call last):" w)).
Proof.
  unfold SuspendedFramesManager.find_frame,
    SuspendedFramesManager.find_frame_try, fake_frame.
  split_and!.
  - intros -> fr Hfr. rewrite bool_decide_eq_true_2 by done. by rewrite Hfr.
  - intros Hne n Hn. rewrite bool_decide_eq_false_2 by done. rewrite Hn.
    split; [by intros fr ->|]. intros ->. split.
    + intros r tr Hr Htr. by rewrite Hr, Htr.
    + by intros ->.
  - intros e [[-> He]|[Hne He]].
    + rewrite bool_decide_eq_true_2 by done. by rewrite He.
    + rewrite bool_decide_eq_false_2 by done. by rewrite He.
  - by intros e ->.
Qed.

Lemma C8_find_frame_order_and_containment_witness :
  FidStr "101" ≠ FidStr "*"
  ∧ SuspendedFramesManager.int_of_frame_id (E := sample_externals)
      (FidStr "101") = Ok 101%Z
  ∧ fake_frame sample_world_fake "T" 101 = Some sample_fake_frame
  ∧ SuspendedFramesManager.find_frame (E := sample_externals) "T"
      (FidStr "101") sample_world_fake
    = (Some sample_fake_frame, sample_world_fake).
Proof.
  assert (FidStr "101" ≠ FidStr "*") as Hne by discriminate.
  assert (SuspendedFramesManager.int_of_frame_id (E := sample_externals)
            (FidStr "101") = Ok 101%Z) as Hn by reflexivity.
  assert (fake_frame sample_world_fake "T" 101 = Some sample_fake_frame)
    as Hfake by (by vm_compute).
  split_and!; [exact Hne|exact Hn|exact Hfake|].
  exact (proj1 (proj1 (proj2
    (C8_find_frame_order_and_containment (E := sample_externals)
       sample_world_fake "T" (FidStr "101"))) Hne 101%Z Hn)
    sample_fake_frame Hfake).
Defined.

(** On the sample world the tracker of ["T"] holds [F1] under the id 101,
    yet the fabricated frame wins; an id that is not a number is
    contained: [None] and one more line on [stderr]. *)
Example sample_find_frame :
  (od_get "T" (_thread_id_to_tracker (the_manager sample_world_fake))
   = Some 0
   ∧ (λ tr, FramesTracker.find_frame tr "T" 101)
       <$> heap_trackers sample_world_fake !! 0
     = Some (Some sample_frame_F1))
  ∧ (SuspendedFramesManager.find_frame (E := sample_externals) "T"
       (FidStr "102") sample_world_fake).1 = Some sample_frame_F2
  ∧ SuspendedFramesManager.find_frame (E := sample_externals) "T"
      (FidStr "top") sample_world_fake
    = (None,
       write_stderr "Traceback (most recent call last):" sample_world_fake).
Proof. split_and!; by vm_compute. Qed.

(** ** The tracker after [track] *)

Lemma frame_chain_head fr :
  frame_chain fr = fr :: frame_chain_opt (f_back fr).
Proof. by destruct fr as [i n l [g|]]. Qed.

(** What [track] leaves in the tracker and in the manager. *)
Lemma track_result self tid fr lines custom w tr m :
  heap_trackers w !! self = Some tr →
  _suspended_frames_manager tr = Some m →
  let eid := py_or custom tid in
  let chain := frame_chain_opt fr in
  let tr' := track_local eid tid chain (length (heap_nodes w))
               (track_pre_local eid tid lines tr) in
  ∃ w',
    FramesTracker.track self tid fr lines custom w = (Ok tt, w')
    ∧ heap_trackers w' !! self = Some tr'
    ∧ (∀ r, r ≠ self → heap_trackers w' !! r = heap_trackers w !! r)
    ∧ _thread_id_to_tracker (the_manager w')
      = od_set eid self (_thread_id_to_tracker (the_manager w))
    ∧ _variable_reference_to_frames_tracker (the_manager w')
      = index_after_track self chain
          (_variable_reference_to_frames_tracker (the_manager w))
    ∧ _main_thread_id tr' = Some tid
    ∧ _frame_id_to_lineno tr' = lines
    ∧ od_get eid (_thread_id_to_frame_ids tr')
      = Some (default [] (od_get eid (_thread_id_to_frame_ids tr))
              ++ map f_id chain).
Proof.
  intros Hr Hm eid chain tr'. eexists. split; [by eapply track_eq|].
  cbn [heap_trackers the_manager _thread_id_to_tracker
       _variable_reference_to_frames_tracker
       with_variable_reference_to_frames_tracker with_thread_id_to_tracker].
  split_and!; try done.
  - by rewrite list_lookup_alter_eq, Hr.
  - intros r Hne. by rewrite list_lookup_alter_ne.
  - unfold tr'. by destruct (track_local_fields eid tid chain
      (length (heap_nodes w)) (track_pre_local eid tid lines tr))
      as (_ & _ & -> & _).
  - unfold tr'. by destruct (track_local_fields eid tid chain
      (length (heap_nodes w)) (track_pre_local eid tid lines tr))
      as (_ & -> & _ & _).
  - unfold tr'. rewrite track_local_frame_ids, decide_True by done. simpl.
    rewrite od_get_setdefault, decide_True by done. done.
Qed.

(** C5. Frame-chain walk and ordering: [track(thread_id, top, ...)] visits
    the frames reached from [top] through [f_back] until there is none
    left, stores each in the frame table and appends their handles, in
    that order, to the list of the effective id; on an id that the tracker
    did not have yet the list is thus the chain, topmost first.
    [get_topmost_frame_and_frame_id_to_line] returns the frame stored
    under the first handle of the list together with the line map (after
    such a [track]: [top] and the map that was passed in), and returns
    nothing for an id it does not know. *)
Theorem C5_track_walks_frame_chain (w : world) (self : tracker_ref)
    (tr : tracker_state) (m : manager_ref) (thread_id : string) (top : frame)
    (frame_id_to_lineno : gmap Z Z) (frame_custom_thread_id : option string) :
  heap_trackers w !! self = Some tr →
  _suspended_frames_manager tr = Some m →
  let eid := py_or frame_custom_thread_id thread_id in
  ∃ w' tr',
    FramesTracker.track self thread_id (Some top) frame_id_to_lineno
      frame_custom_thread_id w = (Ok tt, w')
    ∧ heap_trackers w' !! self = Some tr'
    ∧ od_get eid (_thread_id_to_frame_ids tr')
      = Some (default [] (od_get eid (_thread_id_to_frame_ids tr))
              ++ map f_id (frame_chain top))
    ∧ (∀ fr, fr ∈ frame_chain top →
         is_Some (od_get (f_id fr) (_frame_id_to_frame tr')))
    ∧ (NoDup (map f_id (frame_chain top)) →
       ∀ fr, fr ∈ frame_chain top →
         od_get (f_id fr) (_frame_id_to_frame tr') = Some fr)
    ∧ (od_get eid (_thread_id_to_frame_ids tr) = None →
       od_get eid (_thread_id_to_frame_ids tr')
       = Some (f_id top :: map f_id (frame_chain_opt (f_back top)))
       ∧ ∃ fr,
           od_get (f_id top) (_frame_id_to_frame tr') = Some fr
           ∧ FramesTracker.get_topmost_frame_and_frame_id_to_line tr' eid
             = Ok (Some (fr, frame_id_to_lineno))
           ∧ SuspendedFramesManager.get_topmost_frame_and_frame_id_to_line
               w' eid
             = Ok (Some (fr, frame_id_to_lineno))
           ∧ (NoDup (map f_id (frame_chain top)) → fr = top))
    ∧ (∀ t tid h rest fr,
         od_get tid (_thread_id_to_frame_ids t) = Some (h :: rest) →
         od_get h (_frame_id_to_frame t) = Some fr →
         FramesTracker.get_topmost_frame_and_frame_id_to_line t tid
         = Ok (Some (fr, _frame_id_to_lineno t)))
    ∧ (∀ t tid,
         od_get tid (_thread_id_to_frame_ids t) = None →
         FramesTracker.get_topmost_frame_and_frame_id_to_line t tid = Ok None)
    ∧ (∀ tid,
         od_get tid (_thread_id_to_tracker (the_manager w')) = None →
         SuspendedFramesManager.get_topmost_frame_and_frame_id_to_line w' tid
         = Ok None).
Proof.
  intros Hr Hm eid.
  destruct (track_result self thread_id (Some top) frame_id_to_lineno
              frame_custom_thread_id w tr m Hr Hm)
    as (w' & Htrack & Hself & _ & Hthreads & _ & _ & Hlines & Hids).
  fold eid in Hself, Hthreads, Hlines, Hids. cbn [frame_chain_opt] in *.
  set (tr' := track_local eid thread_id (frame_chain top)
                (length (heap_nodes w))
                (track_pre_local eid thread_id frame_id_to_lineno tr)) in *.
  assert (∀ t tid h rest fr,
            od_get tid (_thread_id_to_frame_ids t) = Some (h :: rest) →
            od_get h (_frame_id_to_frame t) = Some fr →
            FramesTracker.get_topmost_frame_and_frame_id_to_line t tid
            = Ok (Some (fr, _frame_id_to_lineno t))) as Htop.
  { intros t tid h rest fr Hl Hf.
    unfold FramesTracker.get_topmost_frame_and_frame_id_to_line.
    by rewrite Hl, Hf. }
  exists w', tr'. split_and!; [done|done|done| | | |done| |].
  - intros fr Hfr.
    destruct (track_local_frame_in eid thread_id (frame_chain top)
                (length (heap_nodes w))
                (track_pre_local eid thread_id frame_id_to_lineno tr)
                (f_id fr)) as (g & _ & _ & Hg).
    { apply list_elem_of_fmap. by exists fr. }
    fold tr' in Hg. rewrite Hg. eauto.
  - intros Hnd fr Hfr. by apply track_local_frame_NoDup_ids.
  - intros Hfresh. rewrite Hfresh in Hids. simpl in Hids.
    rewrite frame_chain_head in Hids. cbn [map] in Hids.
    split; [done|].
    destruct (track_local_frame_in eid thread_id (frame_chain top)
                (length (heap_nodes w))
                (track_pre_local eid thread_id frame_id_to_lineno tr)
                (f_id top)) as (g & _ & _ & Hg).
    { rewrite frame_chain_head. left. }
    fold tr' in Hg. exists g. split_and!; [done| | |].
    + rewrite <-Hlines. by eapply Htop.
    + unfold SuspendedFramesManager.get_topmost_frame_and_frame_id_to_line.
      rewrite Hthreads, od_get_set_eq, Hself, <-Hlines. by eapply Htop.
    + intros Hnd.
      pose proof (track_local_frame_NoDup_ids eid thread_id (frame_chain top)
                    (length (heap_nodes w))
                    (track_pre_local eid thread_id frame_id_to_lineno tr)
                    top Hnd) as Htopfr.
      fold tr' in Htopfr. rewrite Htopfr in Hg; [by injection Hg|].
      rewrite frame_chain_head. left.
  - intros t tid Hnone.
    unfold FramesTracker.get_topmost_frame_and_frame_id_to_line.
    by rewrite Hnone.
  - intros tid Hnone.
    unfold SuspendedFramesManager.get_topmost_frame_and_frame_id_to_line.
    by rewrite Hnone.
Qed.

Lemma C5_track_walks_frame_chain_witness :
  heap_trackers sample_world_1 !! 0
  = Some (MkTracker (Some TheManager) [] ∅ [] ∅ None false ∅)
  ∧ Some TheManager = Some TheManager
  ∧ ∃ w' tr',
      FramesTracker.track 0 "T" (Some sample_frame_F2) ∅ None sample_world_1
      = (Ok tt, w')
      ∧ heap_trackers w' !! 0 = Some tr'
      ∧ od_get "T" (_thread_id_to_frame_ids tr') = Some [102%Z; 101%Z]
      ∧ FramesTracker.get_topmost_frame_and_frame_id_to_line tr' "T"
        = Ok (Some (sample_frame_F2, ∅)).
Proof.
  assert (heap_trackers sample_world_1 !! 0
          = Some (MkTracker (Some TheManager) [] ∅ [] ∅ None false ∅)) as Hr
    by reflexivity.
  assert (Some TheManager = Some TheManager) as Hm by reflexivity.
  split_and!; [exact Hr|exact Hm|].
  destruct (C5_track_walks_frame_chain sample_world_1 0 _ TheManager "T"
              sample_frame_F2 ∅ None Hr Hm)
    as (w' & tr' & Htrack & Hself & Hids & _ & _ & Hfresh & _).
  exists w', tr'. split_and!; [exact Htrack|exact Hself|exact Hids|].
  destruct (Hfresh eq_refl) as (_ & fr & _ & Htop & _ & Hnd).
  etrans; [exact Htop|]. do 3 f_equal. apply Hnd, (bool_decide_unpack _).
  by vm_compute.
Defined.




(** ** Closed sessions *)

Section closed_facts.
Context {E : Externals}.

(** A tracker that has released the manager never gets it back. *)
Lemma closed_step a w r tr :
  heap_trackers w !! r = Some tr →
  _suspended_frames_manager tr = None →
  ∃ tr', heap_trackers (step a w) !! r = Some tr'
         ∧ _suspended_frames_manager tr' = None.
Proof.
  intros Hr Hnone.
  assert (∀ w', grows w w' →
            ∃ tr', heap_trackers w' !! r = Some tr'
                   ∧ _suspended_frames_manager tr' = None) as Hgrows.
  { intros w' Hg.
    destruct (grows_trackers _ _ Hg r tr Hr) as (tr' & Hr' & Hfg & _).
    exists tr'. split; [done|].
    by destruct (forget_variables_fields _ _ Hfg) as (-> & _). }
  destruct a; simpl.
  - exists tr. split; [|done]. by apply lookup_app_l_Some.
  - destruct (heap_trackers w !! self) as [t|] eqn:Hself;
      [|rewrite track_dangling by done; eauto].
    destruct (_suspended_frames_manager t) as [m|] eqn:Hm;
      [|erewrite track_untracked by done; eauto].
    erewrite track_eq by done. cbn [snd heap_trackers].
    exists tr. split; [|done]. rewrite list_lookup_alter_ne; [done|].
    intros <-. congruence.
  - destruct (heap_trackers w !! self) as [t|] eqn:Hself;
      [|rewrite untrack_all_dangling by done; eauto].
    destruct (_untracked t) eqn:Hu;
      [erewrite untrack_all_untracked by done; eauto|].
    erewrite untrack_all_eq by done.
    destruct (FramesTracker.del_frame_ids _ _).1 as [[]|e];
      cbn [snd heap_trackers];
      (destruct (decide (self = r)) as [<-|Hne];
       [rewrite list_lookup_alter_eq, Hself; simplify_eq; eauto
       |rewrite list_lookup_alter_ne by done; eauto]).
  - apply Hgrows, obtain_as_variable_grows.
  - destruct (heap_nodes w !! variable); [|eauto].
    apply Hgrows, get_children_variables_grows.
  - destruct (add_fake_frame_same thread_id frame_id fr w) as (_ & -> & _).
    eauto.
Qed.

Lemma closed_run acts w r tr :
  heap_trackers w !! r = Some tr →
  _suspended_frames_manager tr = None →
  ∃ tr', heap_trackers (run acts w) !! r = Some tr'
         ∧ _suspended_frames_manager tr' = None.
Proof.
  revert w tr. induction acts as [|a acts IH]; intros w tr Hr Hnone; [eauto|].
  destruct (closed_step a w r tr Hr Hnone) as (tr' & Hr' & Hnone').
  by apply (IH (step a w) tr').
Qed.

End closed_facts.




(** ** Teardown *)

(** A second [untrack_all] on a tracker is a no-op, whatever the first
    one did. *)
Lemma untrack_all_twice self w tr :
  heap_trackers w !! self = Some tr →
  FramesTracker.untrack_all self (FramesTracker.untrack_all self w).2
  = (Ok tt, (FramesTracker.untrack_all self w).2).
Proof.
  intros Hr. destruct (_untracked tr) eqn:Hu.
  - rewrite (untrack_all_untracked self w tr Hr Hu). cbn [snd].
    by apply (untrack_all_untracked self w tr).
  - rewrite (untrack_all_eq self w tr Hr Hu).
    destruct (FramesTracker.del_frame_ids _ _).1 as [[]|e]; cbn [snd].
    + apply (untrack_all_untracked _ _ cleared_tracker); [|done].
      cbn [heap_trackers]. by rewrite list_lookup_alter_eq, Hr.
    + apply (untrack_all_untracked _ _ (with_untracked true tr)); [|done].
      cbn [heap_trackers]. by rewrite list_lookup_alter_eq, Hr.
Qed.

(** On a tracker that never tracked anything [untrack_all] succeeds. *)
Lemma untrack_all_fresh w :
  (FramesTracker.untrack_all (FramesTracker.init w).1
     (FramesTracker.init w).2).1 = Ok tt.
Proof.
  rewrite (untrack_all_eq _ _ (MkTracker (Some TheManager) [] ∅ [] ∅ None
                                 false ∅)); [done| |done].
  simpl. by apply list_lookup_middle.
Qed.

(** A first [untrack_all] that returns normally has removed the thread ids
    and the frame ids of the tracker from the manager and has cleared the
    tracker. *)
Lemma untrack_all_removes self w w' tr :
  heap_trackers w !! self = Some tr →
  _untracked tr = false →
  FramesTracker.untrack_all self w = (Ok tt, w') →
  heap_trackers w' !! self = Some cleared_tracker
  ∧ (∀ tid, tid ∈ od_keys (_thread_id_to_frame_ids tr) →
       od_get tid (_thread_id_to_tracker (the_manager w')) = None)
  ∧ (∀ h, h ∈ od_keys (_frame_id_to_frame tr) →
       _variable_reference_to_frames_tracker (the_manager w') !! h = None).
Proof.
  intros Hr Hu Hcall. erewrite untrack_all_eq in Hcall by done.
  destruct (FramesTracker.del_frame_ids _ _).1 as [[]|e] eqn:Hdel; [|done].
  injection Hcall as <-.
  cbn [heap_trackers the_manager _thread_id_to_tracker
       _variable_reference_to_frames_tracker].
  split_and!.
  - by rewrite list_lookup_alter_eq, Hr.
  - intros tid Htid. by rewrite pop_thread_ids_get, decide_True.
  - intros h Hh. by apply del_frame_ids_Ok.
Qed.

Section teardown_facts.
Context {E : Externals}.

(** As long as no frame is tracked by two trackers, [untrack_all] never
    fails. *)
Lemma untrack_all_exclusive self w tr :
  reachable_exclusive w → heap_trackers w !! self = Some tr →
  (FramesTracker.untrack_all self w).1 = Ok tt.
Proof.
  intros Hw Hr. eapply untrack_all_succeeds; [|by apply reachable_exclusive_agrees|done].
  by apply reachable_wf, reachable_exclusive_reachable.
Qed.
End teardown_facts.

(** C3. Idempotent teardown, which the code misses: a thread has been
    suspended twice (the second [track] writes the warning and goes on),
    so two trackers hold the frame [F1].  The first tracker is untracked
    normally; the first [untrack_all()] of the second tracker then raises
    [KeyError] on the frame id that is no longer in the manager's index,
    and leaves its own tables uncleared.  Only a further call on that
    tracker is the no-op of the claim. *)
Theorem C3_untrack_all_raises_after_double_track :
  stderr sample_world_double
  = [double_track_warning]
  ∧ (_untracked <$> heap_trackers sample_world_double !! 1) = Some false
  ∧ (FramesTracker.untrack_all 0 sample_world_double).1 = Ok tt
  ∧ (FramesTracker.untrack_all 1
       (FramesTracker.untrack_all 0 sample_world_double).2).1
    = Raise KeyError
  ∧ (_frame_id_to_frame
       <$> heap_trackers
             (FramesTracker.untrack_all 1
                (FramesTracker.untrack_all 0 sample_world_double).2).2 !! 1)
    = Some [(101%Z, sample_frame_F1)]
  ∧ (FramesTracker.untrack_all 1
       (FramesTracker.untrack_all 1
          (FramesTracker.untrack_all 0 sample_world_double).2).2).1
    = Ok tt.
Proof. split_and!; by vm_compute. Qed.

(** ** The index and the frame tables *)

(** C10 (amended). For every tracker, each frame id that the manager's
    index maps to the tracker is a key of the tracker's
    [_frame_id_to_frame] table; and as long as no [track] call has walked
    a frame that the index maps to another tracker, the keys of the table
    are exactly the frame ids that the index maps to the tracker. *)
Theorem C10_index_and_frame_table {E : Externals} (w : world)
    (r : tracker_ref) (tr : tracker_state) :
  heap_trackers w !! r = Some tr →
  (reachable w → indexed_to w r ⊆ frame_keys tr)
  ∧ (reachable_exclusive w → frame_keys tr = indexed_to w r).
Proof.
  intros Hr. split.
  - intros Hw h Hh%elem_of_indexed_to. apply elem_of_frame_keys.
    destruct (wf_index _ (reachable_wf _ Hw) h r Hh) as (t & Ht & Hf & _).
    by simplify_eq.
  - intros Hw. apply set_eq. intros h.
    rewrite elem_of_frame_keys, elem_of_indexed_to.
    by apply reachable_exclusive_agrees.
Qed.

Lemma C10_index_and_frame_table_witness :
  heap_trackers sample_world_T !! 0
  = Some (MkTracker (Some TheManager)
            [(102%Z, sample_frame_F2); (101%Z, sample_frame_F1)]
            {[ 102%Z := "T"; 101%Z := "T" ]}
            [("T", [102%Z; 101%Z])] ∅ (Some "T") false
            {[ 102%Z := 0; 101%Z := 1 ]})
  ∧ reachable_exclusive (E := sample_externals) sample_world_T
  ∧ ({[ 102%Z; 101%Z ]} : gset Z) = indexed_to sample_world_T 0.
Proof.
  assert (heap_trackers sample_world_T !! 0
          = Some (MkTracker (Some TheManager)
                    [(102%Z, sample_frame_F2); (101%Z, sample_frame_F1)]
                    {[ 102%Z := "T"; 101%Z := "T" ]}
                    [("T", [102%Z; 101%Z])] ∅ (Some "T") false
                    {[ 102%Z := 0; 101%Z := 1 ]})) as Hr.
  { by vm_compute. }
  assert (reachable_exclusive (E := sample_externals) sample_world_T) as Hw.
  { apply (reachable_exclusive_step _
             (Act_track 0 "T" (Some sample_frame_F2) ∅ None)).
    - apply (reachable_exclusive_step initial_world Act_new_tracker);
        [apply reachable_exclusive_init|exact I].
    - intros f r' _ Hf. by vm_compute in Hf. }
  split_and!; [exact Hr|exact Hw|].
  etrans; [|exact (proj2 (C10_index_and_frame_table (E := sample_externals)
                            sample_world_T 0 _ Hr) Hw)].
  apply set_eq. intros h. unfold frame_keys. simpl. set_solver.
Defined.

(** C10, as stated, fails: after the double suspension the first tracker
    is not untracked and has [F1] in its frame table, but the index maps
    the id of [F1] to the second tracker. *)
Lemma C10_counterexample :
  ∃ tr, heap_trackers sample_world_double !! 0 = Some tr
    ∧ _untracked tr = false
    ∧ 101%Z ∈ frame_keys tr
    ∧ (101%Z ∉ indexed_to sample_world_double 0)
    ∧ frame_keys tr ≠ indexed_to sample_world_double 0.
Proof.
  exists (MkTracker (Some TheManager) [(101%Z, sample_frame_F1)]
            {[ 101%Z := "A" ]} [("A", [101%Z])] ∅ (Some "A") false
            {[ 101%Z := 0 ]}).
  assert (101%Z ∉ indexed_to sample_world_double 0) as Hnot.
  { rewrite elem_of_indexed_to. by vm_compute. }
  assert (101%Z ∈ frame_keys
            (MkTracker (Some TheManager) [(101%Z, sample_frame_F1)]
               {[ 101%Z := "A" ]} [("A", [101%Z])] ∅ (Some "A") false
               {[ 101%Z := 0 ]})) as Hin.
  { apply elem_of_frame_keys. simpl. eauto. }
  split_and!; [by vm_compute|done|done|done|].
  intros Heq. apply Hnot. by rewrite <-Heq.
Qed.

(** * Further properties *)

(** ** Two more invariants *)

Lemma track_local_frame_mono eid tid chain n t h :
  is_Some (od_get h (_frame_id_to_frame t)) →
  is_Some (od_get h (_frame_id_to_frame (track_local eid tid chain n t))).
Proof.
  intros Hh. destruct (decide (h ∈ map f_id chain)) as [Hin|Hin].
  - destruct (track_local_frame_in eid tid chain n t h Hin) as (g & _ & _ & ->).
    eauto.
  - by rewrite track_local_frame_notin.
Qed.

Lemma wf_lists_initial : wf_lists initial_world.
Proof.
  split; simpl.
  - intros r tr. by rewrite lookup_nil.
  - intros r tr tid ids h. by rewrite lookup_nil.
Qed.

Lemma wf_lists_grows w w' : grows w w' → wf_lists w → wf_lists w'.
Proof.
  intros Hg [Hmain Hlist].
  assert (∀ r tr', heap_trackers w' !! r = Some tr' →
            ∃ tr, heap_trackers w !! r = Some tr
                  ∧ forget_variables tr' = forget_variables tr) as Hback.
  { intros r tr' Hr'. destruct (heap_trackers w !! r) as [tr|] eqn:Hr.
    - destruct (grows_trackers _ _ Hg r tr Hr) as (tr2 & Hr2 & Hf & _).
      rewrite Hr2 in Hr'. injection Hr' as <-. by exists tr.
    - by rewrite (grows_tracker_None _ _ _ Hg Hr) in Hr'. }
  split.
  - intros r tr' (tr & Hr & Hfg)%Hback Hreg.
    destruct (forget_variables_fields _ _ Hfg) as (_ & _ & _ & _ & _ & -> & _).
    apply (Hmain r tr Hr). unfold registered in *.
    by rewrite (grows_manager _ _ Hg) in Hreg.
  - intros r tr' tid ids h (tr & Hr & Hfg)%Hback.
    destruct (forget_variables_fields _ _ Hfg) as (_ & -> & _ & -> & _).
    by apply (Hlist r tr).
Qed.

Lemma wf_lists_init_tracker w :
  wf w → wf_lists w → wf_lists (FramesTracker.init w).2.
Proof.
  intros Hwf [Hmain Hlist]. split.
  - intros r tr [Hr|[-> ->]]%init_lookup Hreg.
    + by apply (Hmain r tr).
    + exfalso. destruct Hreg as [[h Hh]|[tid Htid]].
      * destruct (wf_index _ Hwf _ _ Hh) as (t & Ht & _).
        apply lookup_lt_Some in Ht. lia.
      * destruct (wf_threads _ Hwf _ _ Htid) as (t & Ht & _).
        apply lookup_lt_Some in Ht. lia.
  - intros r tr tid ids h [Hr|[-> ->]]%init_lookup; [by apply (Hlist r tr)|done].
Qed.

Lemma wf_lists_track self tid fr lines custom w :
  wf_lists w → wf_lists (FramesTracker.track self tid fr lines custom w).2.
Proof.
  intros Hw. destruct (heap_trackers w !! self) as [tr|] eqn:Hr;
    [|by rewrite track_dangling].
  destruct (_suspended_frames_manager tr) as [m|] eqn:Hm;
    [|by erewrite track_untracked].
  destruct (track_result self tid fr lines custom w tr m Hr Hm)
    as (w' & -> & Hself & Hother & Hthreads & Hindex & Hmain' & _ & Hids).
  cbn [snd]. destruct Hw as [Hmain Hlist].
  set (eid := py_or custom tid) in *. set (chain := frame_chain_opt fr) in *.
  split.
  - intros r t Hr' Hreg. destruct (decide (r = self)) as [->|Hne].
    + rewrite Hself in Hr'. injection Hr' as <-. rewrite Hmain'. eauto.
    + rewrite Hother in Hr' by done. apply (Hmain r t Hr').
      destruct Hreg as [[h Hh]|[tid' Htid']].
      * left. exists h. rewrite Hindex, index_after_track_lookup in Hh.
        case_decide; [congruence|done].
      * right. exists tid'. rewrite Hthreads in Htid'.
        apply elem_of_od_set in Htid' as [[= _ ->]|?]; done.
  - intros r t tid' ids h Hr' Hl Hh. destruct (decide (r = self)) as [->|Hne].
    + rewrite Hself in Hr'. injection Hr' as <-.
      rewrite track_local_frame_ids in Hl. case_decide as Heid.
      * subst tid'. simpl in Hl. rewrite od_get_setdefault, decide_True in Hl
          by done. simpl in Hl. injection Hl as <-.
        apply elem_of_app in Hh as [Hold|Hnew].
        -- apply track_local_frame_mono. simpl.
           destruct (od_get eid (_thread_id_to_frame_ids tr)) as [old|] eqn:Ho;
             [|by apply elem_of_nil in Hold].
           by apply (Hlist self tr eid old).
        -- destruct (track_local_frame_in eid tid chain (length (heap_nodes w))
                       (track_pre_local eid tid lines tr) h Hnew)
             as (g & _ & _ & ->). eauto.
      * simpl in Hl. rewrite od_get_setdefault, decide_False in Hl by done.
        apply track_local_frame_mono. simpl. by apply (Hlist self tr tid' ids).
    + rewrite Hother in Hr' by done. by apply (Hlist r t tid' ids).
Qed.

Lemma wf_lists_untrack_all self w :
  wf w → wf_lists w → wf_lists (FramesTracker.untrack_all self w).2.
Proof.
  intros Hwf Hw. pose proof (wf_untrack_all self w Hwf) as Hwf'.
  destruct (heap_trackers w !! self) as [tr|] eqn:Hr;
    [|by rewrite untrack_all_dangling].
  destruct (_untracked tr) eqn:Hu; [by erewrite untrack_all_untracked|].
  rewrite (untrack_all_eq self w tr Hr Hu) in Hwf' |- *.
  destruct Hw as [Hmain Hlist].
  assert (∀ w' r, the_manager w'
            = MkManager (_thread_id_to_fake_frames (the_manager w))
                (FramesTracker.pop_thread_ids
                   (od_keys (_thread_id_to_frame_ids tr))
                   (_thread_id_to_tracker (the_manager w)))
                (FramesTracker.del_frame_ids (od_keys (_frame_id_to_frame tr))
                   (_variable_reference_to_frames_tracker (the_manager w))).2 →
            registered w' r → registered w r) as Hreg.
  { intros w' r Hm [[h Hh]|[tid Htid]]; rewrite Hm in *; simpl in *.
    - left. exists h. by eapply del_frame_ids_Some.
    - right. exists tid. by apply elem_of_pop_thread_ids in Htid as [_ ?]. }
  destruct (FramesTracker.del_frame_ids _ _).1 as [[]|e] eqn:Hdel;
    cbn [snd] in *; split; cbn [heap_trackers].
  - intros r t Hr' Hregd. destruct (decide (self = r)) as [<-|Hne].
    + exfalso. rewrite list_lookup_alter_eq, Hr in Hr'.
      destruct (wf_closed _ Hwf' self cleared_tracker) as [Hi Ht]; [|done|].
      { cbn [heap_trackers]. by rewrite list_lookup_alter_eq, Hr. }
      destruct Hregd as [[h Hh]|[tid Htid]]; [by apply (Hi h)|by apply (Ht tid)].
    + rewrite list_lookup_alter_ne in Hr' by done. apply (Hmain r t Hr').
      by refine (Hreg _ r _ Hregd).
  - intros r t tid ids h. destruct (decide (self = r)) as [<-|Hne].
    + rewrite list_lookup_alter_eq, Hr. by intros [= <-].
    + rewrite list_lookup_alter_ne by done. apply Hlist.
  - intros r t Hr' Hregd.
    assert (∃ t0, heap_trackers w !! r = Some t0
                  ∧ _main_thread_id t = _main_thread_id t0) as (t0 & Hr0 & ->).
    { destruct (decide (self = r)) as [<-|Hne].
      - rewrite list_lookup_alter_eq, Hr in Hr'. injection Hr' as <-.
        by exists tr.
      - rewrite list_lookup_alter_ne in Hr' by done. by exists t. }
    apply (Hmain r t0 Hr0). by refine (Hreg _ r _ Hregd).
  - intros r t tid ids h. destruct (decide (self = r)) as [<-|Hne].
    + rewrite list_lookup_alter_eq, Hr. intros [= <-]. simpl.
      apply (Hlist self tr tid ids h Hr).
    + rewrite list_lookup_alter_ne by done. apply Hlist.
Qed.

Section wf_lists_facts.
Context {E : Externals}.

Lemma wf_lists_step a w : wf w → wf_lists w → wf_lists (step a w).
Proof.
  intros Hwf Hw. destruct a; simpl.
  - by apply wf_lists_init_tracker.
  - by apply wf_lists_track.
  - by apply wf_lists_untrack_all.
  - eapply wf_lists_grows; [apply obtain_as_variable_grows|done].
  - destruct (heap_nodes w !! variable); [|done].
    eapply wf_lists_grows; [apply get_children_variables_grows|done].
  - destruct (add_fake_frame_same thread_id frame_id fr w)
      as (_ & Ht & Hm & Hi).
    destruct Hw as [Hmain Hlist]. split.
    + intros r tr. unfold registered. rewrite Ht, Hm, Hi. apply Hmain.
    + intros r tr. rewrite Ht. apply Hlist.
Qed.

Lemma reachable_wf_lists w : reachable w → wf_lists w.
Proof.
  induction 1 as [|w a Hw IH]; [apply wf_lists_initial|].
  apply wf_lists_step; [by apply reachable_wf|done].
Qed.
End wf_lists_facts.

(** ** Lookups through the manager *)

(** A handle that a tracker of the thread map holds is found. *)
Lemma owned_resolvable w tid r h :
  wf w → (tid, r) ∈ _thread_id_to_tracker (the_manager w) → owns w r h →
  ∃ n nd,
    SuspendedFramesManager.get_variable w h = Ok n
    ∧ heap_nodes w !! n = Some nd
    ∧ get_variable_reference nd = h.
Proof.
  intros Hwf Hin Hown.
  destruct (SuspendedFramesManager._get_tracker_for_variable_reference w h)
    as [r'|] eqn:Hget.
  - destruct (get_tracker_owns w h r' Hwf Hget) as (tr & Hr & [n Hn]).
    destruct (wf_nodes _ Hwf r' tr h n Hr Hn) as (nd & Hnd & Href).
    exists n, nd. split; [|done].
    unfold SuspendedFramesManager.get_variable, FramesTracker.get_variable.
    by rewrite Hget, Hr, Hn.
  - apply get_tracker_None in Hget as [_ Hnone]. by destruct (Hnone tid r).
Qed.

(** X1. In every state that the calls can reach, a lookup by handle either
    fails cleanly or is sound: [get_variable] raises [KeyError] and
    [get_thread_id_for_variable_reference] returns [None], or
    [get_variable] returns a node of the heap whose handle is the one that
    was asked for and the thread id is that of some thread. *)
Theorem X1_lookup_by_handle_sound {E : Externals} (w : world) (h : Z) :
  reachable w →
  (SuspendedFramesManager.get_variable w h = Raise KeyError
   ∧ SuspendedFramesManager.get_thread_id_for_variable_reference w h = None)
  ∨ (∃ n nd T,
       SuspendedFramesManager.get_variable w h = Ok n
       ∧ heap_nodes w !! n = Some nd
       ∧ get_variable_reference nd = h
       ∧ SuspendedFramesManager.get_thread_id_for_variable_reference w h
         = Some T).
Proof.
  intros Hreach. pose proof (reachable_wf _ Hreach) as Hwf.
  destruct (SuspendedFramesManager._get_tracker_for_variable_reference w h)
    as [r|] eqn:Hget.
  - right. destruct (get_tracker_owns w h r Hwf Hget) as (tr & Hr & [n Hn]).
    destruct (wf_nodes _ Hwf r tr h n Hr Hn) as (nd & Hnd & Href).
    destruct (wf_main _ (reachable_wf_lists _ Hreach) r tr Hr) as [T HT].
    { apply get_tracker_Some in Hget as [Hi|(_ & Ht & _)]; [left|right]; eauto. }
    exists n, nd, T.
    unfold SuspendedFramesManager.get_variable, FramesTracker.get_variable,
      SuspendedFramesManager.get_thread_id_for_variable_reference.
    by rewrite Hget, Hr, Hn.
  - left. split; [by apply get_variable_KeyError|by apply get_thread_id_None].
Qed.

Lemma X1_lookup_by_handle_sound_witness :
  reachable (E := sample_externals) sample_world_T
  ∧ ∃ n nd T,
      SuspendedFramesManager.get_variable sample_world_T 102 = Ok n
      ∧ heap_nodes sample_world_T !! n = Some nd
      ∧ get_variable_reference nd = 102%Z
      ∧ SuspendedFramesManager.get_thread_id_for_variable_reference
          sample_world_T 102 = Some T.
Proof.
  assert (reachable (E := sample_externals) sample_world_T) as Hreach.
  { apply (reachable_step _ (Act_track 0 "T" (Some sample_frame_F2) ∅ None)),
      (reachable_step initial_world Act_new_tracker), reachable_init. }
  split; [exact Hreach|].
  destruct (X1_lookup_by_handle_sound (E := sample_externals) sample_world_T
              102 Hreach) as [[Hkey _]|Hfound].
  - by vm_compute in Hkey.
  - exact Hfound.
Defined.

(** ** Children and their handles *)

Section owned_children.
Context {E : Externals}.

Lemma frame_children_owns r locals w tr nds nd :
  heap_trackers w !! r = Some tr →
  frame_child_nodes r locals = Some nds → nd ∈ nds →
  owns (frame_children r locals w).2 r (get_variable_reference nd).
Proof.
  revert w tr nds.
  induction locals as [|[key val] rest IH]; intros w tr nds Hr Hnds Hin.
  - injection Hnds as <-. by apply elem_of_nil in Hin.
  - cbn [frame_children frame_child_nodes] in *. case_bool_decide as Hkey.
    + destruct (v_items val) as [items|]; [|done].
      set (lst := map (λ kv, (kv.1, kv.2,
                     Some (key +:+ "[" +:+ py_repr kv.1 +:+ "]"))) items) in *.
      pose proof (make_children_grows r true lst w) as Hg.
      pose proof (λ e, make_children_owns r true lst w tr e Hr) as Hown.
      destruct (make_children r true lst w) as [kids w1]. simpl in Hg, Hown.
      destruct (grows_trackers _ _ Hg r tr Hr) as (tr1 & Hr1 & _).
      pose proof (frame_children_grows r rest w1) as Hg2.
      destruct (frame_child_nodes r rest) as [more|] eqn:Hmore; [|done].
      specialize (IH w1 tr1 more Hr1 eq_refl).
      simpl in Hnds. injection Hnds as <-.
      destruct (frame_children r rest w1) as [[ks|e] w2]; simpl in *;
        (apply elem_of_app in Hin as [Hin|Hin]; [|by apply IH]);
        (apply list_elem_of_fmap in Hin as (kv & -> & Hkv);
         eapply grows_owns; [done|];
         apply (Hown (kv.1, kv.2,
                      Some (key +:+ "[" +:+ py_repr kv.1 +:+ "]")));
         apply list_elem_of_fmap; by exists kv).
    + rewrite ObjectVariable_init_eq.
      set (nd0 := _ObjectVariable key val r false (Some key)) in *.
      pose proof (with_node_owns nd0 r w tr Hr) as Hown.
      destruct (with_node_lookup nd0 r w tr Hr) as (tr1 & Hr1 & _).
      pose proof (frame_children_grows r rest (with_node nd0 r w)) as Hg2.
      destruct (frame_child_nodes r rest) as [more|] eqn:Hmore; [|done].
      specialize (IH (with_node nd0 r w) tr1 more Hr1 eq_refl).
      simpl in Hnds. injection Hnds as <-.
      destruct (frame_children r rest (with_node nd0 r w)) as [[ks|e] w2];
        simpl in *;
        (apply elem_of_cons in Hin as [->|Hin]; [|by apply IH]);
        by eapply grows_owns.
Qed.

(** Every node that [get_children_variables] builds is registered under
    its handle in the tracker of the parent. *)
Lemma children_owned self fmt now w tr nds nd :
  heap_trackers w !! node_tracker self = Some tr →
  children_nodes self fmt now = Some nds → nd ∈ nds →
  owns (get_children_variables self fmt now w).2 (node_tracker self)
    (get_variable_reference nd).
Proof.
  destruct self as [name v r b e|fr r]; simpl; intros Hr Hnds Hin.
  - injection Hnds as <-. rewrite ObjectVariable_get_children_variables_eq.
    apply list_elem_of_fmap in Hin as (en & -> & Hen).
    pose proof (make_children_owns r false (object_entries v e fmt now) w tr en
                  Hr Hen) as Hown.
    by destruct (make_children r false _ w).
  - unfold FrameVariable_get_children_variables.
    pose proof (frame_children_owns r (f_locals fr) w tr nds nd Hr Hnds Hin)
      as Hown.
    by destruct (frame_children r (f_locals fr) w) as [[?|?] ?].
Qed.

(** The nodes behind the references that a call returns. *)
Lemma children_returned self fmt now w kids w' :
  get_children_variables self fmt now w = (Ok kids, w') →
  ∃ nds, children_nodes self fmt now = Some nds
    ∧ heap_nodes w' = heap_nodes w ++ nds
    ∧ ∀ k, k ∈ kids → ∃ nd, nd ∈ nds ∧ heap_nodes w' !! k = Some nd.
Proof.
  intros Hcall. pose proof (get_children_variables_spec self fmt now w) as Hspec.
  rewrite Hcall in Hspec. simpl in Hspec.
  destruct (children_nodes self fmt now) as [nds|]; [|done].
  destruct Hspec as [[= ->] Hn]. exists nds. split_and!; [done|done|].
  intros k (i & -> & Hi)%list_elem_of_fmap.
  apply children_order_lt in Hi.
  destruct (lookup_lt_is_Some_2 nds i Hi) as [nd Hnd].
  exists nd. split; [by eapply list_elem_of_lookup_2|].
  rewrite Hn, lookup_app_r by lia.
  by replace (length (heap_nodes w) + i - length (heap_nodes w)) with i by lia.
Qed.
End owned_children.

(** X2. Every child that [get_children_variables] returns can be asked for
    again by its handle: when the tracker of the expanded node is in the
    manager's thread map, [get_variable] on the handle of a returned child
    succeeds, with a node of that same handle. *)
Theorem X2_children_resolvable {E : Externals} (w w' : world) (self : node)
    (fmt : option fmt_dict) (now : nat) (tid : string) (kids : list node_ref) :
  reachable w →
  (tid, node_tracker self) ∈ _thread_id_to_tracker (the_manager w) →
  get_children_variables self fmt now w = (Ok kids, w') →
  ∀ k, k ∈ kids →
    ∃ nd n' nd',
      heap_nodes w' !! k = Some nd
      ∧ SuspendedFramesManager.get_variable w' (get_variable_reference nd)
        = Ok n'
      ∧ heap_nodes w' !! n' = Some nd'
      ∧ get_variable_reference nd' = get_variable_reference nd.
Proof.
  intros Hreach Htid Hcall k Hk.
  pose proof (reachable_wf _ Hreach) as Hwf.
  pose proof (get_children_variables_grows self fmt now w) as Hg.
  destruct (wf_threads _ Hwf _ _ Htid) as (tr & Hr & _).
  destruct (children_returned self fmt now w kids w' Hcall)
    as (nds & Hnds & _ & Hkids).
  destruct (Hkids k Hk) as (nd & Hnd & Hlook).
  pose proof (children_owned self fmt now w tr nds nd Hr Hnds Hnd) as Hown.
  rewrite Hcall in Hg, Hown. simpl in Hg, Hown.
  destruct (owned_resolvable w' tid (node_tracker self)
              (get_variable_reference nd)) as (n' & nd' & Hget & Hn' & Href).
  - by eapply wf_grows.
  - by rewrite (grows_manager _ _ Hg).
  - done.
  - by exists nd, n', nd'.
Qed.

Lemma X2_children_resolvable_witness :
  reachable (E := sample_externals) sample_world_T
  ∧ ("T", node_tracker sample_node_k)
    ∈ _thread_id_to_tracker (the_manager sample_world_T)
  ∧ get_children_variables (E := sample_externals) sample_node_k None 0
      sample_world_T
    = (Ok [2; 3],
       (get_children_variables (E := sample_externals) sample_node_k None 0
          sample_world_T).2)
  ∧ ∃ nd n' nd',
      heap_nodes (get_children_variables (E := sample_externals)
                    sample_node_k None 0 sample_world_T).2 !! 3 = Some nd
      ∧ SuspendedFramesManager.get_variable
          (get_children_variables (E := sample_externals) sample_node_k None 0
             sample_world_T).2 (get_variable_reference nd) = Ok n'
      ∧ heap_nodes (get_children_variables (E := sample_externals)
                      sample_node_k None 0 sample_world_T).2 !! n' = Some nd'
      ∧ get_variable_reference nd' = get_variable_reference nd.
Proof.
  assert (reachable (E := sample_externals) sample_world_T) as Hreach.
  { apply (reachable_step _ (Act_track 0 "T" (Some sample_frame_F2) ∅ None)),
      (reachable_step initial_world Act_new_tracker), reachable_init. }
  assert (("T", node_tracker sample_node_k)
          ∈ _thread_id_to_tracker (the_manager sample_world_T)) as Htid.
  { left. }
  assert (get_children_variables (E := sample_externals) sample_node_k None 0
            sample_world_T
          = (Ok [2; 3],
             (get_children_variables (E := sample_externals) sample_node_k
                None 0 sample_world_T).2)) as Hcall.
  { by vm_compute. }
  split_and!; [exact Hreach|exact Htid|exact Hcall|].
  apply (X2_children_resolvable (E := sample_externals) sample_world_T _
           sample_node_k None 0 "T" [2; 3] Hreach Htid Hcall 3).
  right. left.
Defined.

(** X3. The [variablesReference] that [get_var_data] puts into the data of
    a registered node is the handle under which the node is registered,
    and while the tracker is in the manager's thread map the manager
    resolves it: [get_variable] on it succeeds with a node of that
    handle. *)
Theorem X3_variables_reference_resolvable {E : Externals} (w : world)
    (tid : string) (r : tracker_ref) (tr : tracker_state) (h : Z)
    (n : node_ref) (nd : node) (fmt : option fmt_dict) (vd : var_data)
    (h' : Z) :
  reachable w →
  (tid, r) ∈ _thread_id_to_tracker (the_manager w) →
  heap_trackers w !! r = Some tr →
  _variable_reference_to_variable tr !! h = Some n →
  heap_nodes w !! n = Some nd →
  get_var_data nd fmt = Ok vd →
  vd_variablesReference vd = Some h' →
  h' = h
  ∧ ∃ n' nd',
      SuspendedFramesManager.get_variable w h' = Ok n'
      ∧ heap_nodes w !! n' = Some nd'
      ∧ get_variable_reference nd' = h'.
Proof.
  intros Hreach Htid Hr Hn Hnd Hdata Href.
  pose proof (reachable_wf _ Hreach) as Hwf.
  destruct (wf_nodes _ Hwf r tr h n Hr Hn) as (nd0 & Hnd0 & Hh).
  rewrite Hnd in Hnd0. injection Hnd0 as <-.
  assert (h' = h) as ->.
  { destruct nd as [name val reg b e|fr reg]; [|done].
    unfold get_var_data, get_variable_details in Hdata.
    destruct b; injection Hdata as <-; simpl in Href;
      destruct (v_resolver val); simplify_eq; done. }
  split; [done|]. apply (owned_resolvable w tid r h Hwf Htid).
  exists tr. split; [done|]. rewrite Hn. eauto.
Qed.

Lemma X3_variables_reference_resolvable_witness :
  reachable (E := sample_externals) sample_world_k
  ∧ ("T", 0) ∈ _thread_id_to_tracker (the_manager sample_world_k)
  ∧ heap_trackers sample_world_k !! 0
    = Some (MkTracker (Some TheManager)
              [(102%Z, sample_frame_F2); (101%Z, sample_frame_F1)]
              {[ 102%Z := "T"; 101%Z := "T" ]}
              [("T", [102%Z; 101%Z])] ∅ (Some "T") false
              {[ 102%Z := 0; 101%Z := 1; 500%Z := 2 ]})
  ∧ ({[ 102%Z := 0; 101%Z := 1; 500%Z := 2 ]} : gmap Z nat) !! 500%Z = Some 2
  ∧ heap_nodes sample_world_k !! 2 = Some sample_node_k
  ∧ get_var_data (E := sample_externals) sample_node_k None
    = Ok (MkVarData "k" "<list>" "list" (Some "k") (Some 500%Z) None)
  ∧ Some 500%Z = Some 500%Z
  ∧ ∃ n' nd',
      SuspendedFramesManager.get_variable sample_world_k 500 = Ok n'
      ∧ heap_nodes sample_world_k !! n' = Some nd'
      ∧ get_variable_reference nd' = 500%Z.
Proof.
  assert (reachable (E := sample_externals) sample_world_k) as Hreach.
  { apply (reachable_step _ (Act_obtain_as_variable 0 "k" sample_list None)),
      (reachable_step _ (Act_track 0 "T" (Some sample_frame_F2) ∅ None)),
      (reachable_step initial_world Act_new_tracker), reachable_init. }
  assert (("T", 0) ∈ _thread_id_to_tracker (the_manager sample_world_k))
    as Htid by left.
  assert (heap_trackers sample_world_k !! 0
          = Some (MkTracker (Some TheManager)
                    [(102%Z, sample_frame_F2); (101%Z, sample_frame_F1)]
                    {[ 102%Z := "T"; 101%Z := "T" ]}
                    [("T", [102%Z; 101%Z])] ∅ (Some "T") false
                    {[ 102%Z := 0; 101%Z := 1; 500%Z := 2 ]})) as Hr.
  { by vm_compute. }
  assert (({[ 102%Z := 0; 101%Z := 1; 500%Z := 2 ]} : gmap Z nat) !! 500%Z
          = Some 2) as Hn by (by vm_compute).
  assert (heap_nodes sample_world_k !! 2 = Some sample_node_k) as Hnd
    by reflexivity.
  assert (get_var_data (E := sample_externals) sample_node_k None
          = Ok (MkVarData "k" "<list>" "list" (Some "k") (Some 500%Z) None))
    as Hdata by reflexivity.
  assert (Some 500%Z = Some 500%Z) as Href by reflexivity.
  split_and!;
    [exact Hreach|exact Htid|exact Hr|exact Hn|exact Hnd|exact Hdata
    |exact Href|].
  exact (proj2 (X3_variables_reference_resolvable (E := sample_externals)
                  sample_world_k "T" 0 _ 500 2 sample_node_k None _ 500
                  Hreach Htid Hr Hn Hnd Hdata Href)).
Defined.

(** X4. Evaluate names of the children of an object node.  With a true
    parent evaluate name [p] and a resolver that has
    [get_contents_debug_adapter_protocol], the child built for the [i]-th
    entry carries [p] followed by the entry's literal suffix, or the
    entry's function applied to [p], or no evaluate name when the entry
    has none.  When the parent evaluate name is [None] or empty, or when
    the resolver only has [get_dictionary], no child gets an evaluate
    name.  No child is flagged as a return value. *)
Theorem X4_children_evaluate_names {E : Externals} (name : string)
    (val : value) (r : tracker_ref) (b : bool) (e : option string)
    (fmt : option fmt_dict) (now : nat) (w : world) :
  let w' :=
    (get_children_variables (_ObjectVariable name val r b e) fmt now w).2 in
  (∀ f p i key child suffix,
     v_resolver val = Some (DapResolver f) → e = Some p → p ≠ "" →
     f now fmt !! i = Some (key, child, suffix) →
     heap_nodes w' !! (length (heap_nodes w) + i)
     = Some (_ObjectVariable key child r false
               match suffix with
               | None => None
               | Some (EvLiteral s) => Some (p +:+ s)
               | Some (EvCallable g) => Some (g p)
               end))
  ∧ (∀ i nd,
       e = None ∨ e = Some "" ∨ (∃ d, v_resolver val = Some (DictResolver d)) →
       heap_nodes w' !! (length (heap_nodes w) + i) = Some nd →
       ∃ key child, nd = _ObjectVariable key child r false None).
Proof.
  intros w'.
  assert (∀ i, heap_nodes w' !! (length (heap_nodes w) + i)
               = child_node r false <$> object_entries val e fmt now !! i) as Hl.
  { intros i. unfold w'. simpl.
    rewrite ObjectVariable_get_children_variables_eq.
    pose proof (make_children_nodes r false (object_entries val e fmt now) w) as Hn.
    destruct (make_children r false _ w) as [kids w1]. simpl in *.
    rewrite Hn, lookup_app_r by lia.
    replace (length (heap_nodes w) + i - length (heap_nodes w)) with i by lia.
    apply list_lookup_fmap. }
  split.
  - intros f p i key child suffix Hres -> Hp Hi. rewrite Hl.
    unfold object_entries. rewrite Hres. simpl.
    destruct (String.eqb_spec p ""); [done|]. simpl.
    rewrite list_lookup_fmap, Hi. simpl. unfold child_node. simpl.
    by destruct suffix as [[s|g]|].
  - intros i nd Hcase. rewrite Hl. unfold object_entries.
    destruct (v_resolver val) as [res|] eqn:Hres; [|done].
    assert (∀ lst : list (string * value * option evaluate_name_spec),
              child_node r false <$> map (λ en, (en.1.1, en.1.2, None)) lst !! i
              = Some nd →
              ∃ key child, nd = _ObjectVariable key child r false None)
      as Hnone.
    { intros lst. rewrite list_lookup_fmap.
      destruct (lst !! i) as [[[k c] s]|]; [|done]. simpl.
      intros [= <-]. by exists k, c. }
    destruct Hcase as [->|[->|[d Hd]]]; [apply Hnone..|].
    injection Hd as ->.
    destruct (truthy e); [|apply Hnone].
    rewrite !list_lookup_fmap.
    destruct (sort_by _ (d now) !! i) as [[k c]|]; [|done]. simpl.
    intros [= <-]. by exists k, c.
Qed.

Lemma X4_children_evaluate_names_witness :
  v_resolver sample_list
  = Some (DapResolver (λ _ _,
            [("0", sample_int_1, Some (EvLiteral "[0]"));
             ("1", sample_int_2, Some (EvLiteral "[1]"))]))
  ∧ Some "k" = Some "k"
  ∧ "k" ≠ ""
  ∧ [("0", sample_int_1, Some (EvLiteral "[0]"));
     ("1", sample_int_2, Some (EvLiteral "[1]"))] !! 1
    = Some ("1", sample_int_2, Some (EvLiteral "[1]"))
  ∧ heap_nodes (get_children_variables (E := sample_externals) sample_node_k
                  None 0 sample_world_k).2
      !! (length (heap_nodes sample_world_k) + 1)
    = Some (_ObjectVariable "1" sample_int_2 0 false (Some "k[1]")).
Proof.
  assert (v_resolver sample_list
          = Some (DapResolver (λ _ _,
                    [("0", sample_int_1, Some (EvLiteral "[0]"));
                     ("1", sample_int_2, Some (EvLiteral "[1]"))]))) as Hres
    by reflexivity.
  assert (Some "k" = Some "k") as He by reflexivity.
  assert ("k" ≠ "") as Hp by discriminate.
  assert ([("0", sample_int_1, Some (EvLiteral "[0]"));
           ("1", sample_int_2, Some (EvLiteral "[1]"))] !! 1
          = Some ("1", sample_int_2, Some (EvLiteral "[1]"))) as Hi
    by reflexivity.
  split_and!; [exact Hres|exact He|exact Hp|exact Hi|].
  exact (proj1 (X4_children_evaluate_names (E := sample_externals) "k"
                  sample_list 0 false (Some "k") None 0 sample_world_k)
           _ "k" 1 "1" sample_int_2 (Some (EvLiteral "[1]"))
           Hres He Hp Hi).
Defined.

(** ** Order of the children *)

Section ordered_facts.
Context {A : Type} (lt : A → A → bool) (P : A → Prop).
Hypothesis lt_asym : ∀ a b, P a → P b → lt a b = true → lt b a = false.
Hypothesis lt_trans :
  ∀ a b c, P a → P b → P c → lt a b = true → lt b c = true → lt a c = true.

Lemma ordered_cons x l :
  ordered lt (x :: l) ↔ (∀ y, y ∈ l → lt y x = false) ∧ ordered lt l.
Proof.
  split.
  - intros Hord. split.
    + intros y [j Hj]%list_elem_of_lookup_1.
      apply (Hord 0 (S j) x y); [lia|done|done].
    + intros i j a b Hij Ha Hb. apply (Hord (S i) (S j) a b); [lia|done|done].
  - intros [Hx Hord] i j a b Hij Ha Hb. destruct j as [|j]; [lia|].
    destruct i as [|i].
    + injection Ha as <-. apply Hx. by eapply list_elem_of_lookup_2.
    + apply (Hord i j a b); [lia|done|done].
Qed.

Lemma insert_by_ordered x l :
  P x → Forall P l → ordered lt l → ordered lt (insert_by lt x l).
Proof.
  intros Hx Hl. induction Hl as [|y l Hy Hl IH]; intros Hord.
  - apply ordered_cons. split; [by intros y ?%elem_of_nil|done].
  - apply ordered_cons in Hord as [Hy' Hord]. simpl.
    destruct (lt x y) eqn:Hxy.
    + apply ordered_cons. split.
      * intros z [->|Hz]%elem_of_cons; [by apply lt_asym|].
        destruct (lt z x) eqn:Hzx; [|done].
        rewrite <-(Hy' z Hz). symmetry. apply (lt_trans z x y); try done.
        by eapply Forall_forall.
      * by apply ordered_cons.
    + apply ordered_cons. split; [|by apply IH].
      intros z. rewrite insert_by_Permutation.
      intros [->|Hz]%elem_of_cons; [done|by apply Hy'].
Qed.

Lemma sort_by_fold_ordered l acc :
  Forall P l → Forall P acc → ordered lt acc →
  ordered lt (fold_left (λ acc x, insert_by lt x acc) l acc).
Proof.
  intros Hl. revert acc. induction Hl as [|x l Hx Hl IH]; intros acc Hacc Hord;
    [done|].
  cbn [fold_left]. apply IH.
  - rewrite insert_by_Permutation. by constructor.
  - by apply insert_by_ordered.
Qed.

Lemma sort_by_ordered l : Forall P l → ordered lt (sort_by lt l).
Proof.
  intros Hl. apply sort_by_fold_ordered; [done|done|].
  intros i j x y _ Hx. by rewrite lookup_nil in Hx.
Qed.
End ordered_facts.

Lemma ordered_fmap {A B : Type} (f : A → B) (lt : B → B → bool) l :
  ordered (λ a b, lt (f a) (f b)) l → ordered lt (map f l).
Proof.
  intros Hord i j x y Hij Hx Hy.
  apply list_lookup_fmap_Some_1 in Hx as (a & -> & Ha).
  apply list_lookup_fmap_Some_1 in Hy as (b & -> & Hb).
  by apply (Hord i j a b).
Qed.

(** X5. Frame variables are always sorted: when the comparison of
    [sorted_attributes_key] is a strict order on the names of the children
    (asymmetric and transitive there), the children that
    [_FrameVariable.get_children_variables] returns come in that order of
    their names, and they are, up to the order, exactly the nodes that
    were built for the locals. *)
Theorem X5_frame_children_sorted {E : Externals} (fr : frame)
    (r : tracker_ref) (fmt : option fmt_dict) (now : nat) (w w' : world)
    (kids : list node_ref) :
  get_children_variables (_FrameVariable fr r) fmt now w = (Ok kids, w') →
  (∀ a b, a ∈ map (name_of w') kids → b ∈ map (name_of w') kids →
     sorted_attributes_key_lt a b = true →
     sorted_attributes_key_lt b a = false) →
  (∀ a b c, a ∈ map (name_of w') kids → b ∈ map (name_of w') kids →
     c ∈ map (name_of w') kids →
     sorted_attributes_key_lt a b = true →
     sorted_attributes_key_lt b c = true →
     sorted_attributes_key_lt a c = true) →
  ordered sorted_attributes_key_lt (map (name_of w') kids)
  ∧ ∃ nds, frame_child_nodes r (f_locals fr) = Some nds
      ∧ nodes_of w' kids ≡ₚ nds.
Proof.
  intros Hcall.
  pose proof (get_children_variables_spec (_FrameVariable fr r) fmt now w) as Hspec.
  rewrite Hcall in Hspec. cbn [children_nodes children_order fst snd] in Hspec.
  destruct (frame_child_nodes r (f_locals fr)) as [nds|] eqn:Hnds; [|done].
  destruct Hspec as [[= ->] Hn].
  assert (map (name_of w') (map (Nat.add (length (heap_nodes w)))
                              (sorted_positions nds))
          = map (name_at nds) (sorted_positions nds)) as ->.
  { rewrite map_map. apply map_ext. intros i. unfold name_of, name_at.
    rewrite Hn, lookup_app_r by lia.
    by replace (length (heap_nodes w) + i - length (heap_nodes w)) with i
      by lia. }
  intros Hasym Htrans. split.
  - apply ordered_fmap.
    apply (sort_by_ordered _
             (λ i, name_at nds i ∈ map (name_at nds) (sorted_positions nds))).
    + intros a b Ha Hb. by apply Hasym.
    + intros a b c Ha Hb Hc. by apply Htrans.
    + apply Forall_forall. intros i Hi. apply list_elem_of_fmap.
      exists i. split; [done|]. by rewrite sorted_positions_Permutation.
  - exists nds. split; [done|].
    rewrite (nodes_of_shift w' _ nds) by done.
    rewrite sorted_positions_Permutation.
    apply (reflexive_eq (R := (≡ₚ))), (omap_lookup_seq [] nds).
Qed.

Lemma X5_frame_children_sorted_witness :
  get_children_variables (E := sample_externals)
    (_FrameVariable sample_frame_ret 0) None 0 sample_world_1
  = (Ok [2; 0; 1],
     (get_children_variables (E := sample_externals)
        (_FrameVariable sample_frame_ret 0) None 0 sample_world_1).2)
  ∧ ordered (sorted_attributes_key_lt (Externals := sample_externals))
      ["a"; "b"; "foo"].
Proof.
  assert (get_children_variables (E := sample_externals)
            (_FrameVariable sample_frame_ret 0) None 0 sample_world_1
          = (Ok [2; 0; 1],
             (get_children_variables (E := sample_externals)
                (_FrameVariable sample_frame_ret 0) None 0 sample_world_1).2))
    as Hcall by (by vm_compute).
  split; [exact Hcall|].
  refine (proj1 (X5_frame_children_sorted (E := sample_externals)
                   sample_frame_ret 0 None 0 sample_world_1 _ [2; 0; 1]
                   Hcall _ _)).
  - intros a b Ha Hb. vm_compute in Ha, Hb.
    repeat (apply elem_of_cons in Ha as [->|Ha]);
      try (by apply elem_of_nil in Ha);
      repeat (apply elem_of_cons in Hb as [->|Hb]);
      try (by apply elem_of_nil in Hb); by vm_compute.
  - intros a b c Ha Hb Hc. vm_compute in Ha, Hb, Hc.
    repeat (apply elem_of_cons in Ha as [->|Ha]);
      try (by apply elem_of_nil in Ha);
      repeat (apply elem_of_cons in Hb as [->|Hb]);
      try (by apply elem_of_nil in Hb);
      repeat (apply elem_of_cons in Hc as [->|Hc]);
      try (by apply elem_of_nil in Hc); by vm_compute.
Defined.

(** X6. Children of a container whose resolver only has [get_dictionary]:
    the call never fails and builds one node per item of the dictionary,
    none lost and none twice, each without evaluate name; when the
    comparison of [sorted_attributes_key] is a strict order on the keys,
    the nodes come in the order of their keys. *)
Theorem X6_dictionary_children_sorted {E : Externals} (name : string)
    (val : value) (r : tracker_ref) (b : bool) (e : option string)
    (fmt : option fmt_dict) (now : nat) (w : world)
    (get_dictionary : nat → list (string * value)) :
  v_resolver val = Some (DictResolver get_dictionary) →
  let d := get_dictionary now in
  (∀ a b, a ∈ map fst d → b ∈ map fst d →
     sorted_attributes_key_lt a b = true →
     sorted_attributes_key_lt b a = false) →
  (∀ a b c, a ∈ map fst d → b ∈ map fst d → c ∈ map fst d →
     sorted_attributes_key_lt a b = true →
     sorted_attributes_key_lt b c = true →
     sorted_attributes_key_lt a c = true) →
  ∃ kids w' items,
    get_children_variables (_ObjectVariable name val r b e) fmt now w
    = (Ok kids, w')
    ∧ items ≡ₚ d
    ∧ ordered sorted_attributes_key_lt (map fst items)
    ∧ nodes_of w' kids
      = map (λ kv, _ObjectVariable kv.1 kv.2 r false None) items.
Proof.
  intros Hres d Hasym Htrans.
  set (items := sort_by (λ a b, sorted_attributes_key_lt a.1 b.1) d).
  assert (object_entries val e fmt now = map (λ kv, (kv.1, kv.2, None)) items)
    as Hentries.
  { unfold object_entries. rewrite Hres. fold d items.
    destruct (truthy e); rewrite map_map; by apply map_ext. }
  simpl. rewrite ObjectVariable_get_children_variables_eq, Hentries.
  pose proof (make_children_fst r false
                (map (λ kv, (kv.1, kv.2, None)) items) w) as Hf.
  pose proof (make_children_nodes r false
                (map (λ kv, (kv.1, kv.2, None)) items) w) as Hn.
  destruct (make_children r false _ w) as [kids w']. simpl in Hf, Hn.
  exists kids, w', items. split_and!; [done| | |].
  - apply sort_by_Permutation.
  - apply ordered_fmap.
    apply (sort_by_ordered _ (λ kv, kv.1 ∈ map fst d)).
    + intros x y Hx Hy. by apply Hasym.
    + intros x y z Hx Hy Hz. by apply Htrans.
    + apply Forall_forall. intros kv Hkv. apply list_elem_of_fmap.
      by exists kv.
  - unfold nodes_of. rewrite Hf, Hn, map_map, length_map.
    rewrite <-(length_map (λ kv, child_node r false (kv.1, kv.2, None)) items).
    apply omap_lookup_seq.
Qed.

Lemma X6_dictionary_children_sorted_witness :
  v_resolver sample_instance
  = Some (DictResolver
            (λ _, [("b", sample_int_2); ("_x", sample_int_42);
                   ("a", sample_int_1)]))
  ∧ ∃ kids w' items,
      get_children_variables (E := sample_externals)
        (_ObjectVariable "p" sample_instance 0 false (Some "p")) None 0
        sample_world_1
      = (Ok kids, w')
      ∧ items
        ≡ₚ [("b", sample_int_2); ("_x", sample_int_42); ("a", sample_int_1)]
      ∧ ordered (sorted_attributes_key_lt (Externals := sample_externals))
          (map fst items)
      ∧ nodes_of w' kids
        = map (λ kv, _ObjectVariable kv.1 kv.2 0 false None) items.
Proof.
  assert (v_resolver sample_instance
          = Some (DictResolver
                    (λ _, [("b", sample_int_2); ("_x", sample_int_42);
                           ("a", sample_int_1)]))) as Hres by reflexivity.
  split; [exact Hres|].
  refine (X6_dictionary_children_sorted (E := sample_externals) "p"
            sample_instance 0 false (Some "p") None 0 sample_world_1 _
            Hres _ _).
  - intros a b Ha Hb. vm_compute in Ha, Hb.
    repeat (apply elem_of_cons in Ha as [->|Ha]);
      try (by apply elem_of_nil in Ha);
      repeat (apply elem_of_cons in Hb as [->|Hb]);
      try (by apply elem_of_nil in Hb); by vm_compute.
  - intros a b c Ha Hb Hc. vm_compute in Ha, Hb, Hc.
    repeat (apply elem_of_cons in Ha as [->|Ha]);
      try (by apply elem_of_nil in Ha);
      repeat (apply elem_of_cons in Hb as [->|Hb]);
      try (by apply elem_of_nil in Hb);
      repeat (apply elem_of_cons in Hc as [->|Hc]);
      try (by apply elem_of_nil in Hc); by vm_compute.
Defined.

(** X7. A return-values binding that is not a dictionary makes
    [_FrameVariable.get_children_variables] raise [AttributeError], and
    the call is not undone: the nodes of the locals that precede the
    binding have been built and stay registered in the tracker, and
    nothing is built for the binding or for the locals after it. *)
Theorem X7_frame_children_failure_keeps_nodes {E : Externals} (fr : frame)
    (r : tracker_ref) (fmt : option fmt_dict) (now : nat) (w : world)
    (before after : list (string * value)) (bad : value) :
  f_locals fr = before ++ (RETURN_VALUES_DICT, bad) :: after →
  RETURN_VALUES_DICT ∉ map fst before →
  v_items bad = None →
  ∃ w',
    get_children_variables (_FrameVariable fr r) fmt now w
    = (Raise AttributeError, w')
    ∧ heap_nodes w'
      = heap_nodes w
        ++ map (λ kv, _ObjectVariable kv.1 kv.2 r false (Some kv.1)) before
    ∧ (∀ tr kv, heap_trackers w !! r = Some tr → kv ∈ before →
         owns w' r (v_id kv.2)).
Proof.
  intros Hlocals Hplain Hbad. simpl.
  unfold FrameVariable_get_children_variables. rewrite Hlocals.
  clear Hlocals.
  assert (∃ w',
            frame_children r (before ++ (RETURN_VALUES_DICT, bad) :: after) w
            = (Raise AttributeError, w')
            ∧ heap_nodes w'
              = heap_nodes w
                ++ map (λ kv, _ObjectVariable kv.1 kv.2 r false (Some kv.1))
                     before
            ∧ (∀ tr kv, heap_trackers w !! r = Some tr → kv ∈ before →
                 owns w' r (v_id kv.2))) as (w' & Hcall & Hn & Hown).
  { revert w. induction before as [|[key val] before IH]; intros w.
    - exists w. cbn [app frame_children].
      rewrite bool_decide_eq_true_2, Hbad by done.
      split_and!; [done|by rewrite app_nil_r|by intros tr kv _ ?%elem_of_nil].
    - cbn [map fst] in Hplain. rewrite not_elem_of_cons in Hplain.
      destruct Hplain as [Hne Hplain]. cbn [app frame_children].
      rewrite bool_decide_eq_false_2 by done.
      rewrite ObjectVariable_init_eq.
      set (nd0 := _ObjectVariable key val r false (Some key)).
      destruct (IH Hplain (with_node nd0 r w)) as (w' & Hcall & Hn & Hown).
      rewrite Hcall. exists w'. split_and!; [done| |].
      + rewrite Hn. simpl. by rewrite <-app_assoc.
      + intros tr kv Hr [->|Hkv]%elem_of_cons.
        * pose proof (frame_children_grows r
            (before ++ (RETURN_VALUES_DICT, bad) :: after) (with_node nd0 r w))
            as Hg.
          rewrite Hcall in Hg. simpl in Hg. eapply grows_owns; [done|].
          by apply (with_node_owns nd0 r w tr).
        * destruct (with_node_lookup nd0 r w tr Hr) as (tr1 & Hr1 & _).
          by apply (Hown tr1). }
  exists w'. by rewrite Hcall.
Qed.

Lemma X7_frame_children_failure_keeps_nodes_witness :
  f_locals sample_frame_bad
  = [("b", sample_int_2)]
    ++ (RETURN_VALUES_DICT (Externals := sample_externals), sample_int_42)
       :: [("a", sample_int_1)]
  ∧ (RETURN_VALUES_DICT (Externals := sample_externals)
     ∉ map fst [("b", sample_int_2)])
  ∧ v_items sample_int_42 = None
  ∧ ∃ w',
      get_children_variables (E := sample_externals)
        (_FrameVariable sample_frame_bad 0) None 0 sample_world_1
      = (Raise AttributeError, w')
      ∧ heap_nodes w'
        = heap_nodes sample_world_1
          ++ map (λ kv, _ObjectVariable kv.1 kv.2 0 false (Some kv.1))
               [("b", sample_int_2)]
      ∧ (∀ tr kv, heap_trackers sample_world_1 !! 0 = Some tr →
           kv ∈ [("b", sample_int_2)] → owns w' 0 (v_id kv.2)).
Proof.
  assert (f_locals sample_frame_bad
          = [("b", sample_int_2)]
            ++ (RETURN_VALUES_DICT (Externals := sample_externals),
                sample_int_42) :: [("a", sample_int_1)]) as Hlocals
    by reflexivity.
  assert (RETURN_VALUES_DICT (Externals := sample_externals)
          ∉ map fst [("b", sample_int_2)]) as Hplain.
  { intros Hin. vm_compute in Hin.
    apply elem_of_cons in Hin as [Heq|Hin]; [discriminate|].
    by apply elem_of_nil in Hin. }
  assert (v_items sample_int_42 = None) as Hbad by reflexivity.
  split_and!; [exact Hlocals|exact Hplain|exact Hbad|].
  exact (X7_frame_children_failure_keeps_nodes (E := sample_externals)
           sample_frame_bad 0 None 0 sample_world_1 _ _ _
           Hlocals Hplain Hbad).
Defined.

(** ** More on [track] and [untrack_all] *)

(** X8. Double suspension: [track] on a tracker that still has its manager
    always succeeds and leaves the tracker registered under the effective
    id, overwriting whatever tracker the id had; it writes the warning to
    [sys.stderr] exactly when the id already had a tracker, and the
    registrations of the other ids are not touched. *)
Theorem X8_track_warns_and_overwrites (w : world) (self : tracker_ref)
    (tr : tracker_state) (m : manager_ref) (thread_id : string)
    (fr : option frame) (frame_id_to_lineno : gmap Z Z)
    (frame_custom_thread_id : option string) :
  heap_trackers w !! self = Some tr →
  _suspended_frames_manager tr = Some m →
  let eid := py_or frame_custom_thread_id thread_id in
  ∃ w',
    FramesTracker.track self thread_id fr frame_id_to_lineno
      frame_custom_thread_id w = (Ok tt, w')
    ∧ SuspendedFramesManager.get_frame_tracker w' eid = Some self
    ∧ (SuspendedFramesManager.get_frame_tracker w eid = None →
       stderr w' = stderr w)
    ∧ (is_Some (SuspendedFramesManager.get_frame_tracker w eid) →
       stderr w' = stderr w ++ [double_track_warning])
    ∧ (∀ tid, tid ≠ eid →
         SuspendedFramesManager.get_frame_tracker w' tid
         = SuspendedFramesManager.get_frame_tracker w tid).
Proof.
  intros Hr Hm eid. eexists. split; [by eapply track_eq|].
  unfold SuspendedFramesManager.get_frame_tracker.
  cbn [the_manager stderr _thread_id_to_tracker
       with_variable_reference_to_frames_tracker with_thread_id_to_tracker].
  fold eid. split_and!.
  - apply od_get_set_eq.
  - by intros ->.
  - by intros [r ->].
  - intros tid Hne. by apply od_get_set_ne.
Qed.

Lemma X8_track_warns_and_overwrites_witness :
  heap_trackers sample_world_double !! 1
  = Some (MkTracker (Some TheManager) [(101%Z, sample_frame_F1)]
            {[ 101%Z := "A" ]} [("A", [101%Z])] ∅ (Some "A") false
            {[ 101%Z := 1 ]})
  ∧ Some TheManager = Some TheManager
  ∧ ∃ w',
      FramesTracker.track 1 "B" (Some sample_frame_F3) ∅ (Some "A")
        sample_world_double = (Ok tt, w')
      ∧ SuspendedFramesManager.get_frame_tracker w' "A" = Some 1
      ∧ stderr w' = stderr sample_world_double ++ [double_track_warning].
Proof.
  assert (heap_trackers sample_world_double !! 1
          = Some (MkTracker (Some TheManager) [(101%Z, sample_frame_F1)]
                    {[ 101%Z := "A" ]} [("A", [101%Z])] ∅ (Some "A") false
                    {[ 101%Z := 1 ]})) as Hr by (by vm_compute).
  assert (Some TheManager = Some TheManager) as Hm by reflexivity.
  split_and!; [exact Hr|exact Hm|].
  destruct (X8_track_warns_and_overwrites sample_world_double 1 _ TheManager
              "B" (Some sample_frame_F3) ∅ (Some "A") Hr Hm)
    as (w' & Htrack & Hget & _ & Hwarn & _).
  exists w'. split_and!; [exact Htrack|exact Hget|].
  apply Hwarn. eexists. vm_compute. reflexivity.
Defined.

Section flag_facts.
Context {E : Externals}.

(** The [_untracked] flag is never reset. *)
Lemma untracked_step a w r tr :
  heap_trackers w !! r = Some tr → _untracked tr = true →
  ∃ tr', heap_trackers (step a w) !! r = Some tr' ∧ _untracked tr' = true.
Proof.
  intros Hr Hflag.
  assert (∀ w', grows w w' →
            ∃ tr', heap_trackers w' !! r = Some tr' ∧ _untracked tr' = true)
    as Hgrows.
  { intros w' Hg.
    destruct (grows_trackers _ _ Hg r tr Hr) as (tr' & Hr' & Hfg & _).
    exists tr'. split; [done|].
    by destruct (forget_variables_fields _ _ Hfg)
      as (_ & _ & _ & _ & _ & _ & ->). }
  destruct a; simpl.
  - exists tr. split; [|done]. by apply lookup_app_l_Some.
  - destruct (heap_trackers w !! self) as [t|] eqn:Hself;
      [|rewrite track_dangling by done; eauto].
    destruct (_suspended_frames_manager t) as [m|] eqn:Hm;
      [|erewrite track_untracked by done; eauto].
    erewrite track_eq by done. cbn [snd heap_trackers].
    destruct (decide (self = r)) as [<-|Hne].
    + rewrite list_lookup_alter_eq, Hself. simplify_eq. eexists.
      split; [done|].
      by destruct (track_local_fields
                     (py_or frame_custom_thread_id thread_id) thread_id
                     (frame_chain_opt fr) (length (heap_nodes w))
                     (track_pre_local
                        (py_or frame_custom_thread_id thread_id) thread_id
                        frame_id_to_lineno tr)) as (_ & _ & _ & ->).
    + rewrite list_lookup_alter_ne by done. eauto.
  - destruct (heap_trackers w !! self) as [t|] eqn:Hself;
      [|rewrite untrack_all_dangling by done; eauto].
    destruct (_untracked t) eqn:Hu;
      [erewrite untrack_all_untracked by done; eauto|].
    erewrite untrack_all_eq by done.
    destruct (FramesTracker.del_frame_ids _ _).1 as [[]|e];
      cbn [snd heap_trackers];
      (destruct (decide (self = r)) as [<-|Hne];
       [rewrite list_lookup_alter_eq, Hself; simplify_eq; eauto
       |rewrite list_lookup_alter_ne by done; eauto]).
  - apply Hgrows, obtain_as_variable_grows.
  - destruct (heap_nodes w !! variable); [|eauto].
    apply Hgrows, get_children_variables_grows.
  - destruct (add_fake_frame_same thread_id frame_id fr w) as (_ & -> & _).
    eauto.
Qed.

Lemma untracked_run acts w r tr :
  heap_trackers w !! r = Some tr → _untracked tr = true →
  ∃ tr', heap_trackers (run acts w) !! r = Some tr' ∧ _untracked tr' = true.
Proof.
  revert w tr. induction acts as [|a acts IH]; intros w tr Hr Hflag; [eauto|].
  destruct (untracked_step a w r tr Hr Hflag) as (tr' & Hr' & Hflag').
  by apply (IH (step a w) tr').
Qed.
End flag_facts.

(** X9. A closed session cannot be reopened: once the first
    [untrack_all()] of a tracker has returned normally, every later
    [track] on that tracker, whatever calls came in between, raises
    [AttributeError] (the tracker has released its manager) and changes
    nothing. *)
Theorem X9_closed_tracker_cannot_track {E : Externals} (w w' : world)
    (self : tracker_ref) (tr : tracker_state) (acts : list action)
    (thread_id : string) (fr : option frame) (frame_id_to_lineno : gmap Z Z)
    (frame_custom_thread_id : option string) :
  heap_trackers w !! self = Some tr →
  _untracked tr = false →
  FramesTracker.untrack_all self w = (Ok tt, w') →
  FramesTracker.track self thread_id fr frame_id_to_lineno
    frame_custom_thread_id (run acts w')
  = (Raise AttributeError, run acts w').
Proof.
  intros Hr Hu Hcall.
  destruct (untrack_all_removes self w w' tr Hr Hu Hcall) as (Hself & _).
  destruct (closed_run acts w' self cleared_tracker Hself eq_refl)
    as (tr' & Hr' & Hnone).
  by eapply track_untracked.
Qed.

Lemma X9_closed_tracker_cannot_track_witness :
  heap_trackers sample_world_T !! 0
  = Some (MkTracker (Some TheManager)
            [(102%Z, sample_frame_F2); (101%Z, sample_frame_F1)]
            {[ 102%Z := "T"; 101%Z := "T" ]}
            [("T", [102%Z; 101%Z])] ∅ (Some "T") false
            {[ 102%Z := 0; 101%Z := 1 ]})
  ∧ false = false
  ∧ FramesTracker.untrack_all 0 sample_world_T
    = (Ok tt, (FramesTracker.untrack_all 0 sample_world_T).2)
  ∧ FramesTracker.track 0 "T" (Some sample_frame_F2) ∅ None
      (run (E := sample_externals)
         [Act_obtain_as_variable 0 "x" sample_int_42 None]
         (FramesTracker.untrack_all 0 sample_world_T).2)
    = (Raise AttributeError,
       run (E := sample_externals)
         [Act_obtain_as_variable 0 "x" sample_int_42 None]
         (FramesTracker.untrack_all 0 sample_world_T).2).
Proof.
  assert (heap_trackers sample_world_T !! 0
          = Some (MkTracker (Some TheManager)
                    [(102%Z, sample_frame_F2); (101%Z, sample_frame_F1)]
                    {[ 102%Z := "T"; 101%Z := "T" ]}
                    [("T", [102%Z; 101%Z])] ∅ (Some "T") false
                    {[ 102%Z := 0; 101%Z := 1 ]})) as Hr by (by vm_compute).
  assert (false = false) as Hu by reflexivity.
  assert (FramesTracker.untrack_all 0 sample_world_T
          = (Ok tt, (FramesTracker.untrack_all 0 sample_world_T).2)) as Hcall
    by (by vm_compute).
  split_and!; [exact Hr|exact Hu|exact Hcall|].
  exact (X9_closed_tracker_cannot_track (E := sample_externals)
           sample_world_T _ 0 _
           [Act_obtain_as_variable 0 "x" sample_int_42 None]
           "T" (Some sample_frame_F2) ∅ None Hr Hu Hcall).
Defined.

(** X10. Teardown is idempotent: after a first [untrack_all()] on a
    tracker, whether it returned normally or raised, every later
    [untrack_all()] on that tracker, whatever calls came in between,
    returns normally and changes nothing. *)
Theorem X10_untrack_all_again_is_noop {E : Externals} (w : world)
    (self : tracker_ref) (tr : tracker_state) (acts : list action) :
  heap_trackers w !! self = Some tr →
  FramesTracker.untrack_all self
    (run acts (FramesTracker.untrack_all self w).2)
  = (Ok tt, run acts (FramesTracker.untrack_all self w).2).
Proof.
  intros Hr.
  assert (∃ t, heap_trackers (FramesTracker.untrack_all self w).2 !! self
               = Some t ∧ _untracked t = true) as (t & Ht & Hflag).
  { destruct (_untracked tr) eqn:Hu.
    - rewrite (untrack_all_untracked self w tr Hr Hu). eauto.
    - rewrite (untrack_all_eq self w tr Hr Hu).
      destruct (FramesTracker.del_frame_ids _ _).1 as [[]|e];
        cbn [snd heap_trackers]; rewrite list_lookup_alter_eq, Hr; eauto. }
  destruct (untracked_run acts _ self t Ht Hflag) as (t' & Ht' & Hflag').
  by eapply untrack_all_untracked.
Qed.

Lemma X10_untrack_all_again_is_noop_witness :
  heap_trackers sample_world_double !! 1
  = Some (MkTracker (Some TheManager) [(101%Z, sample_frame_F1)]
            {[ 101%Z := "A" ]} [("A", [101%Z])] ∅ (Some "A") false
            {[ 101%Z := 1 ]})
  ∧ FramesTracker.untrack_all 1
      (run (E := sample_externals) [Act_untrack_all 0]
         (FramesTracker.untrack_all 1 sample_world_double).2)
    = (Ok tt,
       run (E := sample_externals) [Act_untrack_all 0]
         (FramesTracker.untrack_all 1 sample_world_double).2).
Proof.
  assert (heap_trackers sample_world_double !! 1
          = Some (MkTracker (Some TheManager) [(101%Z, sample_frame_F1)]
                    {[ 101%Z := "A" ]} [("A", [101%Z])] ∅ (Some "A") false
                    {[ 101%Z := 1 ]})) as Hr by (by vm_compute).
  split; [exact Hr|].
  exact (X10_untrack_all_again_is_noop (E := sample_externals)
           sample_world_double 1 _ [Act_untrack_all 0] Hr).
Defined.

(** ** Fabricated frames and [find_frame] *)

Section fake_frame_facts.
Context {E : Externals}.

Lemma fake_frame_add_Ok tid fid fr w n tid' n' :
  SuspendedFramesManager.int_of_frame_id fid = Ok n →
  fake_frame (SuspendedFramesManager.add_fake_frame tid fid fr w).2 tid' n'
  = if decide (tid' = tid ∧ n' = n) then Some fr else fake_frame w tid' n'.
Proof.
  intros Hn. unfold SuspendedFramesManager.add_fake_frame. rewrite Hn.
  unfold fake_frame, upd_manager. destruct w as [nds ts [ff tm ix] err].
  cbn [snd the_manager _thread_id_to_fake_frames
       with_thread_id_to_fake_frames].
  destruct (decide (tid' = tid)) as [->|Hne].
  - rewrite lookup_alter_eq.
    destruct (ff !! tid) as [d|] eqn:Hd; cbn [fmap option_fmap option_map].
    + rewrite Hd. cbn [fmap option_fmap option_map].
      destruct (decide (n' = n)) as [->|Hn'].
      * rewrite decide_True by done. apply lookup_insert_eq.
      * rewrite decide_False by (intros [_ ?]; done).
        by apply lookup_insert_ne.
    + rewrite lookup_insert_eq. cbn [fmap option_fmap option_map].
      destruct (decide (n' = n)) as [->|Hn'].
      * rewrite decide_True by done. apply lookup_insert_eq.
      * rewrite decide_False by (intros [_ ?]; done).
        by rewrite lookup_insert_ne, lookup_empty.
  - rewrite decide_False by (intros [? _]; done).
    rewrite lookup_alter_ne by done.
    destruct (ff !! tid); [done|]. by rewrite lookup_insert_ne.
Qed.

Lemma fake_frame_add_Raise tid fid fr w e tid' n' :
  SuspendedFramesManager.int_of_frame_id fid = Raise e →
  fake_frame (SuspendedFramesManager.add_fake_frame tid fid fr w).2 tid' n'
  = fake_frame w tid' n'.
Proof.
  intros Hn. unfold SuspendedFramesManager.add_fake_frame. rewrite Hn.
  unfold fake_frame, upd_manager. destruct w as [nds ts [ff tm ix] err].
  cbn [snd the_manager _thread_id_to_fake_frames
       with_thread_id_to_fake_frames].
  destruct (ff !! tid) as [d|] eqn:Hd; [done|].
  destruct (decide (tid' = tid)) as [->|Hne].
  - by rewrite lookup_insert_eq, Hd, lookup_empty.
  - by rewrite lookup_insert_ne.
Qed.

Lemma add_fake_frame_stderr tid fid fr w :
  stderr (SuspendedFramesManager.add_fake_frame tid fid fr w).2 = stderr w.
Proof.
  unfold SuspendedFramesManager.add_fake_frame.
  by destruct (SuspendedFramesManager.int_of_frame_id fid).
Qed.

(** The [try] block of [find_frame] for an id that converts to [n]. *)
Lemma find_frame_try_int w tid fid n :
  fid ≠ FidStr "*" →
  SuspendedFramesManager.int_of_frame_id fid = Ok n →
  SuspendedFramesManager.find_frame_try w tid fid
  = match fake_frame w tid n with
    | Some fr => Ok (Some fr)
    | None =>
        match SuspendedFramesManager.get_frame_tracker w tid with
        | Some r =>
            match heap_trackers w !! r with
            | Some tr => Ok (FramesTracker.find_frame tr tid n)
            | None => Raise ReferenceError
            end
        | None => Ok None
        end
    end.
Proof.
  intros Hne Hn. unfold SuspendedFramesManager.find_frame_try.
  rewrite bool_decide_eq_false_2 by done. by rewrite Hn.
Qed.

Lemma find_frame_try_ext w w' tid fid :
  (∀ n, fake_frame w' tid n = fake_frame w tid n) →
  _thread_id_to_tracker (the_manager w') = _thread_id_to_tracker (the_manager w) →
  heap_trackers w' = heap_trackers w →
  SuspendedFramesManager.find_frame_try w' tid fid
  = SuspendedFramesManager.find_frame_try w tid fid.
Proof.
  intros Hf Ht Hh.
  destruct (decide (fid = FidStr "*")) as [->|Hne].
  { unfold SuspendedFramesManager.find_frame_try.
    by rewrite !bool_decide_eq_true_2 by done. }
  destruct (SuspendedFramesManager.int_of_frame_id fid) as [n|e] eqn:Hn.
  - rewrite !(find_frame_try_int _ tid fid n) by done.
    unfold SuspendedFramesManager.get_frame_tracker. by rewrite Hf, Ht, Hh.
  - unfold SuspendedFramesManager.find_frame_try.
    rewrite !bool_decide_eq_false_2 by done. by rewrite Hn.
Qed.

Lemma fake_frames_kept_refl w : fake_frames_kept w w.
Proof. by intros tid n. Qed.

Lemma fake_frames_kept_trans w1 w2 w3 :
  fake_frames_kept w1 w2 → fake_frames_kept w2 w3 → fake_frames_kept w1 w3.
Proof. intros H12 H23 tid n Hw. by apply H23, H12. Qed.

(** Only [add_fake_frame] writes to [_thread_id_to_fake_frames]. *)
Lemma step_fake_frames a w :
  fabricates a = false →
  _thread_id_to_fake_frames (the_manager (step a w))
  = _thread_id_to_fake_frames (the_manager w).
Proof.
  intros Ha.
  assert (∀ w', grows w w' →
            _thread_id_to_fake_frames (the_manager w')
            = _thread_id_to_fake_frames (the_manager w)) as Hgrows.
  { intros w' Hg. by rewrite (grows_manager _ _ Hg). }
  destruct a; try done; simpl.
  - destruct (heap_trackers w !! self) as [t|] eqn:Hself;
      [|by rewrite track_dangling].
    destruct (_suspended_frames_manager t) as [m|] eqn:Hm;
      [|by erewrite track_untracked].
    by erewrite track_eq.
  - destruct (heap_trackers w !! self) as [t|] eqn:Hself;
      [|by rewrite untrack_all_dangling].
    destruct (_untracked t) eqn:Hu;
      [by erewrite untrack_all_untracked|].
    erewrite untrack_all_eq by done.
    by destruct (FramesTracker.del_frame_ids _ _).1 as [[]|e].
  - apply Hgrows, obtain_as_variable_grows.
  - destruct (heap_nodes w !! variable); [|done].
    apply Hgrows, get_children_variables_grows.
Qed.

Lemma step_fake_frames_kept a w : fake_frames_kept w (step a w).
Proof.
  destruct (fabricates a) eqn:Ha.
  - destruct a; try done. simpl. intros tid n Hw.
    destruct (SuspendedFramesManager.int_of_frame_id frame_id) as [k|e] eqn:Hk.
    + rewrite (fake_frame_add_Ok _ _ _ _ k) by done. by case_decide.
    + by rewrite (fake_frame_add_Raise _ _ _ _ e).
  - intros tid n. unfold fake_frame. by rewrite step_fake_frames.
Qed.
End fake_frame_facts.

(** X11. Fabricated frames, round trip: [add_fake_frame] with an id that
    converts to an integer succeeds; after the call [find_frame] with that
    thread and id, given as it was or as the integer, returns the
    fabricated frame (also when the thread's tracker has a real frame
    under the id, or an earlier fabricated frame had it).  Lookups with
    another thread or another integer id give what they gave before, and
    nothing else of the state changes. *)
Theorem X11_fake_frame_round_trip {E : Externals} (w : world)
    (thread_id : string) (frame_id : frame_id_arg) (fr : frame) (n : Z) :
  frame_id ≠ FidStr "*" →
  SuspendedFramesManager.int_of_frame_id frame_id = Ok n →
  ∃ w',
    SuspendedFramesManager.add_fake_frame thread_id frame_id fr w = (Ok tt, w')
    ∧ SuspendedFramesManager.find_frame thread_id frame_id w' = (Some fr, w')
    ∧ SuspendedFramesManager.find_frame thread_id (FidInt n) w'
      = (Some fr, w')
    ∧ (∀ tid' n', tid' ≠ thread_id ∨ n' ≠ n →
         SuspendedFramesManager.find_frame_try w' tid' (FidInt n')
         = SuspendedFramesManager.find_frame_try w tid' (FidInt n'))
    ∧ heap_nodes w' = heap_nodes w
    ∧ heap_trackers w' = heap_trackers w
    ∧ _thread_id_to_tracker (the_manager w')
      = _thread_id_to_tracker (the_manager w)
    ∧ _variable_reference_to_frames_tracker (the_manager w')
      = _variable_reference_to_frames_tracker (the_manager w)
    ∧ stderr w' = stderr w.
Proof.
  intros Hne Hn.
  exists (SuspendedFramesManager.add_fake_frame thread_id frame_id fr w).2.
  destruct (add_fake_frame_same thread_id frame_id fr w)
    as (Hnodes & Htrackers & Hmap & Hindex).
  pose proof (fake_frame_add_Ok thread_id frame_id fr w n) as Hfake.
  split_and!; try done.
  - unfold SuspendedFramesManager.add_fake_frame. by rewrite Hn.
  - unfold SuspendedFramesManager.find_frame.
    rewrite (find_frame_try_int _ _ _ n) by done.
    rewrite Hfake by done. by rewrite decide_True.
  - unfold SuspendedFramesManager.find_frame.
    rewrite (find_frame_try_int _ _ _ n) by done.
    rewrite Hfake by done. by rewrite decide_True.
  - intros tid' n' Hother.
    rewrite !(find_frame_try_int _ _ _ n') by done.
    rewrite Hfake by done.
    rewrite decide_False by (intros [-> ->]; by destruct Hother).
    unfold SuspendedFramesManager.get_frame_tracker.
    by rewrite Hmap, Htrackers.
  - apply add_fake_frame_stderr.
Qed.

Lemma X11_fake_frame_round_trip_witness :
  FidStr "101" ≠ FidStr "*"
  ∧ SuspendedFramesManager.int_of_frame_id (E := sample_externals)
      (FidStr "101") = Ok 101%Z
  ∧ SuspendedFramesManager.find_frame (E := sample_externals) "T"
      (FidInt 101) sample_world_T = (Some sample_frame_F1, sample_world_T)
  ∧ ∃ w',
      SuspendedFramesManager.add_fake_frame (E := sample_externals) "T"
        (FidStr "101") sample_fake_frame sample_world_T = (Ok tt, w')
      ∧ SuspendedFramesManager.find_frame (E := sample_externals) "T"
          (FidInt 101) w' = (Some sample_fake_frame, w').
Proof.
  assert (FidStr "101" ≠ FidStr "*") as Hne by done.
  assert (SuspendedFramesManager.int_of_frame_id (E := sample_externals)
            (FidStr "101") = Ok 101%Z) as Hn by reflexivity.
  split_and!; [exact Hne|exact Hn|by vm_compute|].
  destruct (X11_fake_frame_round_trip (E := sample_externals) sample_world_T
              "T" (FidStr "101") sample_fake_frame 101 Hne Hn)
    as (w' & Hadd & _ & Hfind & _).
  exists w'. split; [exact Hadd|exact Hfind].
Defined.

(** X12. [add_fake_frame] with an id that does not convert to an integer
    raises [ValueError] and registers no frame: every [find_frame] lookup
    gives what it gave before.  The call has still created the (empty)
    dictionary of fabricated frames of the thread, because the target of
    the assignment is evaluated before the subscript. *)
Theorem X12_fake_frame_bad_id {E : Externals} (w : world)
    (thread_id s : string) (fr : frame) :
  py_int s = None →
  ∃ w',
    SuspendedFramesManager.add_fake_frame thread_id (FidStr s) fr w
    = (Raise ValueError, w')
    ∧ (∀ tid' n', fake_frame w' tid' n' = fake_frame w tid' n')
    ∧ (∀ tid' fid',
         SuspendedFramesManager.find_frame_try w' tid' fid'
         = SuspendedFramesManager.find_frame_try w tid' fid')
    ∧ is_Some (_thread_id_to_fake_frames (the_manager w') !! thread_id)
    ∧ heap_nodes w' = heap_nodes w
    ∧ heap_trackers w' = heap_trackers w
    ∧ stderr w' = stderr w.
Proof.
  intros Hs.
  assert (SuspendedFramesManager.int_of_frame_id (FidStr s)
          = Raise ValueError) as Hn.
  { unfold SuspendedFramesManager.int_of_frame_id. by rewrite Hs. }
  exists (SuspendedFramesManager.add_fake_frame thread_id (FidStr s) fr w).2.
  destruct (add_fake_frame_same thread_id (FidStr s) fr w)
    as (Hnodes & Htrackers & Hmap & Hindex).
  pose proof (λ tid' n',
    fake_frame_add_Raise thread_id (FidStr s) fr w ValueError tid' n' Hn)
    as Hfake.
  split_and!; try done.
  - unfold SuspendedFramesManager.add_fake_frame. by rewrite Hn.
  - intros tid' fid'. by apply find_frame_try_ext.
  - unfold SuspendedFramesManager.add_fake_frame. rewrite Hn.
    unfold upd_manager. destruct w as [nds ts [ff tm ix] err].
    cbn [snd the_manager _thread_id_to_fake_frames
         with_thread_id_to_fake_frames].
    destruct (ff !! thread_id) as [d|] eqn:Hd; [by rewrite Hd|].
    by rewrite lookup_insert_eq.
  - apply add_fake_frame_stderr.
Qed.

Lemma X12_fake_frame_bad_id_witness :
  py_int (Externals := sample_externals) "top" = None
  ∧ ∃ w',
      SuspendedFramesManager.add_fake_frame (E := sample_externals) "T"
        (FidStr "top") sample_fake_frame sample_world_T
      = (Raise ValueError, w')
      ∧ fake_frame w' "T" 101 = None
      ∧ _thread_id_to_fake_frames (the_manager w') !! "T" = Some ∅.
Proof.
  assert (py_int (Externals := sample_externals) "top" = None) as Hs
    by reflexivity.
  split; [exact Hs|].
  destruct (X12_fake_frame_bad_id (E := sample_externals) sample_world_T "T"
              "top" sample_fake_frame Hs)
    as (w' & Hadd & Hfake & _).
  exists w'. split_and!; [exact Hadd| |].
  - rewrite Hfake. by vm_compute.
  - injection Hadd as <-. by vm_compute.
Defined.

(** X13. Fabricated frames are never removed: no call of the module takes
    a fabricated frame away (a later [add_fake_frame] can only replace
    it), in particular not [untrack_all] when the thread resumes; and the
    calls other than [add_fake_frame] leave the table of fabricated
    frames as it is. *)
Theorem X13_fake_frames_never_removed {E : Externals} (w : world)
    (acts : list action) :
  fake_frames_kept w (run acts w)
  ∧ (forallb (λ a, negb (fabricates a)) acts = true →
     _thread_id_to_fake_frames (the_manager (run acts w))
     = _thread_id_to_fake_frames (the_manager w)).
Proof.
  revert w. induction acts as [|a acts IH]; intros w.
  - split; [apply fake_frames_kept_refl|done].
  - destruct (IH (step a w)) as [Hkept Hsame]. split.
    + eapply fake_frames_kept_trans; [apply step_fake_frames_kept|exact Hkept].
    + cbn [forallb]. intros [Ha Hacts]%andb_prop.
      change (run (a :: acts) w) with (run acts (step a w)).
      rewrite Hsame by done. apply step_fake_frames.
      by apply negb_true_iff.
Qed.

Lemma X13_fake_frames_never_removed_witness :
  forallb (λ a, negb (fabricates a)) [Act_untrack_all 0; Act_new_tracker]
  = true
  ∧ fake_frame sample_world_fake "T" 101 = Some sample_fake_frame
  ∧ fake_frame
      (run (E := sample_externals) [Act_untrack_all 0; Act_new_tracker]
         sample_world_fake) "T" 101
    = Some sample_fake_frame.
Proof.
  assert (forallb (λ a, negb (fabricates a))
            [Act_untrack_all 0; Act_new_tracker] = true) as Hacts
    by reflexivity.
  assert (fake_frame sample_world_fake "T" 101 = Some sample_fake_frame)
    as Hfake by (by vm_compute).
  split_and!; [exact Hacts|exact Hfake|].
  unfold fake_frame.
  rewrite (proj2 (X13_fake_frames_never_removed (E := sample_externals)
                    sample_world_fake [Act_untrack_all 0; Act_new_tracker])
             Hacts).
  exact Hfake.
Defined.

Section frames_keyed_facts.
Context {E : Externals}.

Lemma frames_keyed_initial : frames_keyed initial_world.
Proof. intros r tr h fr Hr. simpl in Hr. by rewrite lookup_nil in Hr. Qed.

Lemma frames_keyed_step a w : frames_keyed w → frames_keyed (step a w).
Proof.
  intros Hw.
  assert (∀ w', grows w w' → frames_keyed w') as Hgrows.
  { intros w' Hg r tr' h fr Hr'.
    destruct (heap_trackers w !! r) as [tr|] eqn:Hr;
      [|by rewrite (grows_tracker_None _ _ _ Hg Hr) in Hr'].
    destruct (grows_trackers _ _ Hg r tr Hr) as (tr2 & Hr2 & Hfg & _).
    rewrite Hr2 in Hr'. injection Hr' as <-.
    destruct (forget_variables_fields _ _ Hfg) as (_ & -> & _).
    by apply (Hw r tr). }
  destruct a; simpl.
  - intros r tr h fr [Hr|[-> ->]]%init_lookup; [by apply (Hw r tr)|done].
  - destruct (heap_trackers w !! self) as [tr|] eqn:Hr;
      [|by rewrite track_dangling].
    destruct (_suspended_frames_manager tr) as [m|] eqn:Hm;
      [|by erewrite track_untracked].
    erewrite track_eq by done. cbn [snd]. intros r t h f.
    cbn [heap_trackers]. destruct (decide (self = r)) as [<-|Hne].
    + rewrite list_lookup_alter_eq, Hr. intros [= <-].
      destruct (decide (h ∈ map f_id (frame_chain_opt fr))) as [Hin|Hin].
      * destruct (track_local_frame_in
                    (py_or frame_custom_thread_id thread_id) thread_id
                    (frame_chain_opt fr) (length (heap_nodes w))
                    (track_pre_local
                       (py_or frame_custom_thread_id thread_id) thread_id
                       frame_id_to_lineno tr) h Hin)
          as (g & _ & Hid & ->).
        by intros [= <-].
      * rewrite track_local_frame_notin by done. simpl. by apply (Hw self tr).
    + rewrite list_lookup_alter_ne by done. apply Hw.
  - destruct (heap_trackers w !! self) as [tr|] eqn:Hr;
      [|by rewrite untrack_all_dangling].
    destruct (_untracked tr) eqn:Hu; [by erewrite untrack_all_untracked|].
    rewrite (untrack_all_eq self w tr Hr Hu).
    destruct (FramesTracker.del_frame_ids _ _).1 as [[]|e];
      cbn [snd]; intros r t h f; cbn [heap_trackers];
      (destruct (decide (self = r)) as [<-|Hne];
       [rewrite list_lookup_alter_eq, Hr; intros [= <-]; simpl;
        by try apply (Hw self tr)
       |rewrite list_lookup_alter_ne by done; apply Hw]).
  - apply Hgrows, obtain_as_variable_grows.
  - destruct (heap_nodes w !! variable); [|done].
    apply Hgrows, get_children_variables_grows.
  - destruct (add_fake_frame_same thread_id frame_id fr w) as (_ & Ht & _).
    intros r tr. rewrite Ht. apply Hw.
Qed.

Lemma reachable_frames_keyed w : reachable w → frames_keyed w.
Proof.
  induction 1 as [|w a Hw IH]; [apply frames_keyed_initial|].
  by apply frames_keyed_step.
Qed.
End frames_keyed_facts.

(** X14. What [find_frame] can do in a state of the registry: either it
    answers and leaves the state as it is, and a frame it returns is the
    current frame (id ["*"]), the fabricated frame of the thread under the
    id, or, when there is none, the frame with that very identity in the
    tracker of the thread; or [get_frame] or the conversion of the id has
    failed, the traceback is printed and [None] is returned.  Nothing else
    can fail inside the call. *)
Theorem X14_find_frame_outcomes {E : Externals} (w w' : world)
    (thread_id : string) (frame_id : frame_id_arg) (res : option frame) :
  reachable w →
  SuspendedFramesManager.find_frame thread_id frame_id w = (res, w') →
  find_frame_outcome w thread_id frame_id res w'.
Proof.
  intros Hreach. pose proof (reachable_wf w Hreach) as Hwf.
  pose proof (reachable_frames_keyed w Hreach) as Hkeyed.
  unfold SuspendedFramesManager.find_frame, find_frame_outcome.
  destruct (decide (frame_id = FidStr "*")) as [->|Hne].
  { unfold SuspendedFramesManager.find_frame_try.
    rewrite bool_decide_eq_true_2 by done.
    destruct get_frame as [fr|e] eqn:Hget; intros [= <- <-].
    - left. split; [done|]. intros f [= <-]. by left.
    - right. split_and!; [done|done|]. left. eauto. }
  destruct (SuspendedFramesManager.int_of_frame_id frame_id) as [n|e] eqn:Hn.
  - rewrite (find_frame_try_int w thread_id frame_id n Hne Hn).
    unfold frame_found.
    destruct (fake_frame w thread_id n) as [f|] eqn:Hfake.
    { intros [= <- <-]. left. split; [done|]. intros f' [= <-]. right.
      split; [done|]. exists n. split; [done|]. by left. }
    unfold SuspendedFramesManager.get_frame_tracker.
    destruct (od_get thread_id (_thread_id_to_tracker (the_manager w)))
      as [r|] eqn:Hr.
    + apply elem_of_od_get in Hr as Hin.
      destruct (wf_threads _ Hwf _ _ Hin) as (tr & Htr & _). rewrite Htr.
      intros [= <- <-]. left. split; [done|]. intros f Hf. right.
      split; [done|]. exists n. split; [done|]. right.
      unfold FramesTracker.find_frame in Hf.
      split_and!; [done|by apply (Hkeyed r tr)|]. by exists r, tr.
    + intros [= <- <-]. left. split; [done|]. by intros f.
  - unfold SuspendedFramesManager.find_frame_try.
    rewrite bool_decide_eq_false_2 by done. rewrite Hn.
    intros [= <- <-]. right. split_and!; [done|done|]. right.
    split; [done|]. unfold SuspendedFramesManager.int_of_frame_id in *.
    destruct frame_id as [s|z]; [|done]. by destruct (py_int s).
Qed.

Lemma X14_find_frame_outcomes_witness :
  reachable (E := sample_externals) sample_world_T
  ∧ SuspendedFramesManager.find_frame (E := sample_externals) "T"
      (FidStr "102") sample_world_T
    = (Some sample_frame_F2, sample_world_T)
  ∧ find_frame_outcome (E := sample_externals) sample_world_T "T"
      (FidStr "102") (Some sample_frame_F2) sample_world_T.
Proof.
  assert (reachable (E := sample_externals) sample_world_T) as Hreach.
  { apply (reachable_step _ (Act_track 0 "T" (Some sample_frame_F2) ∅ None)),
      (reachable_step initial_world Act_new_tracker), reachable_init. }
  assert (SuspendedFramesManager.find_frame (E := sample_externals) "T"
            (FidStr "102") sample_world_T
          = (Some sample_frame_F2, sample_world_T)) as Hfind
    by (by vm_compute).
  split_and!; [exact Hreach|exact Hfind|].
  exact (X14_find_frame_outcomes (E := sample_externals) sample_world_T
           sample_world_T "T" (FidStr "102") (Some sample_frame_F2)
           Hreach Hfind).
Defined.

(** ** What teardown removes and what it leaves *)

Lemma del_frame_ids_subseteq ks (d : gmap Z nat) :
  (FramesTracker.del_frame_ids ks d).2 ⊆ d.
Proof.
  apply map_subseteq_spec. intros h r. apply del_frame_ids_Some.
Qed.

(** The state after [untrack_all], in every case. *)
Lemma untrack_all_frame self w :
  let w' := (FramesTracker.untrack_all self w).2 in
  heap_nodes w' = heap_nodes w
  ∧ stderr w' = stderr w
  ∧ _thread_id_to_fake_frames (the_manager w')
    = _thread_id_to_fake_frames (the_manager w)
  ∧ length (heap_trackers w') = length (heap_trackers w)
  ∧ (∀ r, r ≠ self → heap_trackers w' !! r = heap_trackers w !! r).
Proof.
  destruct (heap_trackers w !! self) as [tr|] eqn:Hr;
    [|by rewrite untrack_all_dangling].
  destruct (_untracked tr) eqn:Hu; [by erewrite untrack_all_untracked|].
  rewrite (untrack_all_eq self w tr Hr Hu).
  destruct (FramesTracker.del_frame_ids _ _).1 as [[]|e];
    cbn [snd heap_nodes stderr the_manager heap_trackers
         _thread_id_to_fake_frames];
    (split_and!; [done|done|done|by rewrite length_alter|];
     intros r Hne; by rewrite list_lookup_alter_ne).
Qed.

(** X15. Teardown unregisters the threads: after the first
    [untrack_all()] of a tracker, whether it returned normally or raised,
    none of the thread ids the tracker had tracked has a tracker any more,
    not even one that a second [track] had registered to another tracker:
    the manager's [get_topmost_frame_and_frame_id_to_line] returns
    nothing for it and [find_frame] only sees its fabricated frames.  The
    other thread ids keep their trackers. *)
Theorem X15_untrack_all_unregisters_threads {E : Externals} (w : world)
    (self : tracker_ref) (tr : tracker_state) :
  heap_trackers w !! self = Some tr →
  _untracked tr = false →
  let w' := (FramesTracker.untrack_all self w).2 in
  (∀ tid, is_Some (od_get tid (_thread_id_to_frame_ids tr)) →
     SuspendedFramesManager.get_frame_tracker w' tid = None
     ∧ SuspendedFramesManager.get_topmost_frame_and_frame_id_to_line w' tid
       = Ok None
     ∧ ∀ n, SuspendedFramesManager.find_frame tid (FidInt n) w'
            = (fake_frame w tid n, w'))
  ∧ (∀ tid, od_get tid (_thread_id_to_frame_ids tr) = None →
       SuspendedFramesManager.get_frame_tracker w' tid
       = SuspendedFramesManager.get_frame_tracker w tid).
Proof.
  intros Hr Hu w'.
  assert (_thread_id_to_tracker (the_manager w')
          = FramesTracker.pop_thread_ids
              (od_keys (_thread_id_to_frame_ids tr))
              (_thread_id_to_tracker (the_manager w))) as Hmap.
  { unfold w'. rewrite (untrack_all_eq self w tr Hr Hu).
    by destruct (FramesTracker.del_frame_ids _ _).1 as [[]|e]. }
  destruct (untrack_all_frame self w) as (_ & _ & Hfake & _).
  fold w' in Hfake.
  unfold SuspendedFramesManager.get_frame_tracker. split.
  - intros tid Htid%od_get_is_Some.
    assert (od_get tid (_thread_id_to_tracker (the_manager w')) = None)
      as Hnone by (by rewrite Hmap, pop_thread_ids_get, decide_True).
    split_and!; [done| |].
    + unfold SuspendedFramesManager.get_topmost_frame_and_frame_id_to_line.
      by rewrite Hnone.
    + intros n. unfold SuspendedFramesManager.find_frame.
      rewrite (find_frame_try_int w' tid (FidInt n) n) by done.
      unfold SuspendedFramesManager.get_frame_tracker. rewrite Hnone.
      unfold fake_frame. rewrite Hfake.
      by destruct (_thread_id_to_fake_frames (the_manager w) !! tid)
        as [d|]; [destruct (d !! n)|].
  - intros tid Htid%od_get_None.
    by rewrite Hmap, pop_thread_ids_get, decide_False.
Qed.

Lemma X15_untrack_all_unregisters_threads_witness :
  heap_trackers sample_world_double !! 0
  = Some (MkTracker (Some TheManager) [(101%Z, sample_frame_F1)]
            {[ 101%Z := "A" ]} [("A", [101%Z])] ∅ (Some "A") false
            {[ 101%Z := 0 ]})
  ∧ false = false
  ∧ is_Some (od_get "A" [("A", [101%Z])])
  ∧ SuspendedFramesManager.get_frame_tracker sample_world_double "A" = Some 1
  ∧ SuspendedFramesManager.get_frame_tracker
      (FramesTracker.untrack_all 0 sample_world_double).2 "A" = None.
Proof.
  assert (heap_trackers sample_world_double !! 0
          = Some (MkTracker (Some TheManager) [(101%Z, sample_frame_F1)]
                    {[ 101%Z := "A" ]} [("A", [101%Z])] ∅ (Some "A") false
                    {[ 101%Z := 0 ]})) as Hr by (by vm_compute).
  assert (false = false) as Hu by reflexivity.
  assert (is_Some (od_get "A" [("A", [101%Z])])) as Htid
    by (eexists; reflexivity).
  split_and!; [exact Hr|exact Hu|exact Htid|by vm_compute|].
  exact (proj1 (proj1 (X15_untrack_all_unregisters_threads
                         (E := sample_externals) sample_world_double 0 _
                         Hr Hu) "A" Htid)).
Defined.

(** X16. What [untrack_all] never touches: the variable nodes built so
    far, [sys.stderr] and the fabricated frames are as before, no tracker
    appears or disappears, every other tracker keeps its frames, its
    threads, its variable nodes, its manager and its flag (its line map
    is left out, see [forget_lines]), and the manager only loses entries:
    what its index or its thread map holds after the call, it held
    before. *)
Theorem X16_untrack_all_only_removes (w : world) (self : tracker_ref) :
  let w' := (FramesTracker.untrack_all self w).2 in
  heap_nodes w' = heap_nodes w
  ∧ stderr w' = stderr w
  ∧ _thread_id_to_fake_frames (the_manager w')
    = _thread_id_to_fake_frames (the_manager w)
  ∧ length (heap_trackers w') = length (heap_trackers w)
  ∧ (∀ r tr, r ≠ self → heap_trackers w !! r = Some tr →
       ∃ tr', heap_trackers w' !! r = Some tr'
              ∧ forget_lines tr' = forget_lines tr)
  ∧ _variable_reference_to_frames_tracker (the_manager w')
    ⊆ _variable_reference_to_frames_tracker (the_manager w)
  ∧ (∀ tid r,
       SuspendedFramesManager.get_frame_tracker w' tid = Some r →
       SuspendedFramesManager.get_frame_tracker w tid = Some r).
Proof.
  intros w'. destruct (untrack_all_frame self w)
    as (Hnodes & Herr & Hfake & Hlen & Hother).
  split_and!; try done; unfold w'.
  - intros r tr Hne Hr. exists tr. split; [|done].
    by rewrite (Hother r Hne).
  - destruct (heap_trackers w !! self) as [tr|] eqn:Hr;
      [|by rewrite untrack_all_dangling].
    destruct (_untracked tr) eqn:Hu; [by erewrite untrack_all_untracked|].
    rewrite (untrack_all_eq self w tr Hr Hu).
    destruct (FramesTracker.del_frame_ids _ _).1 as [[]|e];
      apply del_frame_ids_subseteq.
  - unfold SuspendedFramesManager.get_frame_tracker.
    destruct (heap_trackers w !! self) as [tr|] eqn:Hr;
      [|by rewrite untrack_all_dangling].
    destruct (_untracked tr) eqn:Hu; [by erewrite untrack_all_untracked|].
    rewrite (untrack_all_eq self w tr Hr Hu). intros tid r.
    destruct (FramesTracker.del_frame_ids _ _).1 as [[]|e];
      cbn [snd the_manager _thread_id_to_tracker];
      rewrite pop_thread_ids_get; by case_decide.
Qed.

(** ** The topmost frame and the suspend command *)

(** X17. [create_thread_suspend_command] builds the command from the very
    frame and line map that [get_topmost_frame_and_frame_id_to_line]
    returns for the thread, with the three other arguments handed
    through; it raises what the latter raises, and where the latter
    returns nothing (an id the tracker does not know) it raises
    [KeyError]. *)
Theorem X17_suspend_command_uses_topmost_frame
    {Cmd StopReason Message SuspendType : Type}
    (make_thread_suspend_message :
       string → frame → StopReason → Message → SuspendType → gmap Z Z → Cmd)
    (tr : tracker_state) (thread_id : string) (stop_reason : StopReason)
    (message : Message) (suspend_type : SuspendType) :
  create_thread_suspend_command make_thread_suspend_message tr thread_id
    stop_reason message suspend_type
  = match FramesTracker.get_topmost_frame_and_frame_id_to_line tr thread_id
    with
    | Ok (Some (fr, frame_id_to_lineno)) =>
        Ok (make_thread_suspend_message thread_id fr stop_reason message
              suspend_type frame_id_to_lineno)
    | Ok None => Raise KeyError
    | Raise e => Raise e
    end.
Proof.
  unfold create_thread_suspend_command,
    FramesTracker.get_topmost_frame_and_frame_id_to_line.
  destruct (od_get thread_id (_thread_id_to_frame_ids tr)) as [[|h ids]|];
    [done| |done].
  by destruct (od_get h (_frame_id_to_frame tr)).
Qed.

(** X18. In every state of the registry, for a thread id that has a
    tracker, the manager's [get_topmost_frame_and_frame_id_to_line] and
    the tracker's [create_thread_suspend_command] either answer with a
    frame of the tracker's frame table, the one whose identity heads the
    list of the thread, and the tracker's line map, or both raise
    [IndexError] because the list of the thread is empty (the thread was
    tracked with no frame).  No lookup on the way fails with
    [KeyError]. *)
Theorem X18_topmost_frame_of_registered_thread {E : Externals}
    {Cmd StopReason Message SuspendType : Type}
    (make_thread_suspend_message :
       string → frame → StopReason → Message → SuspendType → gmap Z Z → Cmd)
    (w : world) (thread_id : string) (r : tracker_ref)
    (stop_reason : StopReason) (message : Message)
    (suspend_type : SuspendType) :
  reachable w →
  SuspendedFramesManager.get_frame_tracker w thread_id = Some r →
  ∃ tr, heap_trackers w !! r = Some tr
    ∧ ((∃ fr ids,
          od_get thread_id (_thread_id_to_frame_ids tr) = Some (f_id fr :: ids)
          ∧ od_get (f_id fr) (_frame_id_to_frame tr) = Some fr
          ∧ SuspendedFramesManager.get_topmost_frame_and_frame_id_to_line
              w thread_id
            = Ok (Some (fr, _frame_id_to_lineno tr))
          ∧ create_thread_suspend_command make_thread_suspend_message tr
              thread_id stop_reason message suspend_type
            = Ok (make_thread_suspend_message thread_id fr stop_reason
                    message suspend_type (_frame_id_to_lineno tr)))
       ∨ (od_get thread_id (_thread_id_to_frame_ids tr) = Some []
          ∧ SuspendedFramesManager.get_topmost_frame_and_frame_id_to_line
              w thread_id
            = Raise IndexError
          ∧ create_thread_suspend_command make_thread_suspend_message tr
              thread_id stop_reason message suspend_type
            = Raise IndexError)).
Proof.
  intros Hreach Hr. pose proof (reachable_wf w Hreach) as Hwf.
  pose proof (reachable_wf_lists w Hreach) as Hlists.
  pose proof (reachable_frames_keyed w Hreach) as Hkeyed.
  unfold SuspendedFramesManager.get_frame_tracker in Hr.
  apply elem_of_od_get in Hr as Hin.
  destruct (wf_threads _ Hwf _ _ Hin) as (tr & Htr & [ids Hids]).
  exists tr. split; [done|].
  unfold SuspendedFramesManager.get_topmost_frame_and_frame_id_to_line,
    create_thread_suspend_command,
    FramesTracker.get_topmost_frame_and_frame_id_to_line.
  rewrite Hr, Htr, Hids. destruct ids as [|h ids]; [by right|left].
  destruct (wf_listed _ Hlists r tr thread_id (h :: ids) h Htr Hids)
    as [fr Hfr]; [by left|].
  pose proof (Hkeyed r tr h fr Htr Hfr) as <-.
  exists fr, ids. by rewrite Hfr.
Qed.

Lemma X18_topmost_frame_of_registered_thread_witness :
  reachable (E := sample_externals) sample_world_T
  ∧ SuspendedFramesManager.get_frame_tracker sample_world_T "T" = Some 0
  ∧ SuspendedFramesManager.get_topmost_frame_and_frame_id_to_line
      sample_world_T "T"
    = Ok (Some (sample_frame_F2, ∅))
  ∧ ∃ tr, heap_trackers sample_world_T !! 0 = Some tr
      ∧ create_thread_suspend_command
          (λ tid fr (reason : nat) (msg : string) (kind : nat)
             (lines : gmap Z Z), (tid, f_id fr, reason, msg, kind, lines))
          tr "T" 105 "paused" 1
        = Ok ("T", 102%Z, 105, "paused", 1, ∅).
Proof.
  assert (reachable (E := sample_externals) sample_world_T) as Hreach.
  { apply (reachable_step _ (Act_track 0 "T" (Some sample_frame_F2) ∅ None)),
      (reachable_step initial_world Act_new_tracker), reachable_init. }
  assert (SuspendedFramesManager.get_frame_tracker sample_world_T "T"
          = Some 0) as Hr by (by vm_compute).
  split_and!; [exact Hreach|exact Hr|by vm_compute|].
  destruct (X18_topmost_frame_of_registered_thread (E := sample_externals)
              (λ tid fr (reason : nat) (msg : string) (kind : nat)
                 (lines : gmap Z Z), (tid, f_id fr, reason, msg, kind, lines))
              sample_world_T "T" 0 105 "paused" 1 Hreach Hr)
    as (tr & Htr & Hcases).
  exists tr. split; [exact Htr|].
  assert (tr = MkTracker (Some TheManager)
                 [(102%Z, sample_frame_F2); (101%Z, sample_frame_F1)]
                 {[ 102%Z := "T"; 101%Z := "T" ]}
                 [("T", [102%Z; 101%Z])] ∅ (Some "T") false
                 {[ 102%Z := 0; 101%Z := 1 ]}) as ->.
  { assert (heap_trackers sample_world_T !! 0
            = Some (MkTracker (Some TheManager)
                      [(102%Z, sample_frame_F2); (101%Z, sample_frame_F1)]
                      {[ 102%Z := "T"; 101%Z := "T" ]}
                      [("T", [102%Z; 101%Z])] ∅ (Some "T") false
                      {[ 102%Z := 0; 101%Z := 1 ]})) as Hconcrete
      by (by vm_compute).
    rewrite Hconcrete in Htr. by injection Htr as <-. }
  destruct Hcases as [(fr & ids & Hids & _ & _ & Hcmd)|(Hempty & _)].
  - rewrite Hcmd. f_equal. cbn in Hids. injection Hids as Hid _.
    by rewrite Hid.
  - by cbn in Hempty.
Defined.

(** X19. A thread tracked with no frame: [track(thread_id, None, ...)] on
    an id the tracker does not have yet succeeds and registers the id
    with an empty list of frames; after the call
    [get_topmost_frame_and_frame_id_to_line], of the tracker and of the
    manager, and [create_thread_suspend_command] raise [IndexError] for
    the id, where before the call, the id being unknown to the tracker,
    the tracker's [get_topmost_frame_and_frame_id_to_line] returned
    nothing. *)
Theorem X19_track_without_frame
    {Cmd StopReason Message SuspendType : Type}
    (make_thread_suspend_message :
       string → frame → StopReason → Message → SuspendType → gmap Z Z → Cmd)
    (w : world) (self : tracker_ref) (tr : tracker_state) (m : manager_ref)
    (thread_id : string) (frame_id_to_lineno : gmap Z Z)
    (frame_custom_thread_id : option string) (stop_reason : StopReason)
    (message : Message) (suspend_type : SuspendType) :
  heap_trackers w !! self = Some tr →
  _suspended_frames_manager tr = Some m →
  let eid := py_or frame_custom_thread_id thread_id in
  od_get eid (_thread_id_to_frame_ids tr) = None →
  ∃ w' tr',
    FramesTracker.track self thread_id None frame_id_to_lineno
      frame_custom_thread_id w = (Ok tt, w')
    ∧ heap_trackers w' !! self = Some tr'
    ∧ heap_nodes w' = heap_nodes w
    ∧ _variable_reference_to_frames_tracker (the_manager w')
      = _variable_reference_to_frames_tracker (the_manager w)
    ∧ od_get eid (_thread_id_to_frame_ids tr') = Some []
    ∧ FramesTracker.get_topmost_frame_and_frame_id_to_line tr' eid
      = Raise IndexError
    ∧ SuspendedFramesManager.get_topmost_frame_and_frame_id_to_line w' eid
      = Raise IndexError
    ∧ create_thread_suspend_command make_thread_suspend_message tr' eid
        stop_reason message suspend_type
      = Raise IndexError
    ∧ FramesTracker.get_topmost_frame_and_frame_id_to_line tr eid = Ok None.
Proof.
  intros Hr Hm eid Hfresh.
  assert (FramesTracker.get_topmost_frame_and_frame_id_to_line tr eid
          = Ok None) as Hbefore.
  { unfold FramesTracker.get_topmost_frame_and_frame_id_to_line.
    by rewrite Hfresh. }
  destruct (track_result self thread_id None frame_id_to_lineno
              frame_custom_thread_id w tr m Hr Hm)
    as (w' & Htrack & Hself & _ & Hthreads & Hindex & _ & _ & Hids).
  fold eid in Hself, Hthreads, Hids.
  set (tr' := track_local eid thread_id (frame_chain_opt None)
                (length (heap_nodes w))
                (track_pre_local eid thread_id frame_id_to_lineno tr)) in *.
  rewrite Hfresh in Hids.
  change (od_get eid (_thread_id_to_frame_ids tr') = Some []) in Hids.
  exists w', tr'.
  split_and!; [exact Htrack|exact Hself| |exact Hindex|exact Hids| | |
              |exact Hbefore].
  - rewrite (track_eq self thread_id None frame_id_to_lineno
               frame_custom_thread_id w tr m Hr Hm) in Htrack.
    injection Htrack as <-. simpl. apply app_nil_r.
  - unfold FramesTracker.get_topmost_frame_and_frame_id_to_line.
    by rewrite Hids.
  - unfold SuspendedFramesManager.get_topmost_frame_and_frame_id_to_line.
    rewrite Hthreads, od_get_set_eq, Hself.
    unfold FramesTracker.get_topmost_frame_and_frame_id_to_line.
    by rewrite Hids.
  - unfold create_thread_suspend_command. by rewrite Hids.
Qed.

Lemma X19_track_without_frame_witness :
  heap_trackers sample_world_1 !! 0
  = Some (MkTracker (Some TheManager) [] ∅ [] ∅ None false ∅)
  ∧ Some TheManager = Some TheManager
  ∧ od_get "E" ([] : list (string * list Z)) = None
  ∧ FramesTracker.track 0 "E" None ∅ None sample_world_1
    = (Ok tt, sample_world_empty)
  ∧ SuspendedFramesManager.get_topmost_frame_and_frame_id_to_line
      sample_world_empty "E"
    = Raise IndexError.
Proof.
  assert (heap_trackers sample_world_1 !! 0
          = Some (MkTracker (Some TheManager) [] ∅ [] ∅ None false ∅)) as Hr
    by reflexivity.
  assert (Some TheManager = Some TheManager) as Hm by reflexivity.
  assert (od_get "E" ([] : list (string * list Z)) = None) as Hfresh
    by reflexivity.
  assert (FramesTracker.track 0 "E" None ∅ None sample_world_1
          = (Ok tt, sample_world_empty)) as Htrack by (by vm_compute).
  split_and!; [exact Hr|exact Hm|exact Hfresh|exact Htrack|].
  destruct (X19_track_without_frame
              (λ (tid : string) (fr : frame) (reason : nat) (msg : string)
                 (kind : nat) (lines : gmap Z Z), tt)
              sample_world_1 0 _ TheManager "E" ∅ None 0 "" 0 Hr Hm Hfresh)
    as (w' & tr' & Htrack' & _ & _ & _ & _ & _ & Htop & _).
  rewrite Htrack in Htrack'. injection Htrack' as <-. exact Htop.
Defined.

(** X20. After [track], every frame of the chain can be looked up: with
    frames of distinct identities, [get_variable(id(frame))] of the
    manager returns the [_FrameVariable] node that the call built for the
    frame, whose value is the frame itself,
    [get_thread_id_for_variable_reference] gives the thread id, and
    [find_frame] with the effective id and the identity of the frame
    returns the frame, unless a fabricated frame hides it. *)
Theorem X20_tracked_frames_resolvable {E : Externals} (w : world)
    (self : tracker_ref) (tr : tracker_state) (m : manager_ref)
    (thread_id : string) (top : option frame) (frame_id_to_lineno : gmap Z Z)
    (frame_custom_thread_id : option string) :
  heap_trackers w !! self = Some tr →
  _suspended_frames_manager tr = Some m →
  NoDup (map f_id (frame_chain_opt top)) →
  let eid := py_or frame_custom_thread_id thread_id in
  ∃ w',
    FramesTracker.track self thread_id top frame_id_to_lineno
      frame_custom_thread_id w = (Ok tt, w')
    ∧ ∀ fr, fr ∈ frame_chain_opt top →
        (∃ n nd,
           SuspendedFramesManager.get_variable w' (f_id fr) = Ok n
           ∧ heap_nodes w' !! n = Some nd
           ∧ nd = _FrameVariable fr self
           ∧ get_value nd = inr fr
           ∧ get_variable_reference nd = f_id fr
           ∧ (length (heap_nodes w) ≤ n)%nat)
        ∧ SuspendedFramesManager.get_thread_id_for_variable_reference w'
            (f_id fr) = Some thread_id
        ∧ (fake_frame w eid (f_id fr) = None →
           SuspendedFramesManager.find_frame eid (FidInt (f_id fr)) w'
           = (Some fr, w')).
Proof.
  intros Hr Hm Hnd eid.
  destruct (track_result self thread_id top frame_id_to_lineno
              frame_custom_thread_id w tr m Hr Hm)
    as (w' & Htrack & Hself & _ & Hthreads & Hindex & Hmain & _ & _).
  fold eid in Hself, Hthreads.
  set (chain := frame_chain_opt top) in *.
  set (tr' := track_local eid thread_id chain (length (heap_nodes w))
                (track_pre_local eid thread_id frame_id_to_lineno tr)) in *.
  exists w'. split; [exact Htrack|]. intros fr Hfr.
  assert (f_id fr ∈ map f_id chain) as Hin.
  { apply list_elem_of_fmap. by exists fr. }
  assert (SuspendedFramesManager._get_tracker_for_variable_reference w'
            (f_id fr) = Some self) as Hroute.
  { unfold SuspendedFramesManager._get_tracker_for_variable_reference.
    by rewrite Hindex, index_after_track_in. }
  destruct (track_local_variable_in eid thread_id chain
              (length (heap_nodes w))
              (track_pre_local eid thread_id frame_id_to_lineno tr)
              (f_id fr) Hin) as (i & g & Hg & Hid & Hvar).
  fold tr' in Hvar.
  assert (g = fr) as ->.
  { apply list_elem_of_lookup in Hfr as [j Hj].
    assert (i = j) as ->; [|congruence].
    apply (NoDup_lookup (map f_id chain) i j (f_id fr)); [done| |].
    - by rewrite list_lookup_fmap, Hg, <-Hid.
    - by rewrite list_lookup_fmap, Hj. }
  split_and!.
  - exists (length (heap_nodes w) + i), (_FrameVariable fr self).
    split_and!; [| |done|done|done|lia].
    + unfold SuspendedFramesManager.get_variable. rewrite Hroute, Hself.
      unfold FramesTracker.get_variable. by rewrite Hvar.
    + rewrite (track_eq self thread_id top frame_id_to_lineno
                 frame_custom_thread_id w tr m Hr Hm) in Htrack.
      injection Htrack as <-. cbn [heap_nodes].
      rewrite lookup_app_r by lia.
      replace (length (heap_nodes w) + i - length (heap_nodes w)) with i
        by lia.
      fold chain. by rewrite list_lookup_fmap, Hg.
  - unfold SuspendedFramesManager.get_thread_id_for_variable_reference.
    by rewrite Hroute, Hself.
  - intros Hfake. unfold SuspendedFramesManager.find_frame.
    rewrite (find_frame_try_int w' eid (FidInt (f_id fr)) (f_id fr))
      by done.
    assert (fake_frame w' eid (f_id fr) = None) as ->.
    { rewrite (track_eq self thread_id top frame_id_to_lineno
                 frame_custom_thread_id w tr m Hr Hm) in Htrack.
      injection Htrack as <-. exact Hfake. }
    unfold SuspendedFramesManager.get_frame_tracker.
    rewrite Hthreads, od_get_set_eq, Hself.
    unfold FramesTracker.find_frame, tr'.
    by rewrite track_local_frame_NoDup_ids.
Qed.

Lemma X20_tracked_frames_resolvable_witness :
  heap_trackers sample_world_1 !! 0
  = Some (MkTracker (Some TheManager) [] ∅ [] ∅ None false ∅)
  ∧ Some TheManager = Some TheManager
  ∧ NoDup (map f_id (frame_chain_opt (Some sample_frame_F2)))
  ∧ sample_frame_F1 ∈ frame_chain_opt (Some sample_frame_F2)
  ∧ ∃ w',
      FramesTracker.track 0 "T" (Some sample_frame_F2) ∅ None sample_world_1
      = (Ok tt, w')
      ∧ SuspendedFramesManager.get_thread_id_for_variable_reference w' 101
        = Some "T".
Proof.
  assert (heap_trackers sample_world_1 !! 0
          = Some (MkTracker (Some TheManager) [] ∅ [] ∅ None false ∅)) as Hr
    by reflexivity.
  assert (Some TheManager = Some TheManager) as Hm by reflexivity.
  assert (NoDup (map f_id (frame_chain_opt (Some sample_frame_F2)))) as Hnd.
  { apply (bool_decide_unpack _). by vm_compute. }
  assert (sample_frame_F1 ∈ frame_chain_opt (Some sample_frame_F2)) as Hin.
  { right. left. }
  split_and!; [exact Hr|exact Hm|exact Hnd|exact Hin|].
  destruct (X20_tracked_frames_resolvable (E := sample_externals)
              sample_world_1 0 _ TheManager "T" (Some sample_frame_F2) ∅ None
              Hr Hm Hnd) as (w' & Htrack & Hall).
  exists w'. split; [exact Htrack|].
  exact (proj1 (proj2 (Hall sample_frame_F1 Hin))).
Defined.

(** ** A whole suspension *)

Lemma od_pop_set_fresh {K V : Type} `{EqDecision K} (d : list (K * V)) k v :
  od_get k d = None → od_pop k (od_set k v d) = d.
Proof.
  induction d as [|[k0 v0] d IH]; simpl.
  - intros _. by rewrite decide_True.
  - destruct (decide (k = k0)) as [->|Hne]; [done|]. intros Hd. simpl.
    rewrite decide_False by done. by rewrite IH.
Qed.

Lemma od_keys_alter {K V : Type} `{EqDecision K} (d : list (K * V)) f k :
  od_keys (od_alter f k d) = od_keys d.
Proof.
  unfold od_keys. induction d as [|[k0 v0] d IH]; simpl; [done|].
  destruct (decide (k = k0)); simpl; [done|]. by rewrite IH.
Qed.

Lemma track_local_thread_keys eid tid chain n t :
  od_keys (_thread_id_to_frame_ids (track_local eid tid chain n t))
  = od_keys (_thread_id_to_frame_ids t).
Proof.
  revert n t. induction chain as [|fr chain IH]; intros n t; [done|].
  cbn [track_local]. rewrite IH. simpl. apply od_keys_alter.
Qed.

(** The frame table of a tracker after [track]: its keys are those it had
    and the identities of the frames of the chain. *)
Lemma track_local_frame_keys eid tid chain n t h :
  h ∈ od_keys (_frame_id_to_frame (track_local eid tid chain n t))
  ↔ h ∈ od_keys (_frame_id_to_frame t) ∨ h ∈ map f_id chain.
Proof.
  rewrite <-!od_get_is_Some.
  destruct (decide (h ∈ map f_id chain)) as [Hin|Hin].
  - destruct (track_local_frame_in eid tid chain n t h Hin)
      as (g & _ & _ & ->). split; eauto.
  - rewrite track_local_frame_notin by done. split; [by left|].
    by intros [?|?].
Qed.

(** X21. A whole suspension through [track_frames]: when the thread has
    no tracker yet and none of its frames is in the manager's index, the
    context manager opens a tracker, tracks the frames, serves any number
    of variable requests and on exit [untrack_all] cannot fail: the call
    returns normally, the manager is exactly as it was before (thread
    map, index and fabricated frames), nothing was written to
    [sys.stderr], the tracker of the session is left cleared, and the
    other trackers kept their frames and threads (their line maps are
    left out, see [forget_lines]). *)
Theorem X21_track_frames_round_trip {E : Externals} (w : world)
    (thread_id : string) (top : option frame) (frame_id_to_lineno : gmap Z Z)
    (frame_custom_thread_id : option string) (acts : list action) :
  let eid := py_or frame_custom_thread_id thread_id in
  SuspendedFramesManager.get_frame_tracker w eid = None →
  (∀ fr, fr ∈ frame_chain_opt top →
     _variable_reference_to_frames_tracker (the_manager w) !! f_id fr = None) →
  Forall expansion acts →
  ∃ w',
    SuspendedFramesManager.track_frames
      (suspension thread_id top frame_id_to_lineno frame_custom_thread_id
         acts) w
    = (Ok tt, w')
    ∧ the_manager w' = the_manager w
    ∧ stderr w' = stderr w
    ∧ heap_trackers w' !! length (heap_trackers w) = Some cleared_tracker
    ∧ length (heap_trackers w') = S (length (heap_trackers w))
    ∧ (∀ r tr, heap_trackers w !! r = Some tr →
         ∃ tr', heap_trackers w' !! r = Some tr'
                ∧ _suspended_frames_manager tr' = _suspended_frames_manager tr
                ∧ _frame_id_to_frame tr' = _frame_id_to_frame tr
                ∧ _frame_id_to_main_thread_id tr'
                  = _frame_id_to_main_thread_id tr
                ∧ _thread_id_to_frame_ids tr' = _thread_id_to_frame_ids tr
                ∧ _main_thread_id tr' = _main_thread_id tr
                ∧ _untracked tr' = _untracked tr).
Proof.
  intros eid Hfree Hfresh Hacts.
  unfold SuspendedFramesManager.get_frame_tracker in Hfree.
  set (self := length (heap_trackers w)).
  set (fresh := MkTracker (Some TheManager) [] ∅ [] ∅ None false ∅).
  set (w0 := (FramesTracker.init w).2).
  set (chain := frame_chain_opt top) in *.
  assert (heap_trackers w0 !! self = Some fresh) as Hself0.
  { unfold w0. simpl. by apply list_lookup_middle. }
  pose proof (track_eq self thread_id top frame_id_to_lineno
                frame_custom_thread_id w0 fresh TheManager Hself0 eq_refl)
    as Htrack.
  cbv zeta in Htrack. fold eid chain in Htrack.
  set (tr1 := track_local eid thread_id chain (length (heap_nodes w0))
                (track_pre_local eid thread_id frame_id_to_lineno fresh)).
  set (w1 := (FramesTracker.track self thread_id top frame_id_to_lineno
                frame_custom_thread_id w0).2).
  assert (heap_trackers w1 !! self = Some tr1) as Hself1.
  { unfold w1. rewrite Htrack. cbn [snd heap_trackers].
    by rewrite list_lookup_alter_eq, Hself0. }
  assert (the_manager w1
          = MkManager (_thread_id_to_fake_frames (the_manager w))
              (od_set eid self (_thread_id_to_tracker (the_manager w)))
              (index_after_track self chain
                 (_variable_reference_to_frames_tracker (the_manager w))))
    as Hman1.
  { unfold w1. rewrite Htrack. by destruct w as [nds ts [ff tm ix] err]. }
  assert (stderr w1 = stderr w) as Herr1.
  { unfold w1. rewrite Htrack. cbn [snd stderr].
    change (_thread_id_to_tracker (the_manager w0))
      with (_thread_id_to_tracker (the_manager w)).
    by rewrite Hfree. }
  assert (∀ r tr, heap_trackers w !! r = Some tr →
            heap_trackers w1 !! r = Some tr) as Hold1.
  { intros r tr Hr. unfold w1. rewrite Htrack. cbn [snd heap_trackers].
    apply lookup_lt_Some in Hr as Hlt.
    rewrite list_lookup_alter_ne by (unfold self; lia).
    unfold w0. simpl. by apply lookup_app_l_Some. }
  assert (length (heap_trackers w1) = S (length (heap_trackers w))) as Hlen1.
  { unfold w1. rewrite Htrack. cbn [snd heap_trackers].
    rewrite length_alter. unfold w0. simpl. rewrite length_app. simpl. lia. }
  set (w2 := run acts w1).
  pose proof (run_grows acts w1 Hacts) as Hg. fold w2 in Hg.
  destruct (grows_trackers _ _ Hg self tr1 Hself1) as (tr2 & Hself2 & Hfg & _).
  destruct (forget_variables_fields _ _ Hfg)
    as (_ & Hframes2 & _ & Hthreads2 & _ & _ & Hu2).
  assert (_untracked tr2 = false) as Hflag.
  { rewrite Hu2. unfold tr1.
    by destruct (track_local_fields eid thread_id chain
                   (length (heap_nodes w0))
                   (track_pre_local eid thread_id frame_id_to_lineno fresh))
      as (_ & _ & _ & ->). }
  assert (od_keys (_thread_id_to_frame_ids tr2) = [eid]) as Hkeys.
  { rewrite Hthreads2. unfold tr1. by rewrite track_local_thread_keys. }
  assert (∀ h, h ∈ od_keys (_frame_id_to_frame tr2) ↔ h ∈ map f_id chain)
    as Hfkeys.
  { intros h. rewrite Hframes2. unfold tr1. rewrite track_local_frame_keys.
    simpl. split; [|by right]. by intros [?%elem_of_nil|?]. }
  assert (NoDup (od_keys (_frame_id_to_frame tr2))) as Hnd.
  { rewrite Hframes2. unfold tr1. apply track_local_keys_NoDup. simpl.
    constructor. }
  set (deleted :=
         FramesTracker.del_frame_ids (od_keys (_frame_id_to_frame tr2))
           (index_after_track self chain
              (_variable_reference_to_frames_tracker (the_manager w)))).
  assert (deleted.1 = Ok tt) as Hdel1.
  { apply del_frame_ids_succeeds; [done|]. intros k Hk%Hfkeys.
    rewrite index_after_track_in by done. eauto. }
  assert (deleted.2 = _variable_reference_to_frames_tracker (the_manager w))
    as Hdel2.
  { apply map_eq. intros h.
    destruct (decide (h ∈ od_keys (_frame_id_to_frame tr2))) as [Hin|Hin].
    - unfold deleted. rewrite del_frame_ids_Ok by done.
      apply Hfkeys, list_elem_of_fmap in Hin as (fr & -> & Hfr).
      symmetry. by apply Hfresh.
    - unfold deleted. rewrite del_frame_ids_notin by done.
      apply index_after_track_notin. by rewrite <-Hfkeys. }
  assert (FramesTracker.untrack_all self w2
          = (Ok tt,
             MkWorld (heap_nodes w2)
               (alter (λ _, cleared_tracker) self (heap_trackers w2))
               (the_manager w) (stderr w))) as Hun.
  { rewrite (untrack_all_eq self w2 tr2 Hself2 Hflag).
    rewrite (grows_manager _ _ Hg), (grows_stderr _ _ Hg), Hman1, Herr1.
    cbn [_variable_reference_to_frames_tracker _thread_id_to_tracker
         _thread_id_to_fake_frames].
    fold deleted. rewrite Hdel1, Hdel2, Hkeys.
    unfold FramesTracker.pop_thread_ids. cbn [fold_left].
    rewrite od_pop_set_fresh by done.
    by destruct (the_manager w). }
  eexists. split.
  { unfold SuspendedFramesManager.track_frames, suspension.
    change (FramesTracker.init w) with (self, w0). cbv beta iota.
    rewrite (surjective_pairing
               (FramesTracker.track self thread_id top frame_id_to_lineno
                  frame_custom_thread_id w0)).
    fold w1. rewrite Htrack. cbn [fst]. fold w2. by rewrite Hun. }
  cbn [the_manager stderr heap_trackers]. split_and!; [done|done| | |].
  - by rewrite list_lookup_alter_eq, Hself2.
  - by rewrite length_alter, (grows_length _ _ Hg).
  - intros r tr Hr. apply lookup_lt_Some in Hr as Hlt.
    rewrite list_lookup_alter_ne by (unfold self; lia).
    destruct (grows_trackers _ _ Hg r tr (Hold1 r tr Hr))
      as (tr' & Hr' & Hfg' & _).
    destruct (forget_variables_fields _ _ Hfg')
      as (Hm' & Hf' & Hmt' & Ht' & _ & Hmain' & Hu').
    by exists tr'.
Qed.

Lemma X21_track_frames_round_trip_witness :
  SuspendedFramesManager.get_frame_tracker initial_world (py_or None "T")
  = None
  ∧ (∀ fr, fr ∈ frame_chain_opt (Some sample_frame_F2) →
       _variable_reference_to_frames_tracker (the_manager initial_world)
         !! f_id fr = None)
  ∧ Forall expansion
      [Act_obtain_as_variable 0 "x" sample_int_42 None;
       Act_get_children_variables 0 None 0]
  ∧ ∃ w',
      SuspendedFramesManager.track_frames
        (suspension (E := sample_externals) "T" (Some sample_frame_F2) ∅ None
           [Act_obtain_as_variable 0 "x" sample_int_42 None;
            Act_get_children_variables 0 None 0])
        initial_world
      = (Ok tt, w')
      ∧ the_manager w' = the_manager initial_world.
Proof.
  assert (SuspendedFramesManager.get_frame_tracker initial_world
            (py_or None "T") = None) as Hfree by reflexivity.
  assert (∀ fr, fr ∈ frame_chain_opt (Some sample_frame_F2) →
            _variable_reference_to_frames_tracker (the_manager initial_world)
              !! f_id fr = None) as Hfresh by (intros fr _; reflexivity).
  assert (Forall expansion
            [Act_obtain_as_variable 0 "x" sample_int_42 None;
             Act_get_children_variables 0 None 0]) as Hacts
    by (repeat constructor).
  split_and!; [exact Hfree|exact Hfresh|exact Hacts|].
  destruct (X21_track_frames_round_trip (E := sample_externals) initial_world
              "T" (Some sample_frame_F2) ∅ None _ Hfree Hfresh Hacts)
    as (w' & Hcall & Hman & _).
  exists w'. split; [exact Hcall|exact Hman].
Defined.

(** X22. Sessions that do not share frames always close: in a state
    reached with exclusive [track] calls (no frame was given to a second
    tracker while a first one held it), [untrack_all] returns normally on
    every tracker; after the first call on a tracker the tracker is
    cleared and the manager no longer has it in its index nor in its
    thread map, and the state is again one reached with exclusive
    calls. *)
Theorem X22_exclusive_sessions_close {E : Externals} (w : world)
    (self : tracker_ref) (tr : tracker_state) :
  reachable_exclusive w →
  heap_trackers w !! self = Some tr →
  ∃ w',
    FramesTracker.untrack_all self w = (Ok tt, w')
    ∧ reachable_exclusive w'
    ∧ (_untracked tr = false →
       heap_trackers w' !! self = Some cleared_tracker
       ∧ ¬ registered w' self).
Proof.
  intros Hex Hr.
  pose proof (reachable_wf w (reachable_exclusive_reachable w Hex)) as Hwf.
  pose proof (reachable_exclusive_agrees w Hex) as Hagree.
  pose proof (untrack_all_succeeds self w tr Hwf Hagree Hr) as Hok.
  pose proof (reachable_exclusive_step w (Act_untrack_all self) Hex I)
    as Hex'.
  pose proof (wf_untrack_all self w Hwf) as Hwf'.
  cbn [step] in Hex'.
  destruct (FramesTracker.untrack_all self w) as [res w'] eqn:Hcall.
  cbn [fst snd] in *. subst res. exists w'. split_and!; [done|done|].
  intros Hu.
  destruct (untrack_all_removes self w w' tr Hr Hu Hcall) as (Hself & _).
  split; [done|].
  destruct (wf_closed _ Hwf' self cleared_tracker Hself eq_refl)
    as [Hindex Hthreads].
  intros [[h Hh]|[tid Htid]]; [by apply (Hindex h)|by apply (Hthreads tid)].
Qed.

Lemma X22_exclusive_sessions_close_witness :
  reachable_exclusive (E := sample_externals) sample_world_T
  ∧ heap_trackers sample_world_T !! 0
    = Some (MkTracker (Some TheManager)
              [(102%Z, sample_frame_F2); (101%Z, sample_frame_F1)]
              {[ 102%Z := "T"; 101%Z := "T" ]}
              [("T", [102%Z; 101%Z])] ∅ (Some "T") false
              {[ 102%Z := 0; 101%Z := 1 ]})
  ∧ ∃ w',
      FramesTracker.untrack_all 0 sample_world_T = (Ok tt, w')
      ∧ heap_trackers w' !! 0 = Some cleared_tracker.
Proof.
  assert (reachable_exclusive (E := sample_externals) sample_world_T) as Hw.
  { apply (reachable_exclusive_step _
             (Act_track 0 "T" (Some sample_frame_F2) ∅ None)).
    - apply (reachable_exclusive_step initial_world Act_new_tracker);
        [apply reachable_exclusive_init|exact I].
    - intros f r' _ Hf. by vm_compute in Hf. }
  assert (heap_trackers sample_world_T !! 0
          = Some (MkTracker (Some TheManager)
                    [(102%Z, sample_frame_F2); (101%Z, sample_frame_F1)]
                    {[ 102%Z := "T"; 101%Z := "T" ]}
                    [("T", [102%Z; 101%Z])] ∅ (Some "T") false
                    {[ 102%Z := 0; 101%Z := 1 ]})) as Hr by (by vm_compute).
  split_and!; [exact Hw|exact Hr|].
  destruct (X22_exclusive_sessions_close (E := sample_externals)
              sample_world_T 0 _ Hw Hr) as (w' & Hcall & _ & Hclear).
  exists w'. split; [exact Hcall|].
  exact (proj1 (Hclear eq_refl)).
Defined.

(** ** Variable data *)

(** X23. [get_var_data] of an object node never raises and is determined
    field by field: the name, with the prefix ['(return) '] exactly for a
    return value; the type name; the evaluate name the node was built
    with; a [variablesReference], the handle of the node, exactly when
    the value is a container; and the presentation attributes
    ['rawString'] (for the four string types) and ['readOnly'] (for a
    return value), in that order, the hint being left out when there is
    none.  The format options [fmt] only change the rendered value. *)
Theorem X23_var_data_of_object_node {E : Externals} (name : string)
    (val : value) (r : tracker_ref) (is_return_value : bool)
    (evaluate_name : option string) (fmt : option fmt_dict) :
  let self := _ObjectVariable name val r is_return_value evaluate_name in
  ∃ vd,
    get_var_data self fmt = Ok vd
    ∧ vd_name vd = (if is_return_value then "(return) " +:+ name else name)
    ∧ vd_type vd = v_type_name val
    ∧ vd_evaluateName vd = evaluate_name
    ∧ vd_variablesReference vd
      = match v_resolver val with
        | Some _ => Some (get_variable_reference self)
        | None => None
        end
    ∧ vd_presentationHint vd
      = match presentation_attributes (v_type_name val) is_return_value with
        | [] => None
        | attributes => Some attributes
        end
    ∧ ∀ fmt', ∃ s, get_var_data self fmt' = Ok (with_value s vd).
Proof.
  intros self. unfold self, get_var_data, get_variable_details,
    presentation_attributes, raw_string_types, with_value.
  destruct (bool_decide (v_type_name val ∈ _)), is_return_value;
    cbn [app]; (eexists; split_and!; [reflexivity|done..|]);
    intros fmt'; eexists; cbn; reflexivity.
Qed.

(** X24. A value that is no container has no children:
    [get_children_variables] of its node returns the empty list, whatever
    the format, and builds and registers nothing. *)
Theorem X24_leaf_nodes_have_no_children {E : Externals} (name : string)
    (val : value) (r : tracker_ref) (is_return_value : bool)
    (evaluate_name : option string) (fmt : option fmt_dict) (now : nat) (w : world) :
  v_resolver val = None →
  get_children_variables
    (_ObjectVariable name val r is_return_value evaluate_name) fmt now w
  = (Ok [], w)
  ∧ ∃ vd,
      get_var_data (_ObjectVariable name val r is_return_value evaluate_name)
        fmt = Ok vd
      ∧ vd_variablesReference vd = None.
Proof.
  intros Hleaf. split.
  - cbn [get_children_variables].
    unfold ObjectVariable_get_children_variables. by rewrite Hleaf.
  - unfold get_var_data, get_variable_details. rewrite Hleaf.
    destruct (bool_decide (v_type_name val ∈ _)), is_return_value;
      eexists; split; reflexivity.
Qed.

Lemma X24_leaf_nodes_have_no_children_witness :
  v_resolver sample_int_42 = None
  ∧ get_children_variables (E := sample_externals)
      (_ObjectVariable "x" sample_int_42 0 false (Some "x")) None 0
      sample_world_x
    = (Ok [], sample_world_x).
Proof.
  assert (v_resolver sample_int_42 = None) as Hleaf by reflexivity.
  split; [exact Hleaf|].
  exact (proj1 (X24_leaf_nodes_have_no_children (E := sample_externals)
                  "x" sample_int_42 0 false (Some "x") None 0
                  sample_world_x Hleaf)).
Defined.

(** ** [obtain_as_variable] on a new object *)

(** X25. [obtain_as_variable] on an object the tracker has no node for
    builds exactly one node: an object node with the given name and
    value, not a return value, whose evaluate name is the one given or,
    by default, the name.  The call returns it; from then on
    [get_variable] of the tracker answers with it for the identity of
    the object and as before for every other handle.  The earlier nodes,
    the other trackers, the manager and [sys.stderr] are as before. *)
Theorem X25_obtain_as_variable_builds_node {E : Externals} (w : world)
    (self : tracker_ref) (tr : tracker_state) (name : string) (val : value)
    (evaluate_name : option string) :
  heap_trackers w !! self = Some tr →
  FramesTracker.get_variable tr (v_id val) = Raise KeyError →
  let nd :=
    _ObjectVariable name val self false (Some (default name evaluate_name)) in
  ∃ n w' tr',
    FramesTracker.obtain_as_variable self name val evaluate_name w
    = (Ok n, w')
    ∧ heap_nodes w' = heap_nodes w ++ [nd]
    ∧ heap_nodes w' !! n = Some nd
    ∧ heap_trackers w' !! self = Some tr'
    ∧ FramesTracker.get_variable tr' (v_id val) = Ok n
    ∧ (∀ h, h ≠ v_id val →
         FramesTracker.get_variable tr' h = FramesTracker.get_variable tr h)
    ∧ forget_variables tr' = forget_variables tr
    ∧ (∀ r, r ≠ self → heap_trackers w' !! r = heap_trackers w !! r)
    ∧ the_manager w' = the_manager w
    ∧ stderr w' = stderr w.
Proof.
  intros Hr Hnew nd.
  assert (_variable_reference_to_variable tr !! v_id val = None) as Hnone.
  { unfold FramesTracker.get_variable in Hnew.
    by destruct (_variable_reference_to_variable tr !! v_id val). }
  rewrite (obtain_as_variable_fresh self name val evaluate_name w tr Hr Hnone).
  fold nd.
  exists (length (heap_nodes w)), (with_node nd self w),
    (with_variable_reference_to_variable
       (<[v_id val := length (heap_nodes w)]>) tr).
  split; [reflexivity|].
  unfold with_node. cbn [heap_nodes heap_trackers the_manager stderr].
  split_and!; try done.
  - by apply list_lookup_middle.
  - by rewrite list_lookup_alter_eq, Hr.
  - unfold FramesTracker.get_variable. simpl. by rewrite lookup_insert_eq.
  - intros h Hne. unfold FramesTracker.get_variable. simpl.
    by rewrite lookup_insert_ne.
  - intros r Hne. by rewrite list_lookup_alter_ne.
Qed.

Lemma X25_obtain_as_variable_builds_node_witness :
  heap_trackers sample_world_1 !! 0
  = Some (MkTracker (Some TheManager) [] ∅ [] ∅ None false ∅)
  ∧ FramesTracker.get_variable
      (MkTracker (Some TheManager) [] ∅ [] ∅ None false ∅)
      (v_id sample_int_42)
    = Raise KeyError
  ∧ ∃ n w',
      FramesTracker.obtain_as_variable 0 "x" sample_int_42 None sample_world_1
      = (Ok n, w')
      ∧ heap_nodes w' !! n
        = Some (_ObjectVariable "x" sample_int_42 0 false (Some "x")).
Proof.
  assert (heap_trackers sample_world_1 !! 0
          = Some (MkTracker (Some TheManager) [] ∅ [] ∅ None false ∅)) as Hr
    by reflexivity.
  assert (FramesTracker.get_variable
            (MkTracker (Some TheManager) [] ∅ [] ∅ None false ∅)
            (v_id sample_int_42)
          = Raise KeyError) as Hnew by reflexivity.
  split_and!; [exact Hr|exact Hnew|].
  destruct (X25_obtain_as_variable_builds_node (E := sample_externals)
              sample_world_1 0 _ "x" sample_int_42 None Hr Hnew)
    as (n & w' & tr' & Hcall & _ & Hnode & _).
  exists n, w'. split; [exact Hcall|exact Hnode].
Defined.
